(** * The chat view of ICT Mahagedara: conversation state machine

    A shallow embedding of [frontend/ict_mahagedara/src/pages/Chat.tsx]
    (the React component [Chat]) and of the chat part of
    [services/api.ts] ([chatApi], [authApi.getCurrentUser],
    [getAuthHeaders]).

    - JavaScript strings are sequences of UTF-16 code units ([list N]).
    - The [useState] cells of the component are the fields of [ChatState].
    - Every handler is written in a state-and-exception monad over the
      [World] (component state, [localStorage], router, the requests sent and
      the promises still pending).
    - An [async] function is cut at its [await]: the part before it runs in
      the event that calls the handler and leaves a [Pending] continuation
      (holding the variables the closure captured); the part after it runs
      when the promise settles.  A render is taken to happen between two
      events, so a handler sees the state as of the previous event. *)

From Stdlib Require Import String Ascii List NArith ZArith PeanoNat Bool Lia.
Import ListNotations.
Open Scope N_scope.
Open Scope list_scope.

(* ================================================================== *)
(** ** JavaScript strings *)

Definition jsstring : Type := list N.

(** An ASCII literal as code units. *)
Definition lit (s : string) : jsstring :=
  map N_of_ascii (list_ascii_of_string s).

(** [WhiteSpace] and [LineTerminator] of ECMAScript, the code points that
    [String.prototype.trim] strips. *)
Definition isWhiteSpace (c : N) : bool :=
  (c =? 0x09) || (c =? 0x0A) || (c =? 0x0B) || (c =? 0x0C) || (c =? 0x0D)
  || (c =? 0x20) || (c =? 0xA0) || (c =? 0x1680)
  || ((0x2000 <=? c) && (c <=? 0x200A))
  || (c =? 0x2028) || (c =? 0x2029) || (c =? 0x202F) || (c =? 0x205F)
  || (c =? 0x3000) || (c =? 0xFEFF).

Fixpoint trimStart (s : jsstring) : jsstring :=
  match s with
  | [] => []
  | c :: r => if isWhiteSpace c then trimStart r else s
  end.

Definition trimEnd (s : jsstring) : jsstring := rev (trimStart (rev s)).

Definition trim (s : jsstring) : jsstring := trimEnd (trimStart s).

(** Truthiness of a string: the empty string is falsy. *)
Definition truthy (s : jsstring) : bool :=
  match s with [] => false | _ :: _ => true end.

(** Truthiness of a [string | undefined] property. *)
Definition truthy_opt (o : option jsstring) : bool :=
  match o with Some s => truthy s | None => false end.

(** A [string | null] inside a template literal: [null] prints as "null". *)
Definition interpolate (o : option jsstring) : jsstring :=
  match o with Some s => s | None => lit "null" end.

(** [a || b] on a [string | undefined] left operand. *)
Definition or_else (o : option jsstring) (dflt : jsstring) : jsstring :=
  match o with
  | Some s => if truthy s then s else dflt
  | None => dflt
  end.

(* ================================================================== *)
(** ** Data model ([types/index.ts] and the state of [Chat]) *)

Inductive Mode : Type := session | stateless.

Inductive Role : Type := user_role | assistant.

Record Message : Type := mkMessage {
  role : Role;
  content : jsstring;
  isMarkdown : bool
}.

(** Of [User] the chat view reads [first_name] only. *)
Record User : Type := mkUser { first_name : jsstring }.

Record ChatState : Type := mkChatState {
  user : option User;
  sessionId : option jsstring;
  currentMode : Mode;
  messages : list Message;
  inputMessage : jsstring;
  isLoading : bool
}.

(** The state of the first render. *)
Definition initialState : ChatState :=
  {| user := None; sessionId := None; currentMode := session;
     messages := []; inputMessage := []; isLoading := false |}.

Definition mode_eqb (a b : Mode) : bool :=
  match a, b with
  | session, session | stateless, stateless => true
  | _, _ => false
  end.

(* ================================================================== *)
(** ** What a promise settles to *)

(** A thrown value: an [Error] with its message, or something that is not an
    instance of [Error]. *)
Inductive JsThrown : Type :=
| ErrorObj (message : jsstring)
| NonError.

Inductive Completion (A : Type) : Type :=
| Normal (a : A)
| Throw (e : JsThrown).
Arguments Normal {A} a.
Arguments Throw {A} e.

(** Bodies of the responses, at the types [api.ts] declares for them. *)
Record ErrorBody : Type := mkErrorBody { detail : option jsstring }.
Record SessionBody : Type := mkSessionBody { new_session_id : jsstring }.
Record SendBody : Type := mkSendBody {
  response : jsstring;
  session_id : option jsstring
}.

(** The outcome of one [fetch] and of the [response.json()] after it:
    the [fetch] promise rejects, or a response arrives with [ok] false or
    true, and reading its JSON body succeeds or throws. *)
Inductive FetchResult (B : Type) : Type :=
| FetchRejects (e : JsThrown)
| FetchNotOk (errBody : Completion ErrorBody)
| FetchOk (body : Completion B).
Arguments FetchRejects {B} e.
Arguments FetchNotOk {B} errBody.
Arguments FetchOk {B} body.

(* ================================================================== *)
(** ** The world the handlers run in *)

Inductive Route : Type := ChatRoute | LoginRoute.

Inductive Method : Type := GET | POST.

Record Request : Type := mkRequest {
  method : Method;
  endpoint : jsstring;            (* appended to API_URL *)
  authorization : option jsstring; (* the bearer token, when one is stored *)
  body_message : option jsstring   (* the [message] of the JSON body *)
}.

(** A handler suspended at an [await], with what its closure holds. *)
Inductive Pending : Type :=
| AwaitGetCurrentUser                 (* checkAuth *)
| AwaitCreateSession                  (* initSession *)
| AwaitSendMessage (capturedMode : Mode). (* handleSubmit *)

Record World : Type := mkWorld {
  ui : ChatState;
  access_token : option jsstring;  (* localStorage['access_token'] *)
  route : Route;
  sent : list Request;             (* every request dispatched, oldest first *)
  inflight : list Pending          (* promises not settled yet, oldest first *)
}.

(* ================================================================== *)
(** ** State-and-exception monad *)

Definition M (A : Type) : Type := World -> Completion A * World.

Definition ret {A} (a : A) : M A := fun w => (Normal a, w).

Definition bind {A B} (m : M A) (k : A -> M B) : M B :=
  fun w => match m w with
           | (Normal a, w') => k a w'
           | (Throw e, w') => (Throw e, w')
           end.

(** The value (or exception) an awaited promise settled to. *)
Definition settled {A} (c : Completion A) : M A := fun w => (c, w).

Definition tryCatch {A} (body : M A) (handler : JsThrown -> M A) : M A :=
  fun w => match body w with
           | (Normal a, w') => (Normal a, w')
           | (Throw e, w') => handler e w'
           end.

(** [finally] runs on both exits; an exception of its own replaces the
    completion of the block. *)
Definition tryFinally {A} (body : M A) (fin : M unit) : M A :=
  fun w => match body w with
           | (c, w') => match fin w' with
                        | (Normal _, w'') => (c, w'')
                        | (Throw e, w'') => (Throw e, w'')
                        end
           end.

Declare Scope chat_scope.
Delimit Scope chat_scope with chat.
Notation "x <- m ;; k" := (bind m (fun x => k))
  (at level 61, m at next level, right associativity) : chat_scope.
Notation "m ;; k" := (bind m (fun _ => k))
  (at level 61, right associativity) : chat_scope.
Open Scope chat_scope.

Definition exec {A} (m : M A) (w : World) : World := snd (m w).

(** The state of the last render, as the handler's closure sees it. *)
Definition rendered : M ChatState := fun w => (Normal (ui w), w).

Definition modify_ui (f : ChatState -> ChatState) : M unit :=
  fun w => (Normal tt,
            {| ui := f (ui w); access_token := access_token w;
               route := route w; sent := sent w; inflight := inflight w |}).

Definition setUser (u : option User) : M unit :=
  modify_ui (fun s =>
    {| user := u; sessionId := sessionId s; currentMode := currentMode s;
       messages := messages s; inputMessage := inputMessage s;
       isLoading := isLoading s |}).

Definition setSessionId (v : option jsstring) : M unit :=
  modify_ui (fun s =>
    {| user := user s; sessionId := v; currentMode := currentMode s;
       messages := messages s; inputMessage := inputMessage s;
       isLoading := isLoading s |}).

Definition setCurrentMode (m : Mode) : M unit :=
  modify_ui (fun s =>
    {| user := user s; sessionId := sessionId s; currentMode := m;
       messages := messages s; inputMessage := inputMessage s;
       isLoading := isLoading s |}).

(** [setMessages] with an updater function; [setMessages(v)] is the
    constant updater. *)
Definition updateMessages (f : list Message -> list Message) : M unit :=
  modify_ui (fun s =>
    {| user := user s; sessionId := sessionId s; currentMode := currentMode s;
       messages := f (messages s); inputMessage := inputMessage s;
       isLoading := isLoading s |}).

Definition setMessages (v : list Message) : M unit :=
  updateMessages (fun _ => v).

Definition setInputMessage (v : jsstring) : M unit :=
  modify_ui (fun s =>
    {| user := user s; sessionId := sessionId s; currentMode := currentMode s;
       messages := messages s; inputMessage := v;
       isLoading := isLoading s |}).

Definition setIsLoading (b : bool) : M unit :=
  modify_ui (fun s =>
    {| user := user s; sessionId := sessionId s; currentMode := currentMode s;
       messages := messages s; inputMessage := inputMessage s;
       isLoading := b |}).

Definition getToken : M (option jsstring) :=
  fun w => (Normal (access_token w), w).

Definition removeToken : M unit :=
  fun w => (Normal tt,
            {| ui := ui w; access_token := None; route := route w;
               sent := sent w; inflight := inflight w |}).

Definition navigate (r : Route) : M unit :=
  fun w => (Normal tt,
            {| ui := ui w; access_token := access_token w; route := r;
               sent := sent w; inflight := inflight w |}).

(** Send [rq] and suspend: the handler returns to the event loop and [k]
    waits for the promise. *)
Definition dispatch (rq : Request) (k : Pending) : M unit :=
  fun w => (Normal tt,
            {| ui := ui w; access_token := access_token w; route := route w;
               sent := sent w ++ [rq]; inflight := inflight w ++ [k] |}).

(* ================================================================== *)
(** ** [services/api.ts] *)

(** [getAuthHeaders]: the Authorization header is there when a token is
    stored and truthy. *)
Definition getAuthHeaders : M (option jsstring) :=
  token <- getToken ;;
  ret (if truthy_opt token then token else None).

(** [authApi.getCurrentUser], up to its [fetch]. *)
Definition getCurrentUser_request : M Request :=
  auth <- getAuthHeaders ;;
  ret {| method := GET; endpoint := lit "/auth/me";
         authorization := auth; body_message := None |}.

(** ... and from the [fetch] on. *)
Definition getCurrentUser_settle (f : FetchResult User) : Completion User :=
  match f with
  | FetchRejects e => Throw e
  | FetchNotOk _ => Throw (ErrorObj (lit "Failed to get user info"))
  | FetchOk body => body
  end.

(** [chatApi.createSession]. *)
Definition createSession_request : M Request :=
  auth <- getAuthHeaders ;;
  ret {| method := POST; endpoint := lit "/chat/session";
         authorization := auth; body_message := None |}.

Definition createSession_settle (f : FetchResult SessionBody)
  : Completion SessionBody :=
  match f with
  | FetchRejects e => Throw e
  | FetchNotOk _ => Throw (ErrorObj (lit "Failed to create session"))
  | FetchOk body => body
  end.

(** [chatApi.sendMessage]: the endpoint is chosen by the mode alone. *)
Definition sendMessage_endpoint (sid : option jsstring) (mode : Mode)
  : jsstring :=
  match mode with
  | session => lit "/chat/session/" ++ interpolate sid
  | stateless => lit "/chat/stateless"
  end.

Definition sendMessage_request (sid : option jsstring) (message : jsstring)
    (mode : Mode) : M Request :=
  auth <- getAuthHeaders ;;
  ret {| method := POST; endpoint := sendMessage_endpoint sid mode;
         authorization := auth; body_message := Some message |}.

Definition sendMessage_settle (f : FetchResult SendBody)
  : Completion SendBody :=
  match f with
  | FetchRejects e => Throw e
  | FetchNotOk (Throw e) => Throw e
  | FetchNotOk (Normal error) =>
      Throw (ErrorObj (or_else (detail error) (lit "Failed to send message")))
  | FetchOk body => body
  end.

(* ================================================================== *)
(** ** [pages/Chat.tsx] *)

Definition welcomeText : jsstring :=
  lit "Hello! I'm Prasad K. Gamage, your AI learning assistant. How can I help you today?".

Definition statelessText : jsstring :=
  lit "Stateless mode activated. Each message will be independent.".

(** The cross mark U+274C, then " Error: ". *)
Definition errorPrefix : jsstring := 0x274C :: lit " Error: ".

Definition addMessage (r : Role) (c : jsstring) (md : bool) : M unit :=
  updateMessages (fun prev =>
    prev ++ [{| role := r; content := c; isMarkdown := md |}]).

Definition showError (message : jsstring) : M unit :=
  addMessage assistant (errorPrefix ++ message) false.

(** [initSession], up to [await chatApi.createSession()]. *)
Definition initSession_begin : M unit :=
  rq <- createSession_request ;;
  dispatch rq AwaitCreateSession.

(** [initSession], from the settled promise on. *)
Definition initSession_resume (r : Completion SessionBody) : M unit :=
  tryCatch
    (b <- settled r ;;
     setSessionId (Some (new_session_id b)) ;;
     addMessage assistant welcomeText false)
    (fun _ => showError (lit "Failed to initialize chat session")).

(** [checkAuth], up to [await authApi.getCurrentUser()]. *)
Definition checkAuth_begin : M unit :=
  token <- getToken ;;
  if negb (truthy_opt token) then navigate LoginRoute
  else
    rq <- getCurrentUser_request ;;
    dispatch rq AwaitGetCurrentUser.

(** [checkAuth], from the user data on; [initSession] catches what it
    throws, so nothing is left to do after [await initSession()]. *)
Definition checkAuth_resume (r : Completion User) : M unit :=
  tryCatch
    (userData <- settled r ;;
     setUser (Some userData) ;;
     initSession_begin)
    (fun _ => removeToken ;; navigate LoginRoute).

(** The two synchronous updates every mode change starts with. *)
Definition handleModeChange_clear (mode : Mode) : M unit :=
  setCurrentMode mode ;;
  setMessages [].

Definition handleModeChange (mode : Mode) : M unit :=
  handleModeChange_clear mode ;;
  match mode with
  | session => initSession_begin
  | stateless =>
      setSessionId None ;;
      addMessage assistant statelessText false
  end.

Definition handleLogout : M unit :=
  removeToken ;;
  navigate LoginRoute.

(** The guard of [handleSubmit]. *)
Definition submit_refused (st : ChatState) : bool :=
  negb (truthy (trim (inputMessage st))) || isLoading st.

(** [handleSubmit], up to [await chatApi.sendMessage(...)]. *)
Definition handleSubmit_begin : M unit :=
  st <- rendered ;;
  if submit_refused st then ret tt
  else
    let userMessage := trim (inputMessage st) in
    setInputMessage [] ;;
    addMessage user_role userMessage false ;;
    setIsLoading true ;;
    rq <- sendMessage_request (sessionId st) userMessage (currentMode st) ;;
    dispatch rq (AwaitSendMessage (currentMode st)).

Definition error_message (error : JsThrown) : jsstring :=
  match error with
  | ErrorObj message => message
  | NonError => lit "Failed to send message"
  end.

(** [handleSubmit], from the settled promise on; [currentMode] is the value
    the closure captured when the form was submitted. *)
Definition handleSubmit_resume (currentMode : Mode) (r : Completion SendBody)
  : M unit :=
  tryFinally
    (tryCatch
       (res <- settled r ;;
        (if mode_eqb currentMode session && truthy_opt (session_id res)
         then setSessionId (session_id res)
         else ret tt) ;;
        addMessage assistant (response res) true)
       (fun error => showError (error_message error)))
    (setIsLoading false).

(* ================================================================== *)
(** ** Events *)

Inductive Settled : Type :=
| SettledUser (f : FetchResult User)
| SettledSession (f : FetchResult SessionBody)
| SettledSend (f : FetchResult SendBody).

Inductive Event : Type :=
| EvChange (value : jsstring)   (* onChange of the input *)
| EvSubmit                      (* onSubmit of the form *)
| EvModeClick (mode : Mode)     (* one of the two mode buttons *)
| EvLogout
| EvSettle (n : nat) (s : Settled). (* the n-th pending promise settles *)

Fixpoint remove_nth {A} (n : nat) (l : list A) : list A :=
  match l, n with
  | [], _ => []
  | _ :: r, O => r
  | x :: r, S n' => x :: remove_nth n' r
  end.

Definition forget (n : nat) : M unit :=
  fun w => (Normal tt,
            {| ui := ui w; access_token := access_token w; route := route w;
               sent := sent w; inflight := remove_nth n (inflight w) |}).

(** The continuation a settled promise wakes up; [None] when the value is
    not one this continuation waits for. *)
Definition resume (p : Pending) (s : Settled) : option (M unit) :=
  match p, s with
  | AwaitGetCurrentUser, SettledUser f =>
      Some (checkAuth_resume (getCurrentUser_settle f))
  | AwaitCreateSession, SettledSession f =>
      Some (initSession_resume (createSession_settle f))
  | AwaitSendMessage m, SettledSend f =>
      Some (handleSubmit_resume m (sendMessage_settle f))
  | _, _ => None
  end.

(** The handler an event runs; [None] when the event cannot happen. *)
Definition handler (ev : Event) (w : World) : option (M unit) :=
  match ev with
  | EvChange v => Some (setInputMessage v)
  | EvSubmit => Some handleSubmit_begin
  | EvModeClick m => Some (handleModeChange m)
  | EvLogout => Some handleLogout
  | EvSettle n s =>
      match nth_error (inflight w) n with
      | Some p => match resume p s with
                  | Some k => Some (forget n ;; k)
                  | None => None
                  end
      | None => None
      end
  end.

(** One event; once the router has left the chat page the component is
    unmounted and takes no more events. *)
Definition step (ev : Event) (w : World) : option (Completion unit * World) :=
  match route w with
  | LoginRoute => None
  | ChatRoute =>
      match handler ev w with
      | Some m => Some (m w)
      | None => None
      end
  end.

(** A trace of events; an exception that escapes a handler ends the run with
    [Throw]. *)
Fixpoint run (evs : list Event) (w : World)
  : option (Completion unit * World) :=
  match evs with
  | [] => Some (Normal tt, w)
  | ev :: rest =>
      match step ev w with
      | Some (Normal _, w') => run rest w'
      | other => other
      end
  end.

(** The first render and the effect that calls [checkAuth]. *)
Definition boot (token : option jsstring) : World :=
  exec checkAuth_begin
    {| ui := initialState; access_token := token; route := ChatRoute;
       sent := []; inflight := [] |}.

Definition reachable (w : World) : Prop :=
  exists token evs, run evs (boot token) = Some (Normal tt, w).

(* ================================================================== *)
(** ** The operations of the specification, as traces *)

(** [submit(userText)]: the user types [userText], submits the form, and the
    request settles with [f] before anything else happens. *)
Definition submit (userText : jsstring) (f : FetchResult SendBody)
    (w : World) : option (Completion unit * World) :=
  run [EvChange userText; EvSubmit;
       EvSettle (length (inflight w)) (SettledSend f)] w.

(** [switchMode(Session)], with the session request settling with [f]
    before anything else happens. *)
Definition switchToSession (f : FetchResult SessionBody) (w : World)
  : option (Completion unit * World) :=
  run [EvModeClick session;
       EvSettle (length (inflight w)) (SettledSession f)] w.

(** [switchMode(Stateless)]; it has no [await]. *)
Definition switchToStateless (w : World) : option (Completion unit * World) :=
  run [EvModeClick stateless] w.

(** The entries the handlers write. *)
Definition userEntry (text : jsstring) : Message :=
  {| role := user_role; content := text; isMarkdown := false |}.

Definition welcomeEntry : Message :=
  {| role := assistant; content := welcomeText; isMarkdown := false |}.

Definition statelessEntry : Message :=
  {| role := assistant; content := statelessText; isMarkdown := false |}.

Definition errorEntry (message : jsstring) : Message :=
  {| role := assistant; content := errorPrefix ++ message;
     isMarkdown := false |}.

Definition initErrorEntry : Message :=
  errorEntry (lit "Failed to initialize chat session").

(** The assistant entry for a settled [chatApi.sendMessage]. *)
Definition replyEntry (r : Completion SendBody) : Message :=
  match r with
  | Normal res =>
      {| role := assistant; content := response res; isMarkdown := true |}
  | Throw e => errorEntry (error_message e)
  end.

(** The world right after an accepted submission. *)
Definition submitted (w : World) : World :=
  let st := ui w in
  let userMessage := trim (inputMessage st) in
  {| ui := {| user := user st; sessionId := sessionId st;
              currentMode := currentMode st;
              messages := messages st ++ [userEntry userMessage];
              inputMessage := []; isLoading := true |};
     access_token := access_token w;
     route := route w;
     sent := sent w ++
       [{| method := POST;
           endpoint := sendMessage_endpoint (sessionId st) (currentMode st);
           authorization :=
             if truthy_opt (access_token w) then access_token w else None;
           body_message := Some userMessage |}];
     inflight := inflight w ++ [AwaitSendMessage (currentMode st)] |}.

(** Runs in which a mode button is pressed only while nothing is pending. *)
Definition quiet (ev : Event) (w : World) : bool :=
  match ev with
  | EvModeClick _ => match inflight w with [] => true | _ :: _ => false end
  | _ => true
  end.

Fixpoint run_quiet (evs : list Event) (w : World)
  : option (Completion unit * World) :=
  match evs with
  | [] => Some (Normal tt, w)
  | ev :: rest =>
      if quiet ev w then
        match step ev w with
        | Some (Normal _, w') => run_quiet rest w'
        | other => other
        end
      else None
  end.

(** The outcome the specification promises for a switch to session mode:
    a handle and the welcome entry, or no handle and an error entry. *)
Definition session_switch_promised (w' : World) : Prop :=
  (sessionId (ui w') <> None /\ messages (ui w') = [welcomeEntry]) \/
  (sessionId (ui w') = None /\
   exists message, messages (ui w') = [errorEntry message]).

(** In stateless mode no handle is stored and nothing pending could store
    one. *)
Definition stateless_clean (w : World) : Prop :=
  currentMode (ui w) = stateless ->
  sessionId (ui w) = None /\
  Forall (fun p => p = AwaitSendMessage stateless) (inflight w).

(* ================================================================== *)
(** ** Sample worlds *)

Definition sampleToken : option jsstring := Some (lit "token").

Definition world_of (r : option (Completion unit * World)) : World :=
  match r with
  | Some (_, w) => w
  | None => boot None
  end.

(** Signed in, session "S1" created, welcome shown. *)
Definition sessionWorld : World :=
  world_of
    (run [EvSettle 0 (SettledUser (FetchOk (Normal (mkUser (lit "Nimal")))));
          EvSettle 0 (SettledSession
                        (FetchOk (Normal (mkSessionBody (lit "S1")))))]
       (boot sampleToken)).

(** Signed in, but the session could not be created. *)
Definition sessionlessWorld : World :=
  world_of
    (run [EvSettle 0 (SettledUser (FetchOk (Normal (mkUser (lit "Nimal")))));
          EvSettle 0 (SettledSession (FetchNotOk (Normal (mkErrorBody None))))]
       (boot sampleToken)).

(** After a switch to stateless mode. *)
Definition statelessWorld : World :=
  world_of (switchToStateless sessionWorld).

(* ================================================================== *)
(** ** Bookkeeping on requests and pending promises *)

Definition is_send (p : Pending) : bool :=
  match p with AwaitSendMessage _ => true | _ => false end.

(** The number of [chatApi.sendMessage] calls still pending. *)
Definition count_sends (l : list Pending) : nat :=
  length (filter is_send l).

(** The Authorization header [getAuthHeaders] builds from a stored token. *)
Definition bearer (token : option jsstring) : option jsstring :=
  if truthy_opt token then token else None.

Definition is_mode_click (ev : Event) : bool :=
  match ev with EvModeClick _ => true | _ => false end.

(* ================================================================== *)
(** ** Handlers over any world *)

(** The state-and-exception monad again, for the pages whose world is not
    the chat's. *)
Module Eff.

Definition t (W A : Type) : Type := W -> Completion A * W.

Definition ret {W A} (a : A) : t W A := fun w => (Normal a, w).

Definition bind {W A B} (m : t W A) (k : A -> t W B) : t W B :=
  fun w => match m w with
           | (Normal a, w') => k a w'
           | (Throw e, w') => (Throw e, w')
           end.

Definition settled {W A} (c : Completion A) : t W A := fun w => (c, w).

Definition get {W} : t W W := fun w => (Normal w, w).

Definition modify {W} (f : W -> W) : t W unit := fun w => (Normal tt, f w).

Definition tryCatch {W A} (body : t W A) (handler : JsThrown -> t W A)
  : t W A :=
  fun w => match body w with
           | (Normal a, w') => (Normal a, w')
           | (Throw e, w') => handler e w'
           end.

Definition tryFinally {W A} (body : t W A) (fin : t W unit) : t W A :=
  fun w => match body w with
           | (c, w') => match fin w' with
                        | (Normal _, w'') => (c, w'')
                        | (Throw e, w'') => (Throw e, w'')
                        end
           end.

End Eff.

Declare Scope eff_scope.
Delimit Scope eff_scope with eff.
Notation "x <- m ;; k" := (Eff.bind m (fun x => k))
  (at level 61, m at next level, right associativity) : eff_scope.
Notation "m ;; k" := (Eff.bind m (fun _ => k))
  (at level 61, right associativity) : eff_scope.

(** [a === b] on strings. *)
Fixpoint jseqb (a b : jsstring) : bool :=
  match a, b with
  | [], [] => true
  | x :: a', y :: b' => (x =? y) && jseqb a' b'
  | _, _ => false
  end.

(** [err instanceof Error ? err.message : fallback]. *)
Definition message_or (err : JsThrown) (fallback : jsstring) : jsstring :=
  match err with
  | ErrorObj message => message
  | NonError => fallback
  end.

(** A [fetch] whose error body has its own shape. *)
Inductive Fetched (E B : Type) : Type :=
| Rejects (e : JsThrown)
| NotOk (errBody : Completion E)
| Ok (body : Completion B).
Arguments Rejects {E B} e.
Arguments NotOk {E B} errBody.
Arguments Ok {E B} body.

(* ================================================================== *)
(** ** [pages/Login.tsx] and [authApi.login], [authApi.register] *)

Module Login.

Inductive Tab : Type := login | register.

Module Cred.
(** [LoginCredentials]. *)
Record t : Type := mk { email : jsstring; password : jsstring }.
End Cred.

Module Reg.
(** [RegisterData]; [grade_level] is the number [parseInt] returned. *)
Record t : Type := mk {
  email : jsstring;
  password : jsstring;
  confirm_password : jsstring;
  first_name : jsstring;
  last_name : jsstring;
  phone_number : jsstring;
  grade_level : Z;
  language : jsstring;
  birthday : jsstring;
  gender : jsstring
}.
End Reg.

(** Of [AuthResponse] the page reads [access_token] only. *)
Record AuthResponse : Type := mkAuthResponse { access_token : jsstring }.

(** The error body of [/auth/register], with what [JSON.stringify] makes of
    it. *)
Record RegisterError : Type := mkRegisterError {
  reg_detail : option jsstring;
  stringified : jsstring
}.

Record State : Type := mkState {
  activeTab : Tab;
  loading : bool;
  error : jsstring;
  success : jsstring;
  loginData : Cred.t;
  registerData : Reg.t;
  confirmPassword : jsstring;
  passwordStrength : nat
}.

Definition initialState : State :=
  {| activeTab := login; loading := false; error := []; success := [];
     loginData := {| Cred.email := []; Cred.password := [] |};
     registerData :=
       {| Reg.email := []; Reg.password := []; Reg.confirm_password := [];
          Reg.first_name := []; Reg.last_name := []; Reg.phone_number := [];
          Reg.grade_level := 1%Z; Reg.language := lit "sinhala";
          Reg.birthday := []; Reg.gender := [] |};
     confirmPassword := []; passwordStrength := 0 |}.

Inductive Location : Type := AtLogin | AtHome.

Inductive Request : Type :=
| PostLogin (credentials : Cred.t)     (* POST /auth/login *)
| PostRegister (data : Reg.t).         (* POST /auth/register *)

Inductive Pending : Type :=
| AwaitLogin        (* handleLogin at [await authApi.login] *)
| AwaitRegister     (* handleRegister at [await authApi.register] *)
| NavigateTimer.    (* setTimeout(() => navigate('/'), 1500) *)

Record World : Type := mkWorld {
  st : State;
  storage : option jsstring;     (* localStorage['access_token'] *)
  location : Location;
  sent : list Request;
  pending : list Pending
}.

Definition M (A : Type) : Type := Eff.t World A.

Open Scope eff_scope.

Definition rendered : M State := fun w => (Normal (st w), w).

Definition modify_st (f : State -> State) : M unit :=
  Eff.modify (fun w =>
    {| st := f (st w); storage := storage w; location := location w;
       sent := sent w; pending := pending w |}).

Definition setActiveTab (v : Tab) : M unit :=
  modify_st (fun s =>
    {| activeTab := v; loading := loading s; error := error s;
       success := success s; loginData := loginData s;
       registerData := registerData s; confirmPassword := confirmPassword s;
       passwordStrength := passwordStrength s |}).

Definition setLoading (v : bool) : M unit :=
  modify_st (fun s =>
    {| activeTab := activeTab s; loading := v; error := error s;
       success := success s; loginData := loginData s;
       registerData := registerData s; confirmPassword := confirmPassword s;
       passwordStrength := passwordStrength s |}).

Definition setError (v : jsstring) : M unit :=
  modify_st (fun s =>
    {| activeTab := activeTab s; loading := loading s; error := v;
       success := success s; loginData := loginData s;
       registerData := registerData s; confirmPassword := confirmPassword s;
       passwordStrength := passwordStrength s |}).

Definition setSuccess (v : jsstring) : M unit :=
  modify_st (fun s =>
    {| activeTab := activeTab s; loading := loading s; error := error s;
       success := v; loginData := loginData s;
       registerData := registerData s; confirmPassword := confirmPassword s;
       passwordStrength := passwordStrength s |}).

Definition setLoginData (v : Cred.t) : M unit :=
  modify_st (fun s =>
    {| activeTab := activeTab s; loading := loading s; error := error s;
       success := success s; loginData := v;
       registerData := registerData s; confirmPassword := confirmPassword s;
       passwordStrength := passwordStrength s |}).

Definition setRegisterData (v : Reg.t) : M unit :=
  modify_st (fun s =>
    {| activeTab := activeTab s; loading := loading s; error := error s;
       success := success s; loginData := loginData s;
       registerData := v; confirmPassword := confirmPassword s;
       passwordStrength := passwordStrength s |}).

Definition setConfirmPassword (v : jsstring) : M unit :=
  modify_st (fun s =>
    {| activeTab := activeTab s; loading := loading s; error := error s;
       success := success s; loginData := loginData s;
       registerData := registerData s; confirmPassword := v;
       passwordStrength := passwordStrength s |}).

Definition setPasswordStrength (v : nat) : M unit :=
  modify_st (fun s =>
    {| activeTab := activeTab s; loading := loading s; error := error s;
       success := success s; loginData := loginData s;
       registerData := registerData s; confirmPassword := confirmPassword s;
       passwordStrength := v |}).

Definition setItem (token : jsstring) : M unit :=
  Eff.modify (fun w =>
    {| st := st w; storage := Some token; location := location w;
       sent := sent w; pending := pending w |}).

Definition navigate (l : Location) : M unit :=
  Eff.modify (fun w =>
    {| st := st w; storage := storage w; location := l;
       sent := sent w; pending := pending w |}).

(** Send a request and wait for it. *)
Definition dispatch (rq : Request) (k : Pending) : M unit :=
  Eff.modify (fun w =>
    {| st := st w; storage := storage w; location := location w;
       sent := sent w ++ [rq]; pending := pending w ++ [k] |}).

Definition setTimeout (k : Pending) : M unit :=
  Eff.modify (fun w =>
    {| st := st w; storage := storage w; location := location w;
       sent := sent w; pending := pending w ++ [k] |}).

Definition forget (n : nat) : M unit :=
  Eff.modify (fun w =>
    {| st := st w; storage := storage w; location := location w;
       sent := sent w; pending := remove_nth n (pending w) |}).

(** *** [authApi] *)

Definition login_settle (f : Fetched ErrorBody AuthResponse)
  : Completion AuthResponse :=
  match f with
  | Rejects e => Throw e
  | NotOk (Throw e) => Throw e
  | NotOk (Normal error) =>
      Throw (ErrorObj (or_else (detail error) (lit "Login failed")))
  | Ok body => body
  end.

(** [error.detail || JSON.stringify(error) || 'Registration failed']. *)
Definition register_settle (f : Fetched RegisterError AuthResponse)
  : Completion AuthResponse :=
  match f with
  | Rejects e => Throw e
  | NotOk (Throw e) => Throw e
  | NotOk (Normal error) =>
      Throw (ErrorObj
               (or_else (reg_detail error)
                  (if truthy (stringified error) then stringified error
                   else lit "Registration failed")))
  | Ok body => body
  end.

(** *** The password meter *)

Definition isLower (c : N) : bool := (0x61 <=? c) && (c <=? 0x7A).
Definition isUpper (c : N) : bool := (0x41 <=? c) && (c <=? 0x5A).
Definition isDigit (c : N) : bool := (0x30 <=? c) && (c <=? 0x39).
Definition isOther (c : N) : bool :=
  negb (isLower c || isUpper c || isDigit c).

(** [/[class]/.test(s)]. *)
Definition test (class : N -> bool) (s : jsstring) : bool := existsb class s.

Definition incr_if (b : bool) (strength : nat) : nat :=
  if b then S strength else strength.

(** The number [checkPasswordStrength] computes. *)
Definition strengthOf (password : jsstring) : nat :=
  let strength := 0%nat in
  let strength := incr_if (6 <=? length password)%nat strength in
  let strength := incr_if (10 <=? length password)%nat strength in
  let strength :=
    incr_if (test isLower password && test isUpper password) strength in
  let strength := incr_if (test isDigit password) strength in
  let strength := incr_if (test isOther password) strength in
  strength.

Definition checkPasswordStrength (password : jsstring) : M unit :=
  setPasswordStrength (strengthOf password).

Definition getStrengthColor (passwordStrength : nat) : jsstring :=
  if (passwordStrength <=? 2)%nat then lit "bg-red-500"
  else if (passwordStrength <=? 4)%nat then lit "bg-yellow-500"
  else lit "bg-green-500".

Definition getStrengthWidth (passwordStrength : nat) : jsstring :=
  if (passwordStrength <=? 2)%nat then lit "w-1/3"
  else if (passwordStrength <=? 4)%nat then lit "w-2/3"
  else lit "w-full".

Definition getStrengthText (passwordStrength : nat) : jsstring :=
  if (passwordStrength <=? 2)%nat then lit "Weak password"
  else if (passwordStrength <=? 4)%nat then lit "Medium password"
  else lit "Strong password".

(** *** The handlers *)

(** [handleLogin], up to [await authApi.login(loginData)]. *)
Definition handleLogin_begin : M unit :=
  s <- rendered ;;
  setError [] ;;
  setLoading true ;;
  dispatch (PostLogin (loginData s)) AwaitLogin.

Definition handleLogin_resume (r : Completion AuthResponse) : M unit :=
  Eff.tryFinally
    (Eff.tryCatch
       (response <- Eff.settled r ;;
        setItem (access_token response) ;;
        navigate AtHome)
       (fun err => setError (message_or err (lit "Login failed"))))
    (setLoading false).

Section Register.

(** [String.prototype.toUpperCase]. *)
Variable toUpperCase : jsstring -> jsstring.

(** [s.charAt(0).toUpperCase() + s.slice(1)]. *)
Definition capitalize (s : jsstring) : jsstring :=
  toUpperCase (firstn 1 s) ++ skipn 1 s.

Definition dataToSend (s : State) : Reg.t :=
  let d := registerData s in
  {| Reg.email := Reg.email d; Reg.password := Reg.password d;
     Reg.confirm_password := confirmPassword s;
     Reg.first_name := Reg.first_name d; Reg.last_name := Reg.last_name d;
     Reg.phone_number := Reg.phone_number d;
     Reg.grade_level := Reg.grade_level d;
     Reg.language := capitalize (Reg.language d);
     Reg.birthday := Reg.birthday d;
     Reg.gender := capitalize (Reg.gender d) |}.

(** [handleRegister], up to [await authApi.register(dataToSend)]. *)
Definition handleRegister_begin : M unit :=
  s <- rendered ;;
  setError [] ;;
  setSuccess [] ;;
  if negb (jseqb (Reg.password (registerData s)) (confirmPassword s)) then
    setError (lit "Passwords do not match")
  else if (length (Reg.password (registerData s)) <? 6)%nat then
    setError (lit "Password must be at least 6 characters")
  else
    setLoading true ;;
    dispatch (PostRegister (dataToSend s)) AwaitRegister.

Definition handleRegister_resume (r : Completion AuthResponse) : M unit :=
  Eff.tryFinally
    (Eff.tryCatch
       (response <- Eff.settled r ;;
        setSuccess (lit "Registration successful! Redirecting...") ;;
        setItem (access_token response) ;;
        setTimeout NavigateTimer)
       (fun err => setError (message_or err (lit "Registration failed"))))
    (setLoading false).

(** *** Events *)

Inductive RegField : Type :=
| FirstName | LastName | Email | PhoneNumber | Language | Birthday | Gender.

Definition with_field (d : Reg.t) (f : RegField) (v : jsstring) : Reg.t :=
  {| Reg.email := match f with Email => v | _ => Reg.email d end;
     Reg.password := Reg.password d;
     Reg.confirm_password := Reg.confirm_password d;
     Reg.first_name := match f with FirstName => v | _ => Reg.first_name d end;
     Reg.last_name := match f with LastName => v | _ => Reg.last_name d end;
     Reg.phone_number :=
       match f with PhoneNumber => v | _ => Reg.phone_number d end;
     Reg.grade_level := Reg.grade_level d;
     Reg.language := match f with Language => v | _ => Reg.language d end;
     Reg.birthday := match f with Birthday => v | _ => Reg.birthday d end;
     Reg.gender := match f with Gender => v | _ => Reg.gender d end |}.

Definition with_password (d : Reg.t) (v : jsstring) : Reg.t :=
  {| Reg.email := Reg.email d; Reg.password := v;
     Reg.confirm_password := Reg.confirm_password d;
     Reg.first_name := Reg.first_name d; Reg.last_name := Reg.last_name d;
     Reg.phone_number := Reg.phone_number d;
     Reg.grade_level := Reg.grade_level d; Reg.language := Reg.language d;
     Reg.birthday := Reg.birthday d; Reg.gender := Reg.gender d |}.

Definition with_grade (d : Reg.t) (v : Z) : Reg.t :=
  {| Reg.email := Reg.email d; Reg.password := Reg.password d;
     Reg.confirm_password := Reg.confirm_password d;
     Reg.first_name := Reg.first_name d; Reg.last_name := Reg.last_name d;
     Reg.phone_number := Reg.phone_number d;
     Reg.grade_level := v; Reg.language := Reg.language d;
     Reg.birthday := Reg.birthday d; Reg.gender := Reg.gender d |}.

Inductive Event : Type :=
| EvTab (tab : Tab)                       (* the two tab buttons *)
| EvLoginEmail (v : jsstring)
| EvLoginPassword (v : jsstring)
| EvRegisterField (f : RegField) (v : jsstring)
| EvRegisterGrade (parsed : Z)
| EvRegisterPassword (v : jsstring)       (* also runs the meter *)
| EvConfirmPassword (v : jsstring)
| EvSubmitLogin
| EvSubmitRegister
| EvLoginSettles (n : nat) (f : Fetched ErrorBody AuthResponse)
| EvRegisterSettles (n : nat) (f : Fetched RegisterError AuthResponse)
| EvTimer (n : nat).

Definition handler (ev : Event) (w : World) : option (M unit) :=
  let s := st w in
  match ev with
  | EvTab tab => Some (setActiveTab tab ;; setError [] ;; setSuccess [])
  | EvLoginEmail v =>
      Some (setLoginData {| Cred.email := v;
                            Cred.password := Cred.password (loginData s) |})
  | EvLoginPassword v =>
      Some (setLoginData {| Cred.email := Cred.email (loginData s);
                            Cred.password := v |})
  | EvRegisterField f v =>
      Some (setRegisterData (with_field (registerData s) f v))
  | EvRegisterGrade z =>
      Some (setRegisterData (with_grade (registerData s) z))
  | EvRegisterPassword v =>
      Some (setRegisterData (with_password (registerData s) v) ;;
            checkPasswordStrength v)
  | EvConfirmPassword v => Some (setConfirmPassword v)
  | EvSubmitLogin => Some handleLogin_begin
  | EvSubmitRegister => Some handleRegister_begin
  | EvLoginSettles n f =>
      match nth_error (pending w) n with
      | Some AwaitLogin =>
          Some (forget n ;; handleLogin_resume (login_settle f))
      | _ => None
      end
  | EvRegisterSettles n f =>
      match nth_error (pending w) n with
      | Some AwaitRegister =>
          Some (forget n ;; handleRegister_resume (register_settle f))
      | _ => None
      end
  | EvTimer n =>
      match nth_error (pending w) n with
      | Some NavigateTimer => Some (forget n ;; navigate AtHome)
      | _ => None
      end
  end.

(** One event; the page takes none once the router has left it. *)
Definition step (ev : Event) (w : World) : option (Completion unit * World) :=
  match location w with
  | AtHome => None
  | AtLogin =>
      match handler ev w with
      | Some m => Some (m w)
      | None => None
      end
  end.

Fixpoint run (evs : list Event) (w : World)
  : option (Completion unit * World) :=
  match evs with
  | [] => Some (Normal tt, w)
  | ev :: rest =>
      match step ev w with
      | Some (Normal _, w') => run rest w'
      | other => other
      end
  end.

End Register.

(** The page as it is first shown. *)
Definition start (token : option jsstring) : World :=
  {| st := initialState; storage := token; location := AtLogin;
     sent := []; pending := [] |}.

(** [toUpperCase] on the letters a to z; the standard function agrees with
    it on ASCII text. *)
Definition asciiToUpperCase (s : jsstring) : jsstring :=
  map (fun c => if isLower c then c - 0x20 else c) s.

Definition world_of (r : option (Completion unit * World)) : World :=
  match r with
  | Some (_, w) => w
  | None => start None
  end.

Close Scope eff_scope.

End Login.

(* ================================================================== *)
(** ** [pages/Profile.tsx] and [profileApi] *)

Module Profile.

Inductive Section_ : Type := view | edit | password | delete.

Module Usr.
(** [User], as [/auth/me] and [/profile/update] return it. *)
Record t : Type := mk {
  id : Z;
  email : jsstring;
  first_name : jsstring;
  last_name : jsstring;
  phone_number : jsstring;
  grade_level : Z;
  language : jsstring;
  birthday : jsstring;
  gender : jsstring;
  is_active : bool;
  is_verified : bool;
  created_at : jsstring;
  last_login : option jsstring
}.
End Usr.

Module Edit.
Record t : Type := mk {
  first_name : jsstring;
  last_name : jsstring;
  phone_number : jsstring;
  grade_level : Z;
  language : jsstring;
  birthday : jsstring;
  gender : jsstring
}.
End Edit.

Module Pwd.
Record t : Type := mk {
  current_password : jsstring;
  new_password : jsstring;
  confirm_password : jsstring
}.
End Pwd.

Record State : Type := mkState {
  user : option Usr.t;
  loading : bool;
  successMessage : jsstring;
  errorMessage : jsstring;
  activeSection : Section_;
  editData : Edit.t;
  passwordData : Pwd.t
}.

Definition initialState : State :=
  {| user := None; loading := true; successMessage := [];
     errorMessage := []; activeSection := view;
     editData :=
       {| Edit.first_name := []; Edit.last_name := [];
          Edit.phone_number := []; Edit.grade_level := 1%Z;
          Edit.language := []; Edit.birthday := []; Edit.gender := [] |};
     passwordData :=
       {| Pwd.current_password := []; Pwd.new_password := [];
          Pwd.confirm_password := [] |} |}.

Inductive Location : Type := AtProfile | AtLogin.

(** A request with the Authorization header it carries. *)
Inductive Call : Type :=
| GetProfile                                   (* GET /auth/me *)
| PutProfile (data : Edit.t)                   (* PUT /profile/update *)
| PostChangePassword (current_password new_password confirm_password
                      : jsstring)              (* POST /profile/change-password *)
| DeleteAccount.                               (* DELETE /profile/delete *)

Record Request : Type := mkRequest {
  call : Call;
  authorization : option jsstring
}.

Inductive Pending : Type :=
| AwaitGetProfile        (* checkAuth, in loadProfile *)
| AwaitUpdateProfile     (* handleUpdateProfile *)
| AwaitChangePassword    (* handleChangePassword *)
| AwaitDeleteAccount     (* handleDeleteAccount *)
| ClearSuccessTimer      (* setTimeout(() => setSuccessMessage(''), 5000) *)
| ClearErrorTimer.       (* setTimeout(() => setErrorMessage(''), 5000) *)

Record World : Type := mkWorld {
  st : State;
  storage : option jsstring;      (* localStorage['access_token'] *)
  location : Location;
  sent : list Request;
  pending : list Pending
}.

Definition M (A : Type) : Type := Eff.t World A.

Open Scope eff_scope.

Definition rendered : M State := fun w => (Normal (st w), w).

Definition modify_st (f : State -> State) : M unit :=
  Eff.modify (fun w =>
    {| st := f (st w); storage := storage w; location := location w;
       sent := sent w; pending := pending w |}).

Definition setUser (v : option Usr.t) : M unit :=
  modify_st (fun s =>
    {| user := v; loading := loading s;
       successMessage := successMessage s; errorMessage := errorMessage s;
       activeSection := activeSection s; editData := editData s;
       passwordData := passwordData s |}).

Definition setLoading (v : bool) : M unit :=
  modify_st (fun s =>
    {| user := user s; loading := v;
       successMessage := successMessage s; errorMessage := errorMessage s;
       activeSection := activeSection s; editData := editData s;
       passwordData := passwordData s |}).

Definition setSuccessMessage (v : jsstring) : M unit :=
  modify_st (fun s =>
    {| user := user s; loading := loading s;
       successMessage := v; errorMessage := errorMessage s;
       activeSection := activeSection s; editData := editData s;
       passwordData := passwordData s |}).

Definition setErrorMessage (v : jsstring) : M unit :=
  modify_st (fun s =>
    {| user := user s; loading := loading s;
       successMessage := successMessage s; errorMessage := v;
       activeSection := activeSection s; editData := editData s;
       passwordData := passwordData s |}).

Definition setActiveSection (v : Section_) : M unit :=
  modify_st (fun s =>
    {| user := user s; loading := loading s;
       successMessage := successMessage s; errorMessage := errorMessage s;
       activeSection := v; editData := editData s;
       passwordData := passwordData s |}).

Definition setEditData (v : Edit.t) : M unit :=
  modify_st (fun s =>
    {| user := user s; loading := loading s;
       successMessage := successMessage s; errorMessage := errorMessage s;
       activeSection := activeSection s; editData := v;
       passwordData := passwordData s |}).

Definition setPasswordData (v : Pwd.t) : M unit :=
  modify_st (fun s =>
    {| user := user s; loading := loading s;
       successMessage := successMessage s; errorMessage := errorMessage s;
       activeSection := activeSection s; editData := editData s;
       passwordData := v |}).

Definition getItem : M (option jsstring) := fun w => (Normal (storage w), w).

Definition removeItem : M unit :=
  Eff.modify (fun w =>
    {| st := st w; storage := None; location := location w;
       sent := sent w; pending := pending w |}).

Definition navigate (l : Location) : M unit :=
  Eff.modify (fun w =>
    {| st := st w; storage := storage w; location := l;
       sent := sent w; pending := pending w |}).

(** Send [c] with the headers of [getAuthHeaders] and wait for it. *)
Definition dispatch (c : Call) (k : Pending) : M unit :=
  Eff.modify (fun w =>
    {| st := st w; storage := storage w; location := location w;
       sent := sent w ++ [{| call := c; authorization := bearer (storage w) |}];
       pending := pending w ++ [k] |}).

Definition setTimeout (k : Pending) : M unit :=
  Eff.modify (fun w =>
    {| st := st w; storage := storage w; location := location w;
       sent := sent w; pending := pending w ++ [k] |}).

Definition forget (n : nat) : M unit :=
  Eff.modify (fun w =>
    {| st := st w; storage := storage w; location := location w;
       sent := sent w; pending := remove_nth n (pending w) |}).

(** *** [profileApi] *)

Definition getProfile_settle (f : Fetched ErrorBody Usr.t)
  : Completion Usr.t :=
  match f with
  | Rejects e => Throw e
  | NotOk _ => Throw (ErrorObj (lit "Failed to load profile"))
  | Ok body => body
  end.

(** The three calls that read [error.detail]. *)
Definition detail_settle {B} (fallback : jsstring) (f : Fetched ErrorBody B)
  : Completion B :=
  match f with
  | Rejects e => Throw e
  | NotOk (Throw e) => Throw e
  | NotOk (Normal error) => Throw (ErrorObj (or_else (detail error) fallback))
  | Ok body => body
  end.

Definition updateProfile_settle (f : Fetched ErrorBody Usr.t)
  : Completion Usr.t :=
  detail_settle (lit "Failed to update profile") f.

Definition changePassword_settle (f : Fetched ErrorBody jsstring)
  : Completion jsstring :=
  detail_settle (lit "Failed to change password") f.

Definition deleteAccount_settle (f : Fetched ErrorBody jsstring)
  : Completion jsstring :=
  detail_settle (lit "Failed to delete account") f.

(** *** The handlers *)

Definition showSuccess (message : jsstring) : M unit :=
  setSuccessMessage message ;;
  setErrorMessage [] ;;
  setTimeout ClearSuccessTimer.

Definition showError (message : jsstring) : M unit :=
  setErrorMessage message ;;
  setSuccessMessage [] ;;
  setTimeout ClearErrorTimer.

(** [loadProfile], up to [await profileApi.getProfile()]. *)
Definition loadProfile_begin : M unit :=
  setLoading true ;;
  dispatch GetProfile AwaitGetProfile.

Definition loadProfile_resume (r : Completion Usr.t) : M unit :=
  Eff.tryFinally
    (Eff.tryCatch
       (userData <- Eff.settled r ;;
        setUser (Some userData) ;;
        setEditData
          {| Edit.first_name := Usr.first_name userData;
             Edit.last_name := Usr.last_name userData;
             Edit.phone_number := Usr.phone_number userData;
             Edit.grade_level := Usr.grade_level userData;
             Edit.language := Usr.language userData;
             Edit.birthday := Usr.birthday userData;
             Edit.gender := Usr.gender userData |})
       (fun _ => showError (lit "Failed to load profile")))
    (setLoading false).

(** [checkAuth], up to the [await] inside [loadProfile]. *)
Definition checkAuth_begin : M unit :=
  token <- getItem ;;
  if negb (truthy_opt token) then navigate AtLogin
  else loadProfile_begin.

(** [checkAuth] around the rest of [loadProfile]. *)
Definition checkAuth_resume (r : Completion Usr.t) : M unit :=
  Eff.tryCatch
    (loadProfile_resume r)
    (fun _ => removeItem ;; navigate AtLogin).

Definition handleUpdateProfile_begin : M unit :=
  s <- rendered ;;
  dispatch (PutProfile (editData s)) AwaitUpdateProfile.

Definition handleUpdateProfile_resume (r : Completion Usr.t) : M unit :=
  Eff.tryCatch
    (updatedUser <- Eff.settled r ;;
     setUser (Some updatedUser) ;;
     showSuccess (lit "Profile updated successfully!"))
    (fun error =>
       showError (message_or error (lit "Failed to update profile"))).

Definition handleChangePassword_begin : M unit :=
  s <- rendered ;;
  let p := passwordData s in
  if negb (jseqb (Pwd.new_password p) (Pwd.confirm_password p)) then
    showError (lit "New passwords do not match")
  else if (length (Pwd.new_password p) <? 6)%nat then
    showError (lit "Password must be at least 6 characters")
  else
    dispatch (PostChangePassword (Pwd.current_password p)
                (Pwd.new_password p) (Pwd.confirm_password p))
      AwaitChangePassword.

Definition handleChangePassword_resume (r : Completion jsstring) : M unit :=
  Eff.tryCatch
    (_ <- Eff.settled r ;;
     showSuccess (lit "Password changed successfully!") ;;
     setPasswordData
       {| Pwd.current_password := []; Pwd.new_password := [];
          Pwd.confirm_password := [] |})
    (fun error =>
       showError (message_or error (lit "Failed to change password"))).

(** [handleDeleteAccount], given what [confirm] and [prompt] returned;
    [prompt] is not shown when [confirm] returned false. *)
Definition handleDeleteAccount_begin (confirmed : bool)
    (confirmation : option jsstring) : M unit :=
  if negb confirmed then Eff.ret tt
  else
    match confirmation with
    | Some typed =>
        if negb (jseqb typed (lit "DELETE")) then Eff.ret tt
        else dispatch DeleteAccount AwaitDeleteAccount
    | None => Eff.ret tt
    end.

Definition handleDeleteAccount_resume (r : Completion jsstring) : M unit :=
  Eff.tryCatch
    (_ <- Eff.settled r ;;
     removeItem ;;
     navigate AtLogin)
    (fun error =>
       showError (message_or error (lit "Failed to delete account"))).

Definition logout : M unit :=
  removeItem ;;
  navigate AtLogin.

(** *** Events *)

Inductive EditField : Type :=
| FirstName | LastName | PhoneNumber | Language | Birthday | Gender.

Definition with_field (d : Edit.t) (f : EditField) (v : jsstring) : Edit.t :=
  {| Edit.first_name :=
       match f with FirstName => v | _ => Edit.first_name d end;
     Edit.last_name := match f with LastName => v | _ => Edit.last_name d end;
     Edit.phone_number :=
       match f with PhoneNumber => v | _ => Edit.phone_number d end;
     Edit.grade_level := Edit.grade_level d;
     Edit.language := match f with Language => v | _ => Edit.language d end;
     Edit.birthday := match f with Birthday => v | _ => Edit.birthday d end;
     Edit.gender := match f with Gender => v | _ => Edit.gender d end |}.

Definition with_grade (d : Edit.t) (v : Z) : Edit.t :=
  {| Edit.first_name := Edit.first_name d; Edit.last_name := Edit.last_name d;
     Edit.phone_number := Edit.phone_number d; Edit.grade_level := v;
     Edit.language := Edit.language d; Edit.birthday := Edit.birthday d;
     Edit.gender := Edit.gender d |}.

Inductive PwdField : Type := CurrentPassword | NewPassword | ConfirmPassword.

Definition with_pwd (p : Pwd.t) (f : PwdField) (v : jsstring) : Pwd.t :=
  {| Pwd.current_password :=
       match f with CurrentPassword => v | _ => Pwd.current_password p end;
     Pwd.new_password :=
       match f with NewPassword => v | _ => Pwd.new_password p end;
     Pwd.confirm_password :=
       match f with ConfirmPassword => v | _ => Pwd.confirm_password p end |}.

Inductive Settled : Type :=
| ProfileSettles (f : Fetched ErrorBody Usr.t)
| UpdateSettles (f : Fetched ErrorBody Usr.t)
| PasswordSettles (f : Fetched ErrorBody jsstring)
| DeleteSettles (f : Fetched ErrorBody jsstring)
| TimerFires.

Inductive Event : Type :=
| EvSection (s : Section_)
| EvEditField (f : EditField) (v : jsstring)
| EvEditGrade (parsed : Z)
| EvPwdField (f : PwdField) (v : jsstring)
| EvSubmitUpdate
| EvSubmitPassword
| EvDeleteClick (confirmed : bool) (confirmation : option jsstring)
| EvLogout
| EvSettle (n : nat) (s : Settled).

Definition resume (p : Pending) (s : Settled) : option (M unit) :=
  match p, s with
  | AwaitGetProfile, ProfileSettles f =>
      Some (checkAuth_resume (getProfile_settle f))
  | AwaitUpdateProfile, UpdateSettles f =>
      Some (handleUpdateProfile_resume (updateProfile_settle f))
  | AwaitChangePassword, PasswordSettles f =>
      Some (handleChangePassword_resume (changePassword_settle f))
  | AwaitDeleteAccount, DeleteSettles f =>
      Some (handleDeleteAccount_resume (deleteAccount_settle f))
  | ClearSuccessTimer, TimerFires => Some (setSuccessMessage [])
  | ClearErrorTimer, TimerFires => Some (setErrorMessage [])
  | _, _ => None
  end.

Definition handler (ev : Event) (w : World) : option (M unit) :=
  let s := st w in
  match ev with
  | EvSection x => Some (setActiveSection x)
  | EvEditField f v => Some (setEditData (with_field (editData s) f v))
  | EvEditGrade z => Some (setEditData (with_grade (editData s) z))
  | EvPwdField f v => Some (setPasswordData (with_pwd (passwordData s) f v))
  | EvSubmitUpdate => Some handleUpdateProfile_begin
  | EvSubmitPassword => Some handleChangePassword_begin
  | EvDeleteClick confirmed confirmation =>
      Some (handleDeleteAccount_begin confirmed confirmation)
  | EvLogout => Some logout
  | EvSettle n x =>
      match nth_error (pending w) n with
      | Some p => match resume p x with
                  | Some k => Some (forget n ;; k)
                  | None => None
                  end
      | None => None
      end
  end.

(** One event; the page takes none once the router has left it. *)
Definition step (ev : Event) (w : World) : option (Completion unit * World) :=
  match location w with
  | AtLogin => None
  | AtProfile =>
      match handler ev w with
      | Some m => Some (m w)
      | None => None
      end
  end.

Fixpoint run (evs : list Event) (w : World)
  : option (Completion unit * World) :=
  match evs with
  | [] => Some (Normal tt, w)
  | ev :: rest =>
      match step ev w with
      | Some (Normal _, w') => run rest w'
      | other => other
      end
  end.

(** The first render and the effect that calls [checkAuth]. *)
Definition boot (token : option jsstring) : World :=
  snd (checkAuth_begin
         {| st := initialState; storage := token; location := AtProfile;
            sent := []; pending := [] |}).

Definition world_of (r : option (Completion unit * World)) : World :=
  match r with
  | Some (_, w) => w
  | None => boot None
  end.

Definition sampleUser : Usr.t :=
  {| Usr.id := 7%Z; Usr.email := lit "nimal@example.lk";
     Usr.first_name := lit "Nimal"; Usr.last_name := lit "Perera";
     Usr.phone_number := lit "0770000000"; Usr.grade_level := 10%Z;
     Usr.language := lit "Sinhala"; Usr.birthday := lit "2010-01-01";
     Usr.gender := lit "Male"; Usr.is_active := true;
     Usr.is_verified := false; Usr.created_at := lit "2025-01-01";
     Usr.last_login := None |}.

Close Scope eff_scope.

End Profile.

(** What every password change the profile page sends satisfies. *)
Definition valid_call (rq : Profile.Request) : Prop :=
  match Profile.call rq with
  | Profile.PostChangePassword _ new_password confirm_password =>
      new_password = confirm_password /\ (6 <= length new_password)%nat
  | _ => True
  end.

(* ================================================================== *)
(** ** The session-only chat page ([ict_mahagedara/src/pages/Chat.tsx]) *)

(** The later chat page has no mode buttons and no logout button: it always
    talks to the session endpoint, and a new session adds no welcome entry
    (an empty transcript shows the suggested prompts instead).  It uses the
    same [chatApi], requests and pending promises as the page above. *)
Module SessionChat.

Record State : Type := mkState {
  user : option User;
  sessionId : option jsstring;
  messages : list Message;
  inputMessage : jsstring;
  isLoading : bool
}.

Definition initialState : State :=
  {| user := None; sessionId := None; messages := [];
     inputMessage := []; isLoading := false |}.

Record World : Type := mkWorld {
  ui : State;
  access_token : option jsstring;
  route : Route;
  sent : list Request;
  inflight : list Pending
}.

Definition M (A : Type) : Type := Eff.t World A.

Open Scope eff_scope.

Definition rendered : M State := fun w => (Normal (ui w), w).

Definition modify_ui (f : State -> State) : M unit :=
  Eff.modify (fun w =>
    {| ui := f (ui w); access_token := access_token w; route := route w;
       sent := sent w; inflight := inflight w |}).

Definition setUser (u : option User) : M unit :=
  modify_ui (fun s =>
    {| user := u; sessionId := sessionId s; messages := messages s;
       inputMessage := inputMessage s; isLoading := isLoading s |}).

Definition setSessionId (v : option jsstring) : M unit :=
  modify_ui (fun s =>
    {| user := user s; sessionId := v; messages := messages s;
       inputMessage := inputMessage s; isLoading := isLoading s |}).

Definition updateMessages (f : list Message -> list Message) : M unit :=
  modify_ui (fun s =>
    {| user := user s; sessionId := sessionId s; messages := f (messages s);
       inputMessage := inputMessage s; isLoading := isLoading s |}).

Definition setInputMessage (v : jsstring) : M unit :=
  modify_ui (fun s =>
    {| user := user s; sessionId := sessionId s; messages := messages s;
       inputMessage := v; isLoading := isLoading s |}).

Definition setIsLoading (b : bool) : M unit :=
  modify_ui (fun s =>
    {| user := user s; sessionId := sessionId s; messages := messages s;
       inputMessage := inputMessage s; isLoading := b |}).

Definition removeToken : M unit :=
  Eff.modify (fun w =>
    {| ui := ui w; access_token := None; route := route w;
       sent := sent w; inflight := inflight w |}).

Definition navigate (r : Route) : M unit :=
  Eff.modify (fun w =>
    {| ui := ui w; access_token := access_token w; route := r;
       sent := sent w; inflight := inflight w |}).

(** Send a request of [api.ts] with the headers of [getAuthHeaders]. *)
Definition dispatch (m : Method) (path : jsstring)
    (message : option jsstring) (k : Pending) : M unit :=
  Eff.modify (fun w =>
    {| ui := ui w; access_token := access_token w; route := route w;
       sent := sent w ++
         [{| method := m; endpoint := path;
             authorization := bearer (access_token w);
             body_message := message |}];
       inflight := inflight w ++ [k] |}).

Definition forget (n : nat) : M unit :=
  Eff.modify (fun w =>
    {| ui := ui w; access_token := access_token w; route := route w;
       sent := sent w; inflight := remove_nth n (inflight w) |}).

Definition addMessage (r : Role) (c : jsstring) (md : bool) : M unit :=
  updateMessages (fun prev =>
    prev ++ [{| role := r; content := c; isMarkdown := md |}]).

Definition showError (message : jsstring) : M unit :=
  addMessage assistant (errorPrefix ++ message) false.

Definition initSession_begin : M unit :=
  dispatch POST (lit "/chat/session") None AwaitCreateSession.

Definition initSession_resume (r : Completion SessionBody) : M unit :=
  Eff.tryCatch
    (b <- Eff.settled r ;;
     setSessionId (Some (new_session_id b)))
    (fun _ => showError (lit "Failed to initialize chat session")).

Definition checkAuth_begin : M unit :=
  w <- Eff.get ;;
  if negb (truthy_opt (access_token w)) then navigate LoginRoute
  else dispatch GET (lit "/auth/me") None AwaitGetCurrentUser.

Definition checkAuth_resume (r : Completion User) : M unit :=
  Eff.tryCatch
    (userData <- Eff.settled r ;;
     setUser (Some userData) ;;
     initSession_begin)
    (fun _ => removeToken ;; navigate LoginRoute).

(** [handleSubmit]; the mode passed to [chatApi.sendMessage] is the
    constant ['session']. *)
Definition handleSubmit_begin : M unit :=
  st <- rendered ;;
  if negb (truthy (trim (inputMessage st))) || isLoading st then Eff.ret tt
  else
    let userMessage := trim (inputMessage st) in
    setInputMessage [] ;;
    addMessage user_role userMessage false ;;
    setIsLoading true ;;
    dispatch POST (sendMessage_endpoint (sessionId st) session)
      (Some userMessage) (AwaitSendMessage session).

Definition handleSubmit_resume (r : Completion SendBody) : M unit :=
  Eff.tryFinally
    (Eff.tryCatch
       (res <- Eff.settled r ;;
        (if truthy_opt (session_id res)
         then setSessionId (session_id res)
         else Eff.ret tt) ;;
        addMessage assistant (response res) true)
       (fun error => showError (error_message error)))
    (setIsLoading false).

Definition handleSuggestedPrompt (prompt : jsstring) : M unit :=
  setInputMessage prompt.

Definition suggestedPrompts : list jsstring :=
  [lit "Explain a concept in simple terms";
   lit "Help me solve a math problem";
   lit "Teach me about science";
   lit "Practice English conversation"].

Definition resume (p : Pending) (s : Settled) : option (M unit) :=
  match p, s with
  | AwaitGetCurrentUser, SettledUser f =>
      Some (checkAuth_resume (getCurrentUser_settle f))
  | AwaitCreateSession, SettledSession f =>
      Some (initSession_resume (createSession_settle f))
  | AwaitSendMessage _, SettledSend f =>
      Some (handleSubmit_resume (sendMessage_settle f))
  | _, _ => None
  end.

(** The events of the page above that this page has too; typing and picking
    a suggested prompt both set the input. *)
Definition handler (ev : Event) (w : World) : option (M unit) :=
  match ev with
  | EvChange v => Some (setInputMessage v)
  | EvSubmit => Some handleSubmit_begin
  | EvModeClick _ => None
  | EvLogout => None
  | EvSettle n s =>
      match nth_error (inflight w) n with
      | Some p => match resume p s with
                  | Some k => Some (forget n ;; k)
                  | None => None
                  end
      | None => None
      end
  end.

Definition step (ev : Event) (w : World) : option (Completion unit * World) :=
  match route w with
  | LoginRoute => None
  | ChatRoute =>
      match handler ev w with
      | Some m => Some (m w)
      | None => None
      end
  end.

Fixpoint run (evs : list Event) (w : World)
  : option (Completion unit * World) :=
  match evs with
  | [] => Some (Normal tt, w)
  | ev :: rest =>
      match step ev w with
      | Some (Normal _, w') => run rest w'
      | other => other
      end
  end.

Definition boot (token : option jsstring) : World :=
  snd (checkAuth_begin
         {| ui := initialState; access_token := token; route := ChatRoute;
            sent := []; inflight := [] |}).

Close Scope eff_scope.

End SessionChat.

(** Not the welcome entry. *)
Definition not_welcome (m : Message) : bool :=
  negb (jseqb (content m) welcomeText
        && negb (isMarkdown m)
        && match role m with assistant => true | user_role => false end).

(** The state of the session-only page matches the state of the page with
    modes when that page is in session mode and, welcome entries apart,
    everything else is equal. *)
Definition same_conversation (ws : SessionChat.World) (w : World) : Prop :=
  SessionChat.user (SessionChat.ui ws) = user (ui w) /\
  SessionChat.sessionId (SessionChat.ui ws) = sessionId (ui w) /\
  currentMode (ui w) = session /\
  SessionChat.messages (SessionChat.ui ws)
    = filter not_welcome (messages (ui w)) /\
  SessionChat.inputMessage (SessionChat.ui ws) = inputMessage (ui w) /\
  SessionChat.isLoading (SessionChat.ui ws) = isLoading (ui w) /\
  SessionChat.access_token ws = access_token w /\
  SessionChat.route ws = route w /\
  SessionChat.sent ws = sent w /\
  SessionChat.inflight ws = inflight w /\
  Forall (fun p => p <> AwaitSendMessage stateless) (inflight w).

(* ================================================================== *)
(** ** Strings *)

Lemma trimStart_blank (s : jsstring) :
  forallb isWhiteSpace s = true -> trimStart s = [].
Proof.
  induction s as [|c r IH]; simpl; [reflexivity|].
  intros H. apply andb_true_iff in H as [Hc Hr].
  rewrite Hc. auto.
Qed.

Lemma trim_blank (s : jsstring) :
  forallb isWhiteSpace s = true -> trim s = [].
Proof.
  intros H. unfold trim, trimEnd. rewrite (trimStart_blank s H). reflexivity.
Qed.

Lemma trimStart_nil_blank (s : jsstring) :
  trimStart s = [] -> forallb isWhiteSpace s = true.
Proof.
  induction s as [|c r IH]; simpl; [reflexivity|].
  destruct (isWhiteSpace c); [auto | discriminate].
Qed.

(** A text trims to the empty string exactly when it is all white space. *)
Lemma trim_nil_iff (s : jsstring) :
  truthy (trim s) = false <-> forallb isWhiteSpace s = true.
Proof.
  split.
  - unfold trim, trimEnd. intros H.
    destruct (rev (trimStart (rev (trimStart s)))) eqn:E; [|discriminate].
    apply (f_equal (@rev N)) in E. rewrite rev_involutive in E. simpl in E.
    apply trimStart_nil_blank in E.
    destruct (trimStart s) as [|c r] eqn:Es.
    + now apply trimStart_nil_blank.
    + exfalso.
      assert (Hc : isWhiteSpace c = false).
      { clear E. revert Es. induction s as [|d t IH]; simpl; [discriminate|].
        destruct (isWhiteSpace d) eqn:Ed; [exact IH|].
        intros Es. injection Es as -> _. exact Ed. }
      rewrite forallb_forall in E.
      assert (Hin : In c (rev (c :: r))).
      { apply in_rev. rewrite rev_involutive. now left. }
      specialize (E c Hin). rewrite Hc in E. discriminate.
  - intros H. now rewrite trim_blank.
Qed.

(* ================================================================== *)
(** ** Events and pending promises *)

Lemma nth_error_last {A} (l : list A) (p : A) (q : list A) :
  nth_error (l ++ p :: q) (length l) = Some p.
Proof. induction l; simpl; auto. Qed.

Lemma remove_nth_last {A} (l : list A) (p : A) (q : list A) :
  remove_nth (length l) (l ++ p :: q) = l ++ q.
Proof. induction l; simpl; [reflexivity | now f_equal]. Qed.

Lemma step_on_chat (ev : Event) (w : World) (m : M unit) :
  route w = ChatRoute -> handler ev w = Some m -> step ev w = Some (m w).
Proof. intros Hr Hh. unfold step. now rewrite Hr, Hh. Qed.

Lemma run_cons (ev : Event) (rest : list Event) (w w' : World)
    (m : M unit) :
  route w = ChatRoute ->
  handler ev w = Some m ->
  m w = (Normal tt, w') ->
  run (ev :: rest) w = run rest w'.
Proof.
  intros Hr Hh Hm. cbn [run]. rewrite (step_on_chat ev w m Hr Hh), Hm.
  reflexivity.
Qed.

Lemma run_last (ev : Event) (w : World) (m : M unit) :
  route w = ChatRoute ->
  handler ev w = Some m ->
  fst (m w) = Normal tt ->
  run [ev] w = Some (m w).
Proof.
  intros Hr Hh Hm. cbn [run]. rewrite (step_on_chat ev w m Hr Hh).
  destruct (m w) as [c w']. simpl in Hm. subst c. reflexivity.
Qed.

(** Settling the promise that was dispatched last. *)
Lemma handler_settle_last (w : World) (l : list Pending) (p : Pending)
    (s : Settled) (k : M unit) :
  inflight w = l ++ [p] ->
  resume p s = Some k ->
  handler (EvSettle (length l) s) w = Some (forget (length l) ;; k).
Proof.
  intros Hi Hk. cbn [handler]. rewrite Hi, nth_error_last, Hk. reflexivity.
Qed.

(** An accepted submission leaves exactly [submitted w]. *)
Lemma handleSubmit_begin_accepted (w : World) :
  submit_refused (ui w) = false ->
  handleSubmit_begin w = (Normal tt, submitted w).
Proof.
  intros H. unfold handleSubmit_begin, bind, rendered.
  rewrite H. reflexivity.
Qed.

Lemma handleSubmit_begin_refused (w : World) :
  submit_refused (ui w) = true ->
  handleSubmit_begin w = (Normal tt, w).
Proof.
  intros H. unfold handleSubmit_begin, bind, rendered.
  rewrite H. reflexivity.
Qed.

(** What the continuation of [handleSubmit] does, whenever it runs. *)
Lemma handleSubmit_resume_spec (m : Mode) (r : Completion SendBody)
    (w : World) :
  exists w',
    handleSubmit_resume m r w = (Normal tt, w') /\
    isLoading (ui w') = false /\
    messages (ui w') = messages (ui w) ++ [replyEntry r] /\
    sessionId (ui w') =
      match r with
      | Normal res =>
          if mode_eqb m session && truthy_opt (session_id res)
          then session_id res else sessionId (ui w)
      | Throw _ => sessionId (ui w)
      end /\
    currentMode (ui w') = currentMode (ui w) /\
    route w' = route w /\ sent w' = sent w /\ inflight w' = inflight w.
Proof.
  destruct r as [res|e].
  - unfold handleSubmit_resume, tryFinally, tryCatch, bind, settled.
    destruct (mode_eqb m session && truthy_opt (session_id res));
      eexists; (split; [reflexivity|]); simpl; repeat split; reflexivity.
  - eexists. split; [reflexivity|]. simpl. repeat split; reflexivity.
Qed.

(** The three events of [submit], put together. *)
Lemma submit_unfold (userText : jsstring) (f : FetchResult SendBody)
    (w : World) :
  route w = ChatRoute ->
  truthy (trim userText) = true ->
  isLoading (ui w) = false ->
  exists w1,
    run [EvChange userText; EvSubmit] w = Some (Normal tt, w1) /\
    messages (ui w1) = messages (ui w) ++ [userEntry (trim userText)] /\
    sessionId (ui w1) = sessionId (ui w) /\
    currentMode (ui w1) = currentMode (ui w) /\
    isLoading (ui w1) = true /\
    sent w1 = sent w ++
      [{| method := POST;
          endpoint :=
            sendMessage_endpoint (sessionId (ui w)) (currentMode (ui w));
          authorization :=
            if truthy_opt (access_token w) then access_token w else None;
          body_message := Some (trim userText) |}] /\
    inflight w1 = inflight w ++ [AwaitSendMessage (currentMode (ui w))] /\
    route w1 = ChatRoute /\
    submit userText f w =
      Some (handleSubmit_resume (currentMode (ui w)) (sendMessage_settle f)
              (exec (forget (length (inflight w))) w1)).
Proof.
  intros Hr Ht Hl.
  set (w0 := exec (setInputMessage userText) w).
  assert (Hacc : handleSubmit_begin w0 = (Normal tt, submitted w0)).
  { apply handleSubmit_begin_accepted. unfold submit_refused.
    subst w0. unfold exec, setInputMessage, modify_ui.
    cbn [snd ui inputMessage isLoading]. now rewrite Ht, Hl. }
  assert (E2 : run [EvChange userText; EvSubmit] w
               = Some (Normal tt, submitted w0)).
  { rewrite (run_cons (EvChange userText) _ w w0 (setInputMessage userText) Hr
             eq_refl eq_refl).
    rewrite (run_cons EvSubmit _ w0 _ handleSubmit_begin Hr eq_refl Hacc).
    reflexivity. }
  exists (submitted w0). split; [exact E2|].
  repeat (split; [reflexivity|]). split; [exact Hr|].
  unfold submit.
  rewrite (run_cons (EvChange userText) _ w w0 (setInputMessage userText) Hr
             eq_refl eq_refl).
  rewrite (run_cons EvSubmit _ w0 _ handleSubmit_begin Hr eq_refl Hacc).
  assert (Hh : handler (EvSettle (length (inflight w)) (SettledSend f))
                 (submitted w0)
               = Some (forget (length (inflight w)) ;;
                       handleSubmit_resume (currentMode (ui w))
                         (sendMessage_settle f))).
  { apply handler_settle_last with (p := AwaitSendMessage (currentMode (ui w)));
      reflexivity. }
  rewrite (run_last _ (submitted w0) _ Hr Hh).
  - reflexivity.
  - unfold bind, forget. cbn beta iota.
    destruct (handleSubmit_resume_spec (currentMode (ui w))
                (sendMessage_settle f)
                (snd (Normal tt,
                      {| ui := ui (submitted w0);
                         access_token := access_token (submitted w0);
                         route := route (submitted w0);
                         sent := sent (submitted w0);
                         inflight := remove_nth (length (inflight w))
                                       (inflight (submitted w0)) |})))
      as (w' & E & _).
    cbn [snd] in E. rewrite E. reflexivity.
Qed.

(** One complete [submit] whose preconditions hold. *)
Lemma submit_spec (userText : jsstring) (f : FetchResult SendBody)
    (w : World) :
  route w = ChatRoute ->
  truthy (trim userText) = true ->
  isLoading (ui w) = false ->
  exists w',
    submit userText f w = Some (Normal tt, w') /\
    isLoading (ui w') = false /\
    messages (ui w') =
      messages (ui w) ++
      [userEntry (trim userText); replyEntry (sendMessage_settle f)] /\
    sessionId (ui w') =
      match sendMessage_settle f with
      | Normal res =>
          if mode_eqb (currentMode (ui w)) session
             && truthy_opt (session_id res)
          then session_id res else sessionId (ui w)
      | Throw _ => sessionId (ui w)
      end /\
    currentMode (ui w') = currentMode (ui w) /\
    sent w' = sent w ++
      [{| method := POST;
          endpoint :=
            sendMessage_endpoint (sessionId (ui w)) (currentMode (ui w));
          authorization :=
            if truthy_opt (access_token w) then access_token w else None;
          body_message := Some (trim userText) |}] /\
    inflight w' = inflight w /\
    route w' = ChatRoute.
Proof.
  intros Hr Ht Hl.
  destruct (submit_unfold userText f w Hr Ht Hl)
    as (w1 & _ & Hm & Hs & Hc & _ & Hsent & Hfl & Hr1 & E).
  destruct (handleSubmit_resume_spec (currentMode (ui w))
              (sendMessage_settle f)
              (exec (forget (length (inflight w))) w1))
    as (w' & E' & Hl' & Hm' & Hs' & Hc' & Hr' & Hsent' & Hfl').
  exists w'. rewrite E, E'. split; [reflexivity|].
  split; [exact Hl'|].
  split.
  { rewrite Hm'. cbn [exec forget snd ui]. rewrite Hm, <- app_assoc.
    reflexivity. }
  split.
  { rewrite Hs'. cbn [exec forget snd ui]. rewrite Hs. reflexivity. }
  split.
  { rewrite Hc'. cbn [exec forget snd ui]. exact Hc. }
  split.
  { rewrite Hsent'. cbn [exec forget snd sent]. exact Hsent. }
  split.
  { rewrite Hfl'. cbn [exec forget snd inflight]. rewrite Hfl.
    rewrite remove_nth_last. apply app_nil_r. }
  rewrite Hr'. cbn [exec forget snd route]. exact Hr1.
Qed.

(* ================================================================== *)
(** ** The message exchange pipeline *)

(** C1. Whenever [submit(userText)] is called with its preconditions met
    (the text is not blank, no request is in flight), the submission, once
    its request has settled in whichever way, leaves [isLoading] false. *)
Theorem submit_resets_isLoading (userText : jsstring)
    (f : FetchResult SendBody) (w : World) :
  route w = ChatRoute ->
  truthy (trim userText) = true ->
  isLoading (ui w) = false ->
  exists w',
    submit userText f w = Some (Normal tt, w') /\
    isLoading (ui w') = false.
Proof.
  intros Hr Ht Hl.
  destruct (submit_spec userText f w Hr Ht Hl) as (w' & E & Hl' & _).
  exists w'. split; assumption.
Qed.

Lemma submit_resets_isLoading_witness :
  exists w',
    submit (lit "2+2?") (FetchRejects (ErrorObj (lit "Failed to fetch")))
      sessionWorld = Some (Normal tt, w') /\
    isLoading (ui w') = false.
Proof.
  apply (submit_resets_isLoading (lit "2+2?")
           (FetchRejects (ErrorObj (lit "Failed to fetch"))) sessionWorld);
    reflexivity.
Defined.

(** The same at any moment: whatever happened since the submission, the
    continuation of [handleSubmit] appends its entry to the transcript of
    that moment and ends with [isLoading] false. *)
Lemma settle_send_spec (n : nat) (m : Mode) (f : FetchResult SendBody)
    (w : World) :
  route w = ChatRoute ->
  nth_error (inflight w) n = Some (AwaitSendMessage m) ->
  exists w',
    step (EvSettle n (SettledSend f)) w = Some (Normal tt, w') /\
    isLoading (ui w') = false /\
    messages (ui w') = messages (ui w) ++ [replyEntry (sendMessage_settle f)] /\
    currentMode (ui w') = currentMode (ui w) /\
    sessionId (ui w') =
      match sendMessage_settle f with
      | Normal res =>
          if mode_eqb m session && truthy_opt (session_id res)
          then session_id res else sessionId (ui w)
      | Throw _ => sessionId (ui w)
      end /\
    route w' = ChatRoute /\
    inflight w' = remove_nth n (inflight w).
Proof.
  intros Hr Hn. unfold step. rewrite Hr. cbn [handler]. rewrite Hn.
  cbn [resume]. unfold bind at 1. unfold forget at 1.
  destruct (handleSubmit_resume_spec m (sendMessage_settle f)
              {| ui := ui w; access_token := access_token w; route := route w;
                 sent := sent w; inflight := remove_nth n (inflight w) |})
    as (w' & E & Hl & Hm & Hs & Hc & Hr' & _ & Hfl).
  rewrite E. exists w'. cbn [ui route inflight] in *.
  rewrite Hr' . repeat split; assumption.
Qed.

(** C2. A completed [submit] with its preconditions met appends the user
    entry and, after it, exactly one assistant entry: the response text,
    flagged as markdown, when [chatApi.sendMessage] fulfils; the error prefix
    followed by the message of the failure, not flagged, when it rejects.
    The handler completes normally in both cases: nothing is thrown out of
    it. *)
Theorem submit_appends_one_reply (userText : jsstring)
    (f : FetchResult SendBody) (w : World) :
  route w = ChatRoute ->
  truthy (trim userText) = true ->
  isLoading (ui w) = false ->
  exists w' entry,
    submit userText f w = Some (Normal tt, w') /\
    messages (ui w') = messages (ui w) ++ [userEntry (trim userText); entry] /\
    role entry = assistant /\
    match sendMessage_settle f with
    | Normal res =>
        content entry = response res /\ isMarkdown entry = true
    | Throw e =>
        content entry = errorPrefix ++ error_message e /\
        isMarkdown entry = false
    end.
Proof.
  intros Hr Ht Hl.
  destruct (submit_spec userText f w Hr Ht Hl) as (w' & E & _ & Hm & _).
  exists w', (replyEntry (sendMessage_settle f)).
  split; [exact E|]. split; [exact Hm|].
  destruct (sendMessage_settle f); simpl; auto.
Qed.

Lemma submit_appends_one_reply_witness :
  exists w' entry,
    submit (lit "2+2?")
      (FetchNotOk (Normal (mkErrorBody (Some (lit "Session not found")))))
      sessionWorld = Some (Normal tt, w') /\
    messages (ui w') =
      messages (ui sessionWorld) ++ [userEntry (trim (lit "2+2?")); entry] /\
    role entry = assistant /\
    content entry = errorPrefix ++ lit "Session not found" /\
    isMarkdown entry = false.
Proof.
  apply (submit_appends_one_reply (lit "2+2?")
           (FetchNotOk (Normal (mkErrorBody (Some (lit "Session not found")))))
           sessionWorld);
    reflexivity.
Defined.

(** The message shown for each way [chatApi.sendMessage] can fail. *)
Lemma send_failure_message (f : FetchResult SendBody) (e : JsThrown) :
  sendMessage_settle f = Throw e ->
  f = FetchRejects e \/
  f = FetchNotOk (Throw e) \/
  (exists error,
      f = FetchNotOk (Normal error) /\
      e = ErrorObj (or_else (detail error) (lit "Failed to send message"))) \/
  f = FetchOk (Throw e).
Proof.
  destruct f as [e'|[error|e']|[res|e']]; simpl; intros H;
    try discriminate; injection H as <-; eauto 6.
Qed.

(** C4. Submitting while the input is empty or all white space, or while a
    request is in flight, changes nothing: no entry, no request, the same
    [isLoading], the same [sessionId]. *)
Theorem submit_refused_is_noop (w : World) :
  route w = ChatRoute ->
  forallb isWhiteSpace (inputMessage (ui w)) = true \/
    isLoading (ui w) = true ->
  run [EvSubmit] w = Some (Normal tt, w).
Proof.
  intros Hr H.
  assert (Href : submit_refused (ui w) = true).
  { unfold submit_refused. destruct H as [H|H].
    - now rewrite trim_blank.
    - rewrite H. apply orb_true_r. }
  rewrite (run_last EvSubmit w handleSubmit_begin Hr eq_refl);
    rewrite (handleSubmit_begin_refused w Href); reflexivity.
Qed.

Lemma submit_refused_is_noop_witness :
  let blank := world_of (run [EvChange (lit "   ")] sessionWorld) in
  let busy := world_of (run [EvChange (lit "a"); EvSubmit; EvChange (lit "b")]
                          sessionWorld) in
  inputMessage (ui sessionWorld) = [] /\
  run [EvSubmit] sessionWorld = Some (Normal tt, sessionWorld) /\
  inputMessage (ui blank) = lit "   " /\
  run [EvSubmit] blank = Some (Normal tt, blank) /\
  (inputMessage (ui busy) = lit "b" /\ isLoading (ui busy) = true) /\
  run [EvSubmit] busy = Some (Normal tt, busy).
Proof.
  intros blank busy.
  split; [reflexivity|].
  split; [apply (submit_refused_is_noop sessionWorld);
          [reflexivity | left; reflexivity]|].
  split; [reflexivity|].
  split; [apply (submit_refused_is_noop blank);
          [reflexivity | left; reflexivity]|].
  split; [split; reflexivity|].
  apply (submit_refused_is_noop busy); [reflexivity | right; reflexivity].
Defined.

(** C3. For a [submit] that succeeds with response [res].  In session mode
    the request went to the session endpoint of the stored handle; when [res]
    carries a (non-empty) [session_id], that value is the stored handle
    afterwards, and the next accepted submission is sent to the session
    endpoint of the new handle, which is not the endpoint of the old one when
    the two handles differ.  In stateless mode the request went to the
    stateless endpoint and the stored handle is what it was, whatever [res]
    carries. *)
Theorem submit_adopts_session_id (userText : jsstring)
    (f : FetchResult SendBody) (res : SendBody) (w : World) :
  route w = ChatRoute ->
  truthy (trim userText) = true ->
  isLoading (ui w) = false ->
  sendMessage_settle f = Normal res ->
  exists w' rq,
    submit userText f w = Some (Normal tt, w') /\
    sent w' = sent w ++ [rq] /\
    match currentMode (ui w) with
    | session =>
        endpoint rq = lit "/chat/session/" ++ interpolate (sessionId (ui w)) /\
        forall sid,
          session_id res = Some sid -> truthy sid = true ->
          sessionId (ui w') = Some sid /\
          forall text2,
            truthy (trim text2) = true ->
            exists w2 rq2,
              run [EvChange text2; EvSubmit] w' = Some (Normal tt, w2) /\
              sent w2 = sent w' ++ [rq2] /\
              endpoint rq2 = lit "/chat/session/" ++ sid /\
              body_message rq2 = Some (trim text2) /\
              (forall old, sessionId (ui w) = Some old -> old <> sid ->
                 endpoint rq2 <> lit "/chat/session/" ++ old)
    | stateless =>
        endpoint rq = lit "/chat/stateless" /\
        sessionId (ui w') = sessionId (ui w)
    end.
Proof.
  intros Hr Ht Hl Hok.
  destruct (submit_spec userText f w Hr Ht Hl)
    as (w' & E & Hl' & _ & Hs & Hc & Hsent & _ & Hr').
  rewrite Hok in Hs.
  eexists w', _. split; [exact E|]. split; [exact Hsent|].
  cbn [endpoint]. destruct (currentMode (ui w)) eqn:Hmode.
  - split; [reflexivity|]. intros sid Hsid Hty.
    cbn [mode_eqb andb] in Hs. rewrite Hsid in Hs. cbn [truthy_opt] in Hs.
    rewrite Hty in Hs. split; [exact Hs|].
    intros text2 Ht2.
    destruct (submit_unfold text2 (FetchRejects NonError) w' Hr' Ht2 Hl')
      as (w2 & E2 & _ & _ & _ & _ & Hsent2 & _).
    eexists w2, _. split; [exact E2|]. split; [exact Hsent2|].
    cbn [endpoint body_message]. rewrite Hs, Hc.
    split; [reflexivity|]. split; [reflexivity|].
    intros old _ Hne Heq. apply app_inv_head in Heq. cbn in Heq.
    congruence.
  - split; [reflexivity|]. exact Hs.
Qed.

Lemma submit_adopts_session_id_witness :
  (exists w' rq,
     submit (lit "hello")
       (FetchOk (Normal (mkSendBody (lit "Hi!") (Some (lit "S2")))))
       sessionWorld = Some (Normal tt, w') /\
     sent w' = sent sessionWorld ++ [rq] /\
     endpoint rq = lit "/chat/session/S1" /\
     forall sid,
       Some (lit "S2") = Some sid -> truthy sid = true ->
       sessionId (ui w') = Some sid /\
       forall text2,
         truthy (trim text2) = true ->
         exists w2 rq2,
           run [EvChange text2; EvSubmit] w' = Some (Normal tt, w2) /\
           sent w2 = sent w' ++ [rq2] /\
           endpoint rq2 = lit "/chat/session/" ++ sid /\
           body_message rq2 = Some (trim text2) /\
           (forall old, Some (lit "S1") = Some old -> old <> sid ->
              endpoint rq2 <> lit "/chat/session/" ++ old)) /\
  (exists w' rq,
     submit (lit "hello")
       (FetchOk (Normal (mkSendBody (lit "Hi!") (Some (lit "S2")))))
       statelessWorld = Some (Normal tt, w') /\
     sent w' = sent statelessWorld ++ [rq] /\
     endpoint rq = lit "/chat/stateless" /\
     sessionId (ui w') = None).
Proof.
  split.
  - apply (submit_adopts_session_id (lit "hello")
             (FetchOk (Normal (mkSendBody (lit "Hi!") (Some (lit "S2")))))
             (mkSendBody (lit "Hi!") (Some (lit "S2"))) sessionWorld);
      reflexivity.
  - apply (submit_adopts_session_id (lit "hello")
             (FetchOk (Normal (mkSendBody (lit "Hi!") (Some (lit "S2")))))
             (mkSendBody (lit "Hi!") (Some (lit "S2"))) statelessWorld);
      reflexivity.
Defined.

(* ================================================================== *)
(** ** The session controller *)

Lemma run_app (evs1 evs2 : list Event) (w w1 : World) :
  run evs1 w = Some (Normal tt, w1) ->
  run (evs1 ++ evs2) w = run evs2 w1.
Proof.
  revert w. induction evs1 as [|ev rest IH]; intros w H.
  - simpl in H. injection H as <-. reflexivity.
  - cbn [run app] in *. destruct (step ev w) as [[[[]|e] w0]|];
      try discriminate. now apply IH.
Qed.

(** The synchronous part of a switch to session mode. *)
Lemma handleModeChange_session_spec (w : World) :
  exists w1,
    handleModeChange session w = (Normal tt, w1) /\
    currentMode (ui w1) = session /\
    messages (ui w1) = [] /\
    sessionId (ui w1) = sessionId (ui w) /\
    isLoading (ui w1) = isLoading (ui w) /\
    sent w1 = sent w ++
      [{| method := POST; endpoint := lit "/chat/session";
          authorization :=
            if truthy_opt (access_token w) then access_token w else None;
          body_message := None |}] /\
    inflight w1 = inflight w ++ [AwaitCreateSession] /\
    route w1 = route w.
Proof. eexists. split; [reflexivity|]. repeat split. Qed.

(** A switch to stateless mode, which has no asynchronous part. *)
Lemma handleModeChange_stateless_spec (w : World) :
  exists w1,
    handleModeChange stateless w = (Normal tt, w1) /\
    currentMode (ui w1) = stateless /\
    messages (ui w1) = [statelessEntry] /\
    sessionId (ui w1) = None /\
    isLoading (ui w1) = isLoading (ui w) /\
    sent w1 = sent w /\
    inflight w1 = inflight w /\
    route w1 = route w.
Proof. eexists. split; [reflexivity|]. repeat split. Qed.

(** What the continuation of [initSession] does, whenever it runs. *)
Lemma initSession_resume_spec (r : Completion SessionBody) (w : World) :
  exists w',
    initSession_resume r w = (Normal tt, w') /\
    match r with
    | Normal b =>
        sessionId (ui w') = Some (new_session_id b) /\
        messages (ui w') = messages (ui w) ++ [welcomeEntry]
    | Throw _ =>
        sessionId (ui w') = sessionId (ui w) /\
        messages (ui w') = messages (ui w) ++ [initErrorEntry]
    end /\
    currentMode (ui w') = currentMode (ui w) /\
    isLoading (ui w') = isLoading (ui w) /\
    route w' = route w /\ sent w' = sent w /\ inflight w' = inflight w.
Proof.
  destruct r as [b|e]; eexists; (split; [reflexivity|]); repeat split.
Qed.

(** What the continuation of [checkAuth] does, whenever it runs. *)
Lemma checkAuth_resume_spec (r : Completion User) (w : World) :
  exists w',
    checkAuth_resume r w = (Normal tt, w') /\
    sessionId (ui w') = sessionId (ui w) /\
    messages (ui w') = messages (ui w) /\
    currentMode (ui w') = currentMode (ui w) /\
    isLoading (ui w') = isLoading (ui w) /\
    match r with
    | Normal _ =>
        route w' = route w /\ inflight w' = inflight w ++ [AwaitCreateSession]
    | Throw _ => route w' = LoginRoute /\ inflight w' = inflight w
    end.
Proof.
  destruct r as [u|e]; eexists; (split; [reflexivity|]); repeat split.
Qed.

(** A complete switch to session mode. *)
Lemma switchToSession_spec (f : FetchResult SessionBody) (w : World) :
  route w = ChatRoute ->
  exists w',
    switchToSession f w = Some (Normal tt, w') /\
    currentMode (ui w') = session /\
    isLoading (ui w') = isLoading (ui w) /\
    match createSession_settle f with
    | Normal b =>
        sessionId (ui w') = Some (new_session_id b) /\
        messages (ui w') = [welcomeEntry]
    | Throw _ =>
        sessionId (ui w') = sessionId (ui w) /\
        messages (ui w') = [initErrorEntry]
    end /\
    inflight w' = inflight w /\
    route w' = ChatRoute.
Proof.
  intros Hr.
  destruct (handleModeChange_session_spec w)
    as (w1 & E1 & Hc1 & Hm1 & Hs1 & Hl1 & _ & Hfl1 & Hr1).
  unfold switchToSession.
  rewrite (run_cons (EvModeClick session) _ w w1 _ Hr eq_refl E1).
  rewrite Hr in Hr1.
  assert (Hh : handler (EvSettle (length (inflight w)) (SettledSession f)) w1
               = Some (forget (length (inflight w)) ;;
                       initSession_resume (createSession_settle f))).
  { apply handler_settle_last with (p := AwaitCreateSession);
      [exact Hfl1 | reflexivity]. }
  destruct (initSession_resume_spec (createSession_settle f)
              (exec (forget (length (inflight w))) w1))
    as (w' & E & Hout & Hc & Hl & Hr' & _ & Hfl).
  assert (Em : (forget (length (inflight w)) ;;
                initSession_resume (createSession_settle f)) w1
               = (Normal tt, w')).
  { unfold bind, forget. unfold exec, forget in E. cbn [snd] in E.
    exact E. }
  rewrite (run_last _ w1 _ Hr1 Hh); rewrite Em; [|reflexivity].
  exists w'. split; [reflexivity|].
  cbn [exec forget snd ui route inflight] in *.
  split; [congruence|]. split; [congruence|].
  split.
  { destruct (createSession_settle f); destruct Hout as [Ha Hb];
      rewrite Ha, Hb, Hm1; split; [reflexivity | reflexivity | congruence
                                  | reflexivity]. }
  split; [|congruence].
  rewrite Hfl, Hfl1, remove_nth_last. apply app_nil_r.
Qed.

(** A complete switch to stateless mode. *)
Lemma switchToStateless_spec (w : World) :
  route w = ChatRoute ->
  exists w',
    switchToStateless w = Some (Normal tt, w') /\
    currentMode (ui w') = stateless /\
    sessionId (ui w') = None /\
    messages (ui w') = [statelessEntry] /\
    isLoading (ui w') = isLoading (ui w) /\
    sent w' = sent w /\
    inflight w' = inflight w /\
    route w' = ChatRoute.
Proof.
  intros Hr.
  destruct (handleModeChange_stateless_spec w)
    as (w1 & E & Hc & Hm & Hs & Hl & Hsent & Hfl & Hr1).
  exists w1. unfold switchToStateless.
  rewrite (run_last (EvModeClick stateless) w _ Hr eq_refl);
    rewrite E; [|reflexivity].
  split; [reflexivity|]. rewrite Hr in Hr1. repeat split; assumption.
Qed.

(** C5, as stated, fails: with session "S1" stored, pressing the session
    button again while the service is unreachable ends with the error entry
    and the old handle still stored. *)
Lemma session_switch_keeps_old_handle :
  exists w',
    switchToSession (FetchRejects (ErrorObj (lit "Failed to fetch")))
      sessionWorld = Some (Normal tt, w') /\
    sessionId (ui w') = Some (lit "S1") /\
    messages (ui w') = [initErrorEntry] /\
    ~ session_switch_promised w'.
Proof.
  eexists. split; [reflexivity|]. split; [reflexivity|].
  split; [reflexivity|].
  intros [[_ H]|[H _]]; discriminate.
Qed.

(** C5, amended. A switch to session mode whose request has settled ends in
    exactly one of two ways: the handle the service returned is stored and
    the transcript is the welcome entry alone; or the handle is what it was
    before the switch (absent when it was absent) and the transcript is the
    initialization error entry alone.  An entry is appended either way. *)
Theorem session_switch_outcome (f : FetchResult SessionBody) (w : World) :
  route w = ChatRoute ->
  exists w',
    switchToSession f w = Some (Normal tt, w') /\
    currentMode (ui w') = session /\
    ((exists b, createSession_settle f = Normal b /\
                sessionId (ui w') = Some (new_session_id b) /\
                messages (ui w') = [welcomeEntry]) \/
     (exists e, createSession_settle f = Throw e /\
                sessionId (ui w') = sessionId (ui w) /\
                (sessionId (ui w) = None -> sessionId (ui w') = None) /\
                messages (ui w') = [initErrorEntry])) /\
    messages (ui w') <> [] /\
    welcomeEntry <> initErrorEntry.
Proof.
  intros Hr.
  destruct (switchToSession_spec f w Hr) as (w' & E & Hc & _ & Hout & _).
  exists w'. split; [exact E|]. split; [exact Hc|].
  split.
  - destruct (createSession_settle f) as [b|e]; destruct Hout as [Hs Hm].
    + left. exists b. auto.
    + right. exists e. repeat split; auto. congruence.
  - split; [|discriminate].
    destruct (createSession_settle f); destruct Hout as [_ ->]; discriminate.
Qed.

Lemma session_switch_outcome_witness :
  exists w',
    switchToSession (FetchOk (Normal (mkSessionBody (lit "S7"))))
      statelessWorld = Some (Normal tt, w') /\
    currentMode (ui w') = session /\
    ((exists b, Normal (mkSessionBody (lit "S7")) = Normal b /\
                sessionId (ui w') = Some (new_session_id b) /\
                messages (ui w') = [welcomeEntry]) \/
     (exists e, Normal (mkSessionBody (lit "S7")) = Throw e /\
                sessionId (ui w') = sessionId (ui statelessWorld) /\
                (sessionId (ui statelessWorld) = None ->
                 sessionId (ui w') = None) /\
                messages (ui w') = [initErrorEntry])) /\
    messages (ui w') <> [] /\
    welcomeEntry <> initErrorEntry.
Proof.
  apply (session_switch_outcome
           (FetchOk (Normal (mkSessionBody (lit "S7")))) statelessWorld).
  reflexivity.
Defined.

(** C7. A mode change, to either mode and whatever the mode was, first
    empties the transcript: after its two opening updates no entry is left,
    and when the handler returns the transcript holds nothing of the old
    conversation (it is empty while the session request is pending, and is
    the stateless notice alone in stateless mode). *)
Theorem mode_change_clears_transcript (mode : Mode) (w : World) :
  messages (ui (exec (handleModeChange_clear mode) w)) = [] /\
  handleModeChange mode w =
    bind (handleModeChange_clear mode)
         (fun _ => match mode with
                   | session => initSession_begin
                   | stateless =>
                       setSessionId None ;;
                       addMessage assistant statelessText false
                   end)
         w /\
  messages (ui (exec (handleModeChange mode) w)) =
    [] ++ match mode with
          | session => []
          | stateless => [statelessEntry]
          end /\
  currentMode (ui (exec (handleModeChange mode) w)) = mode.
Proof.
  destruct mode; repeat split.
Qed.

(** C8. A switch to stateless mode completes in the click itself: the
    handle is cleared and the transcript is the stateless notice alone, one
    entry appended to the emptied transcript; no request is sent. *)
Theorem stateless_switch_outcome (w : World) :
  route w = ChatRoute ->
  exists w',
    switchToStateless w = Some (Normal tt, w') /\
    currentMode (ui w') = stateless /\
    sessionId (ui w') = None /\
    messages (ui w') = [] ++ [statelessEntry] /\
    length (messages (ui w')) = 1%nat /\
    sent w' = sent w /\
    inflight w' = inflight w.
Proof.
  intros Hr.
  destruct (switchToStateless_spec w Hr)
    as (w' & E & Hc & Hs & Hm & _ & Hsent & Hfl & _).
  exists w'. rewrite Hm. repeat split; assumption.
Qed.

Lemma stateless_switch_outcome_witness :
  exists w',
    switchToStateless sessionWorld = Some (Normal tt, w') /\
    currentMode (ui w') = stateless /\
    sessionId (ui w') = None /\
    messages (ui w') = [] ++ [statelessEntry] /\
    length (messages (ui w')) = 1%nat /\
    sent w' = sent sessionWorld /\
    inflight w' = inflight sessionWorld.
Proof.
  apply (stateless_switch_outcome sessionWorld). reflexivity.
Defined.

(** C9. In session mode with no handle stored (the state a failed
    initialization leaves), an accepted submission is still sent to the
    session endpoint, not to the stateless one: the path is the session
    prefix followed by the text that stands for the absent handle, and the
    body holds the message and no identifier. *)
Theorem submit_without_handle (userText : jsstring) (w : World) :
  route w = ChatRoute ->
  currentMode (ui w) = session ->
  sessionId (ui w) = None ->
  isLoading (ui w) = false ->
  truthy (trim userText) = true ->
  exists w1 rq,
    run [EvChange userText; EvSubmit] w = Some (Normal tt, w1) /\
    sent w1 = sent w ++ [rq] /\
    inflight w1 = inflight w ++ [AwaitSendMessage session] /\
    endpoint rq = sendMessage_endpoint None session /\
    endpoint rq = lit "/chat/session/" ++ lit "null" /\
    endpoint rq <> lit "/chat/stateless" /\
    body_message rq = Some (trim userText) /\
    currentMode (ui w1) = session /\
    sessionId (ui w1) = None.
Proof.
  intros Hr Hc Hs Hl Ht.
  destruct (submit_unfold userText (FetchRejects NonError) w Hr Ht Hl)
    as (w1 & E & _ & Hs1 & Hc1 & _ & Hsent & Hfl & _).
  rewrite Hc, Hs in *.
  eexists w1, _. split; [exact E|]. split; [exact Hsent|].
  split; [exact Hfl|]. cbn [endpoint body_message].
  repeat split; try assumption. discriminate.
Qed.

Lemma submit_without_handle_witness :
  (currentMode (ui sessionlessWorld) = session /\
   sessionId (ui sessionlessWorld) = None /\
   messages (ui sessionlessWorld) = [initErrorEntry]) /\
  exists w1 rq,
    run [EvChange (lit "hello"); EvSubmit] sessionlessWorld
      = Some (Normal tt, w1) /\
    sent w1 = sent sessionlessWorld ++ [rq] /\
    inflight w1 = inflight sessionlessWorld ++ [AwaitSendMessage session] /\
    endpoint rq = sendMessage_endpoint None session /\
    endpoint rq = lit "/chat/session/" ++ lit "null" /\
    endpoint rq <> lit "/chat/stateless" /\
    body_message rq = Some (trim (lit "hello")) /\
    currentMode (ui w1) = session /\
    sessionId (ui w1) = None.
Proof.
  split; [repeat split|].
  apply (submit_without_handle (lit "hello") sessionlessWorld); reflexivity.
Defined.

(** C10. A mode button works while a submission is in flight ([isLoading]
    is true and [handleModeChange] does not look at it): the switch empties
    the transcript, and when the request of the earlier submission settles,
    its assistant entry, response or error, is appended to the transcript of
    the new mode.  After switch and completion the transcript is what the
    switch wrote followed by the reply to the message sent before it. *)
Theorem mode_change_during_submit (userText : jsstring)
    (f : FetchResult SendBody) (mode : Mode) (w : World) :
  route w = ChatRoute ->
  truthy (trim userText) = true ->
  isLoading (ui w) = false ->
  exists w1 w2 w',
    run [EvChange userText; EvSubmit] w = Some (Normal tt, w1) /\
    isLoading (ui w1) = true /\
    messages (ui w1) = messages (ui w) ++ [userEntry (trim userText)] /\
    run [EvModeClick mode] w1 = Some (Normal tt, w2) /\
    isLoading (ui w2) = true /\
    run [EvChange userText; EvSubmit; EvModeClick mode;
         EvSettle (length (inflight w)) (SettledSend f)] w
      = Some (Normal tt, w') /\
    currentMode (ui w') = mode /\
    messages (ui w') =
      match mode with
      | session => []
      | stateless => [statelessEntry]
      end ++ [replyEntry (sendMessage_settle f)].
Proof.
  intros Hr Ht Hl.
  destruct (submit_unfold userText f w Hr Ht Hl)
    as (w1 & E1 & Hm1 & _ & _ & Hl1 & _ & Hfl1 & Hr1 & _).
  assert (Hsw : exists w2,
             handleModeChange mode w1 = (Normal tt, w2) /\
             currentMode (ui w2) = mode /\
             messages (ui w2) = match mode with
                                | session => []
                                | stateless => [statelessEntry]
                                end /\
             isLoading (ui w2) = isLoading (ui w1) /\
             route w2 = route w1 /\
             exists q, inflight w2 = inflight w1 ++ q).
  { destruct mode.
    - destruct (handleModeChange_session_spec w1)
        as (w2 & E & Hc & Hm & _ & Hl2 & _ & Hfl & Hr2).
      exists w2. repeat split; try assumption. now exists [AwaitCreateSession].
    - destruct (handleModeChange_stateless_spec w1)
        as (w2 & E & Hc & Hm & _ & Hl2 & _ & Hfl & Hr2).
      exists w2. repeat split; try assumption.
      exists []. now rewrite app_nil_r. }
  destruct Hsw as (w2 & E2 & Hc2 & Hm2 & Hl2 & Hr2 & q & Hfl2).
  rewrite Hr1 in Hr2. rewrite Hl1 in Hl2.
  assert (Hn : nth_error (inflight w2) (length (inflight w))
               = Some (AwaitSendMessage (currentMode (ui w)))).
  { rewrite Hfl2, Hfl1, <- app_assoc. apply nth_error_last. }
  destruct (settle_send_spec _ _ f w2 Hr2 Hn)
    as (w' & E3 & _ & Hm3 & Hc3 & _).
  assert (Esw : run [EvModeClick mode] w1 = Some (Normal tt, w2)).
  { rewrite (run_last (EvModeClick mode) w1 _ Hr1 eq_refl);
      rewrite E2; reflexivity. }
  exists w1, w2, w'.
  split; [exact E1|]. split; [exact Hl1|]. split; [exact Hm1|].
  split; [exact Esw|]. split; [exact Hl2|].
  split.
  { change [EvChange userText; EvSubmit; EvModeClick mode;
            EvSettle (length (inflight w)) (SettledSend f)]
      with ([EvChange userText; EvSubmit] ++
            [EvModeClick mode] ++
            [EvSettle (length (inflight w)) (SettledSend f)]).
    rewrite (run_app _ _ w w1 E1), (run_app _ _ w1 w2 Esw).
    cbn [run]. rewrite E3. reflexivity. }
  split; [congruence|]. rewrite Hm3, Hm2. reflexivity.
Qed.

Lemma mode_change_during_submit_witness :
  exists w1 w2 w',
    run [EvChange (lit "2+2?"); EvSubmit] sessionWorld
      = Some (Normal tt, w1) /\
    isLoading (ui w1) = true /\
    messages (ui w1) =
      messages (ui sessionWorld) ++ [userEntry (trim (lit "2+2?"))] /\
    run [EvModeClick stateless] w1 = Some (Normal tt, w2) /\
    isLoading (ui w2) = true /\
    run [EvChange (lit "2+2?"); EvSubmit; EvModeClick stateless;
         EvSettle (length (inflight sessionWorld))
           (SettledSend (FetchOk (Normal (mkSendBody (lit "4") None))))]
      sessionWorld = Some (Normal tt, w') /\
    currentMode (ui w') = stateless /\
    messages (ui w') =
      [statelessEntry] ++
      [{| role := assistant; content := lit "4"; isMarkdown := true |}].
Proof.
  apply (mode_change_during_submit (lit "2+2?")
           (FetchOk (Normal (mkSendBody (lit "4") None))) stateless
           sessionWorld);
    reflexivity.
Defined.

(* ================================================================== *)
(** ** The handle and the mode *)

(** The step [Hstep] ran the continuation whose effect [E] describes. *)
Ltac resumed E Hstep :=
  unfold exec, forget in E; cbn [snd] in E;
  rewrite E in Hstep; injection Hstep as <-.

Lemma Forall_remove_nth {A} (P : A -> Prop) (n : nat) (l : list A) :
  Forall P l -> Forall P (remove_nth n l).
Proof.
  intros H. revert n. induction H as [|x l Hx Hl IH]; intros n.
  - destruct n; constructor.
  - destruct n; simpl; [exact Hl | constructor; auto].
Qed.

Lemma clean_pending (w : World) (n : nat) (p : Pending) :
  stateless_clean w ->
  currentMode (ui w) = stateless ->
  nth_error (inflight w) n = Some p ->
  p = AwaitSendMessage stateless.
Proof.
  intros Hinv Hmode Hn. destruct (Hinv Hmode) as [_ Hall].
  rewrite Forall_forall in Hall. apply Hall. eapply nth_error_In; eauto.
Qed.

Lemma step_keeps_clean (ev : Event) (w w' : World) :
  quiet ev w = true ->
  step ev w = Some (Normal tt, w') ->
  stateless_clean w ->
  stateless_clean w'.
Proof.
  intros Hq Hstep Hinv. unfold step in Hstep.
  destruct (route w); [|discriminate].
  destruct ev as [v| |m| |n s]; cbn [handler] in Hstep.
  - injection Hstep as <-. exact Hinv.
  - destruct (submit_refused (ui w)) eqn:Href.
    + rewrite (handleSubmit_begin_refused w Href) in Hstep.
      injection Hstep as <-. exact Hinv.
    + rewrite (handleSubmit_begin_accepted w Href) in Hstep.
      injection Hstep as <-. intros Hmode. cbn in Hmode.
      destruct (Hinv Hmode) as [Hs Hall]. split; [exact Hs|].
      cbn [submitted inflight]. apply Forall_app. split; [exact Hall|].
      constructor; [now rewrite Hmode | constructor].
  - cbn [quiet] in Hq. destruct (inflight w) eqn:Hfl; [|discriminate].
    destruct m.
    + destruct (handleModeChange_session_spec w) as (w1 & E & Hc & _).
      rewrite E in Hstep. injection Hstep as <-.
      intros Hmode. congruence.
    + destruct (handleModeChange_stateless_spec w)
        as (w1 & E & _ & _ & Hs & _ & _ & Hfl1 & _).
      rewrite E in Hstep. injection Hstep as <-.
      intros _. split; [exact Hs|]. rewrite Hfl1, Hfl. constructor.
  - injection Hstep as <-. exact Hinv.
  - destruct (nth_error (inflight w) n) as [p|] eqn:Hn; [|discriminate].
    destruct p, s; cbn [resume] in Hstep; try discriminate;
      unfold bind at 1 in Hstep; unfold forget at 1 in Hstep.
    + destruct (checkAuth_resume_spec (getCurrentUser_settle f)
                  (exec (forget n) w))
        as (w1 & E & _ & _ & Hc & _).
      resumed E Hstep. intros Hmode. rewrite Hc in Hmode.
      pose proof (clean_pending w n _ Hinv Hmode Hn). discriminate.
    + destruct (initSession_resume_spec (createSession_settle f)
                  (exec (forget n) w))
        as (w1 & E & _ & Hc & _).
      resumed E Hstep. intros Hmode. rewrite Hc in Hmode.
      pose proof (clean_pending w n _ Hinv Hmode Hn). discriminate.
    + destruct (handleSubmit_resume_spec capturedMode (sendMessage_settle f)
                  (exec (forget n) w))
        as (w1 & E & _ & _ & Hs & Hc & _ & _ & Hfl).
      resumed E Hstep. intros Hmode. rewrite Hc in Hmode.
      pose proof (clean_pending w n _ Hinv Hmode Hn) as Hp.
      injection Hp as ->. destruct (Hinv Hmode) as [Hnone Hall].
      split.
      * rewrite Hs. cbn [mode_eqb andb].
        destruct (sendMessage_settle f); exact Hnone.
      * rewrite Hfl. now apply Forall_remove_nth.
Qed.

Lemma run_quiet_keeps_clean (evs : list Event) (w w' : World) :
  run_quiet evs w = Some (Normal tt, w') ->
  stateless_clean w ->
  stateless_clean w'.
Proof.
  revert w. induction evs as [|ev rest IH]; intros w Hrun Hinv.
  - simpl in Hrun. injection Hrun as <-. exact Hinv.
  - cbn [run_quiet] in Hrun. destruct (quiet ev w) eqn:Hq; [|discriminate].
    destruct (step ev w) as [[[[]|e] w1]|] eqn:Hstep; try discriminate.
    apply (IH w1 Hrun). eapply step_keeps_clean; eauto.
Qed.

Lemma boot_clean (token : option jsstring) : stateless_clean (boot token).
Proof.
  unfold stateless_clean.
  destruct token as [[|c r]|]; intros H; cbv in H; discriminate H.
Qed.

(** A stored handle stays stored until a switch to stateless mode. *)
Lemma step_keeps_handle (ev : Event) (w w' : World) :
  step ev w = Some (Normal tt, w') ->
  ev <> EvModeClick stateless ->
  sessionId (ui w) <> None ->
  sessionId (ui w') <> None.
Proof.
  intros Hstep Hev Hsid. unfold step in Hstep.
  destruct (route w); [|discriminate].
  destruct ev as [v| |m| |n s]; cbn [handler] in Hstep.
  - injection Hstep as <-. exact Hsid.
  - destruct (submit_refused (ui w)) eqn:Href.
    + rewrite (handleSubmit_begin_refused w Href) in Hstep.
      injection Hstep as <-. exact Hsid.
    + rewrite (handleSubmit_begin_accepted w Href) in Hstep.
      injection Hstep as <-. exact Hsid.
  - destruct m; [|congruence].
    injection Hstep as <-. exact Hsid.
  - injection Hstep as <-. exact Hsid.
  - destruct (nth_error (inflight w) n) as [p|] eqn:Hn; [|discriminate].
    destruct p, s; cbn [resume] in Hstep; try discriminate;
      unfold bind at 1 in Hstep; unfold forget at 1 in Hstep.
    + destruct (checkAuth_resume_spec (getCurrentUser_settle f)
                  (exec (forget n) w))
        as (w1 & E & Hs & _).
      resumed E Hstep. now rewrite Hs.
    + destruct (initSession_resume_spec (createSession_settle f)
                  (exec (forget n) w))
        as (w1 & E & Hout & _).
      resumed E Hstep.
      destruct (createSession_settle f); destruct Hout as [Hs _];
        rewrite Hs; [discriminate | exact Hsid].
    + destruct (handleSubmit_resume_spec capturedMode (sendMessage_settle f)
                  (exec (forget n) w))
        as (w1 & E & _ & _ & Hs & _).
      resumed E Hstep. rewrite Hs.
      destruct (sendMessage_settle f) as [res|e]; [|exact Hsid].
      destruct (mode_eqb capturedMode session && truthy_opt (session_id res))
        eqn:Hcond; [|exact Hsid].
      apply andb_true_iff in Hcond as [_ Hty].
      destruct (session_id res); [discriminate | discriminate].
Qed.

(** A quiet run is a run. *)
Lemma run_quiet_is_run (evs : list Event) (w : World)
    (r : Completion unit * World) :
  run_quiet evs w = Some r -> run evs w = Some r.
Proof.
  revert w. induction evs as [|ev rest IH]; intros w H; [exact H|].
  cbn [run_quiet run] in *. destruct (quiet ev w); [|discriminate].
  destruct (step ev w) as [[[[]|e] w1]|]; auto.
Qed.

(** C6, as stated, fails on two counts.  The user presses the stateless
    button while the first session request is still pending; when that
    request succeeds its handle "S1" is stored, in stateless mode.  And a
    failed re-initialization in session mode leaves the handle "S1" of the
    earlier session stored instead of clearing it. *)
Lemma handle_outlives_session_mode :
  (exists w,
     run [EvSettle 0 (SettledUser (FetchOk (Normal (mkUser (lit "Nimal")))));
          EvModeClick stateless;
          EvSettle 0 (SettledSession
                        (FetchOk (Normal (mkSessionBody (lit "S1")))))]
       (boot sampleToken) = Some (Normal tt, w) /\
     currentMode (ui w) = stateless /\
     sessionId (ui w) = Some (lit "S1")) /\
  (exists w',
     switchToSession (FetchNotOk (Normal (mkErrorBody None))) sessionWorld
       = Some (Normal tt, w') /\
     sessionId (ui sessionWorld) = Some (lit "S1") /\
     sessionId (ui w') = Some (lit "S1")) /\
  ~ (forall w, reachable w ->
       sessionId (ui w) <> None -> currentMode (ui w) = session).
Proof.
  split.
  { eexists. split; [vm_compute; reflexivity|]. split; reflexivity. }
  split.
  { eexists. split; [vm_compute; reflexivity|]. split; reflexivity. }
  intros H.
  assert (Hbad : stateless = session); [|discriminate Hbad].
  refine (H (world_of
               (run [EvSettle 0 (SettledUser
                                   (FetchOk (Normal (mkUser (lit "Nimal")))));
                     EvModeClick stateless;
                     EvSettle 0 (SettledSession
                                   (FetchOk (Normal
                                               (mkSessionBody (lit "S1")))))]
                  (boot sampleToken))) _ _).
  - exists sampleToken.
    exists [EvSettle 0 (SettledUser (FetchOk (Normal (mkUser (lit "Nimal")))));
            EvModeClick stateless;
            EvSettle 0 (SettledSession
                          (FetchOk (Normal (mkSessionBody (lit "S1")))))].
    vm_compute. reflexivity.
  - vm_compute. discriminate.
Qed.

(** C6, amended. In every state reached by a run in which the mode buttons
    are pressed only while no request is pending, a stored handle implies
    session mode.  From such a state: a switch to stateless mode leaves no
    handle; a successful session initialization stores the handle it
    obtained; a failed one leaves the handle as it was; and a stored handle
    stays stored through every event but a switch to stateless mode. *)
Theorem handle_discipline (token : option jsstring) (evs : list Event)
    (w : World) :
  run_quiet evs (boot token) = Some (Normal tt, w) ->
  reachable w /\
  (sessionId (ui w) <> None -> currentMode (ui w) = session) /\
  (route w = ChatRoute ->
   (exists w', switchToStateless w = Some (Normal tt, w') /\
               sessionId (ui w') = None) /\
   (forall f b, createSession_settle f = Normal b ->
      exists w', switchToSession f w = Some (Normal tt, w') /\
                 sessionId (ui w') = Some (new_session_id b)) /\
   (forall f e, createSession_settle f = Throw e ->
      exists w', switchToSession f w = Some (Normal tt, w') /\
                 sessionId (ui w') = sessionId (ui w))) /\
  (forall ev w2,
     step ev w = Some (Normal tt, w2) ->
     ev <> EvModeClick stateless ->
     sessionId (ui w) <> None -> sessionId (ui w2) <> None).
Proof.
  intros Hrun. split.
  { exists token, evs. now apply run_quiet_is_run. }
  split.
  { intros Hsid. destruct (currentMode (ui w)) eqn:Hmode; [reflexivity|].
    destruct (run_quiet_keeps_clean evs _ w Hrun (boot_clean token) Hmode)
      as [Hnone _]. contradiction. }
  split.
  { intros Hr. split; [|split].
    - destruct (switchToStateless_spec w Hr) as (w' & E & _ & Hs & _).
      exists w'. split; assumption.
    - intros f b Hf.
      destruct (switchToSession_spec f w Hr) as (w' & E & _ & _ & Hout & _).
      rewrite Hf in Hout. exists w'. split; [exact E | apply Hout].
    - intros f e Hf.
      destruct (switchToSession_spec f w Hr) as (w' & E & _ & _ & Hout & _).
      rewrite Hf in Hout. exists w'. split; [exact E | apply Hout]. }
  intros ev w2. apply step_keeps_handle.
Qed.

Lemma handle_discipline_witness :
  run_quiet
    [EvSettle 0 (SettledUser (FetchOk (Normal (mkUser (lit "Nimal")))));
     EvSettle 0 (SettledSession (FetchOk (Normal (mkSessionBody (lit "S1")))));
     EvChange (lit "hello"); EvSubmit;
     EvSettle 0 (SettledSend (FetchOk (Normal (mkSendBody (lit "Hi!") None))));
     EvModeClick stateless]
    (boot sampleToken)
  = Some (Normal tt,
          world_of (run [EvChange (lit "hello"); EvSubmit;
                         EvSettle 0 (SettledSend
                           (FetchOk (Normal (mkSendBody (lit "Hi!") None))));
                         EvModeClick stateless] sessionWorld)) /\
  (sessionId (ui sessionWorld) <> None ->
   currentMode (ui sessionWorld) = session) /\
  sessionId (ui sessionWorld) = Some (lit "S1").
Proof.
  split; [vm_compute; reflexivity|]. split; [|vm_compute; reflexivity].
  apply (handle_discipline sampleToken
           [EvSettle 0 (SettledUser (FetchOk (Normal (mkUser (lit "Nimal")))));
            EvSettle 0 (SettledSession
                          (FetchOk (Normal (mkSessionBody (lit "S1")))))]
           sessionWorld).
  vm_compute. reflexivity.
Defined.

(* ================================================================== *)
(** ** Scenarios *)

(** Stateless mode, then a submission that fails on the network. *)
Example scenario_stateless_failure :
  option_map (fun r => messages (ui (snd r)))
    (run [EvModeClick stateless; EvChange (lit "2+2?"); EvSubmit;
          EvSettle 0 (SettledSend
                        (FetchRejects (ErrorObj (lit "Failed to fetch"))))]
       sessionWorld)
  = Some [statelessEntry; userEntry (lit "2+2?");
          errorEntry (lit "Failed to fetch")].
Proof. vm_compute. reflexivity. Qed.

(** The first session request fails. *)
Example scenario_init_failure :
  messages (ui sessionlessWorld) = [initErrorEntry] /\
  sessionId (ui sessionlessWorld) = None /\
  content initErrorEntry
  = 0x274C :: lit " Error: Failed to initialize chat session".
Proof. vm_compute. repeat split. Qed.

(** Without a stored token the view leaves for the login page at once. *)
Example scenario_no_token :
  route (boot None) = LoginRoute /\ sent (boot None) = [] /\
  step EvSubmit (boot None) = None.
Proof. vm_compute. repeat split. Qed.

(* ================================================================== *)
(** ** The chat view as a whole *)

(** Every continuation completes normally. *)
Lemma resume_normal (p : Pending) (s : Settled) (k : M unit) (w : World) :
  resume p s = Some k -> fst (k w) = Normal tt.
Proof.
  destruct p, s; cbn [resume]; intros H; try discriminate;
    injection H as <-.
  - destruct (checkAuth_resume_spec (getCurrentUser_settle f) w)
      as (w' & E & _). now rewrite E.
  - destruct (initSession_resume_spec (createSession_settle f) w)
      as (w' & E & _). now rewrite E.
  - destruct (handleSubmit_resume_spec capturedMode (sendMessage_settle f) w)
      as (w' & E & _). now rewrite E.
Qed.

Lemma handler_normal (ev : Event) (w : World) (m : M unit) :
  handler ev w = Some m -> fst (m w) = Normal tt.
Proof.
  destruct ev as [v| |mode| |n s]; cbn [handler]; intros H.
  - injection H as <-. reflexivity.
  - injection H as <-. destruct (submit_refused (ui w)) eqn:Href.
    + now rewrite handleSubmit_begin_refused.
    + now rewrite handleSubmit_begin_accepted.
  - injection H as <-. destruct mode; reflexivity.
  - injection H as <-. reflexivity.
  - destruct (nth_error (inflight w) n) as [p|]; [|discriminate].
    destruct (resume p s) as [k|] eqn:Hk; [|discriminate].
    injection H as <-. unfold bind, forget.
    pose proof (resume_normal p s k
                  {| ui := ui w; access_token := access_token w;
                     route := route w; sent := sent w;
                     inflight := remove_nth n (inflight w) |} Hk) as Hn.
    destruct (k _) as [c w']. simpl in Hn. now subst c.
Qed.

Lemma step_normal (ev : Event) (w w' : World) (c : Completion unit) :
  step ev w = Some (c, w') -> c = Normal tt.
Proof.
  unfold step. destruct (route w); [|discriminate].
  destruct (handler ev w) as [m|] eqn:Hh; [|discriminate].
  intros H. injection H as H. pose proof (handler_normal ev w m Hh) as Hn.
  rewrite H in Hn. exact Hn.
Qed.

(** X1. No handler of the chat view lets an exception escape: whatever the
    events and however the requests settle, a run that goes through ends
    with a normal completion, never with a thrown value. *)
Theorem run_never_throws (evs : list Event) (w w' : World)
    (c : Completion unit) :
  run evs w = Some (c, w') -> c = Normal tt.
Proof.
  revert w. induction evs as [|ev rest IH]; intros w H.
  - simpl in H. now injection H as <- _.
  - cbn [run] in H. destruct (step ev w) as [[c1 w1]|] eqn:Hs; [|discriminate].
    pose proof (step_normal ev w w1 c1 Hs) as ->. exact (IH w1 H).
Qed.

Lemma run_never_throws_witness :
  exists c w',
    run [EvChange (lit "hi"); EvSubmit;
         EvSettle 0 (SettledSend (FetchOk (Throw NonError)));
         EvModeClick session;
         EvSettle 0 (SettledSession (FetchRejects NonError))]
      sessionWorld = Some (c, w') /\
    c = Normal tt.
Proof.
  eexists _, _. split; [vm_compute; reflexivity|].
  eapply (run_never_throws
            [EvChange (lit "hi"); EvSubmit;
             EvSettle 0 (SettledSend (FetchOk (Throw NonError)));
             EvModeClick session;
             EvSettle 0 (SettledSession (FetchRejects NonError))]
            sessionWorld).
  vm_compute. reflexivity.
Defined.

Lemma count_sends_app (l q : list Pending) :
  count_sends (l ++ q) = (count_sends l + count_sends q)%nat.
Proof. unfold count_sends. now rewrite filter_app, length_app. Qed.

Lemma count_sends_remove (n : nat) (l : list Pending) (p : Pending) :
  nth_error l n = Some p ->
  count_sends l =
    ((if is_send p then 1 else 0) + count_sends (remove_nth n l))%nat.
Proof.
  revert n. induction l as [|x l IH]; intros n H.
  - destruct n; discriminate.
  - destruct n as [|n]; simpl in H.
    + injection H as ->. unfold count_sends. simpl.
      destruct (is_send p); reflexivity.
    + specialize (IH n H). unfold count_sends in *. simpl.
      destruct (is_send x); simpl; rewrite IH;
        destruct (is_send p); simpl; auto.
Qed.

(** What one event does to [isLoading] and to the pending promises. *)
Lemma step_single_flight (ev : Event) (w w' : World) :
  step ev w = Some (Normal tt, w') ->
  count_sends (inflight w) = (if isLoading (ui w) then 1 else 0)%nat ->
  count_sends (inflight w') = (if isLoading (ui w') then 1 else 0)%nat.
Proof.
  intros Hstep Hinv. unfold step in Hstep.
  destruct (route w); [|discriminate].
  destruct ev as [v| |m| |n s]; cbn [handler] in Hstep.
  - injection Hstep as <-. exact Hinv.
  - destruct (submit_refused (ui w)) eqn:Href.
    + rewrite (handleSubmit_begin_refused w Href) in Hstep.
      injection Hstep as <-. exact Hinv.
    + rewrite (handleSubmit_begin_accepted w Href) in Hstep.
      injection Hstep as <-. unfold submit_refused in Href.
      apply orb_false_iff in Href as [_ Hl]. rewrite Hl in Hinv.
      cbn [submitted inflight ui isLoading].
      rewrite count_sends_app, Hinv. reflexivity.
  - destruct m.
    + destruct (handleModeChange_session_spec w)
        as (w1 & E & _ & _ & _ & Hl & _ & Hfl & _).
      rewrite E in Hstep. injection Hstep as <-.
      rewrite Hfl, Hl, count_sends_app, Hinv. cbn. apply Nat.add_0_r.
    + destruct (handleModeChange_stateless_spec w)
        as (w1 & E & _ & _ & _ & Hl & _ & Hfl & _).
      rewrite E in Hstep. injection Hstep as <-.
      now rewrite Hfl, Hl.
  - injection Hstep as <-. exact Hinv.
  - destruct (nth_error (inflight w) n) as [p|] eqn:Hn; [|discriminate].
    pose proof (count_sends_remove n _ p Hn) as Hcount.
    destruct p, s; cbn [resume] in Hstep; try discriminate;
      unfold bind at 1 in Hstep; unfold forget at 1 in Hstep;
      cbn [is_send] in Hcount.
    + destruct (checkAuth_resume_spec (getCurrentUser_settle f)
                  (exec (forget n) w))
        as (w1 & E & _ & _ & _ & Hl & Hout).
      unfold exec, forget in *; cbn [snd ui inflight] in *.
      resumed E Hstep. rewrite Hl, <- Hinv, Hcount.
      destruct (getCurrentUser_settle f); destruct Hout as [_ ->];
        cbn [inflight]; [|reflexivity].
      rewrite count_sends_app. cbn. apply Nat.add_0_r.
    + destruct (initSession_resume_spec (createSession_settle f)
                  (exec (forget n) w))
        as (w1 & E & _ & _ & Hl & _ & _ & Hfl).
      unfold exec, forget in *; cbn [snd ui inflight] in *.
      resumed E Hstep. now rewrite Hl, Hfl, <- Hinv, Hcount.
    + destruct (handleSubmit_resume_spec capturedMode (sendMessage_settle f)
                  (exec (forget n) w))
        as (w1 & E & Hl & _ & _ & _ & _ & _ & Hfl).
      unfold exec, forget in *; cbn [snd ui inflight] in *.
      resumed E Hstep. rewrite Hl, Hfl.
      destruct (isLoading (ui w)); rewrite Hinv in Hcount;
        [now injection Hcount as <- | discriminate].
Qed.

(** X2. At most one message is in flight, and [isLoading] tells when: in
    every state the chat view reaches, the number of pending
    [chatApi.sendMessage] calls is one when [isLoading] is true and zero when
    it is false. *)
Theorem single_flight (token : option jsstring) (evs : list Event)
    (w : World) :
  run evs (boot token) = Some (Normal tt, w) ->
  count_sends (inflight w) = (if isLoading (ui w) then 1 else 0)%nat /\
  (count_sends (inflight w) <= 1)%nat.
Proof.
  intros Hrun.
  assert (Hinv : count_sends (inflight w)
                 = (if isLoading (ui w) then 1 else 0)%nat).
  { assert (Hboot : count_sends (inflight (boot token))
                    = (if isLoading (ui (boot token)) then 1 else 0)%nat).
    { destruct token as [[|c r]|]; reflexivity. }
    revert Hrun Hboot. generalize (boot token). clear token.
    induction evs as [|ev rest IH]; intros w0 Hrun Hinv.
    - simpl in Hrun. now injection Hrun as <-.
    - cbn [run] in Hrun.
      destruct (step ev w0) as [[[[]|e] w1]|] eqn:Hs; try discriminate.
      apply (IH w1 Hrun). eapply step_single_flight; eauto. }
  split; [exact Hinv|]. rewrite Hinv.
  destruct (isLoading (ui w)); auto.
Qed.

Lemma single_flight_witness :
  let evs := [EvSettle 0 (SettledUser (FetchOk (Normal (mkUser (lit "Nimal")))));
              EvChange (lit "one"); EvSubmit;
              EvChange (lit "two"); EvSubmit;
              EvModeClick stateless; EvSubmit] in
  let w := world_of (run evs (boot sampleToken)) in
  inflight w = [AwaitCreateSession; AwaitSendMessage session] /\
  count_sends (inflight w) = (if isLoading (ui w) then 1 else 0)%nat /\
  (count_sends (inflight w) <= 1)%nat.
Proof.
  intros evs w. split; [vm_compute; reflexivity|].
  apply (single_flight sampleToken evs w). vm_compute. reflexivity.
Defined.




(** What one event other than a mode click does to the transcript. *)
Lemma step_appends (ev : Event) (w w' : World) :
  step ev w = Some (Normal tt, w') ->
  is_mode_click ev = false ->
  exists added,
    messages (ui w') = messages (ui w) ++ added /\ (length added <= 1)%nat.
Proof.
  intros Hstep Hev. unfold step in Hstep.
  destruct (route w); [|discriminate].
  destruct ev as [v| |m| |n s]; cbn [handler] in Hstep; try discriminate.
  - injection Hstep as <-. exists []. rewrite app_nil_r. auto.
  - destruct (submit_refused (ui w)) eqn:Href.
    + rewrite (handleSubmit_begin_refused w Href) in Hstep.
      injection Hstep as <-. exists []. rewrite app_nil_r. auto.
    + rewrite (handleSubmit_begin_accepted w Href) in Hstep.
      injection Hstep as <-. eexists [_]. split; [reflexivity | auto].
  - injection Hstep as <-. exists []. rewrite app_nil_r. auto.
  - destruct (nth_error (inflight w) n) as [p|] eqn:Hn; [|discriminate].
    destruct p, s; cbn [resume] in Hstep; try discriminate;
      unfold bind at 1 in Hstep; unfold forget at 1 in Hstep.
    + destruct (checkAuth_resume_spec (getCurrentUser_settle f)
                  (exec (forget n) w))
        as (w1 & E & _ & Hm & _).
      resumed E Hstep. rewrite Hm. exists []. rewrite app_nil_r. auto.
    + destruct (initSession_resume_spec (createSession_settle f)
                  (exec (forget n) w))
        as (w1 & E & Hout & _).
      resumed E Hstep.
      destruct (createSession_settle f); destruct Hout as [_ ->];
        eexists [_]; (split; [reflexivity | auto]).
    + destruct (handleSubmit_resume_spec capturedMode (sendMessage_settle f)
                  (exec (forget n) w))
        as (w1 & E & _ & Hm & _).
      resumed E Hstep. rewrite Hm. eexists [_]. split; [reflexivity | auto].
Qed.

(** X4. Between two mode changes the transcript only grows: along any run
    without a click on a mode button the old transcript is kept as it is, in
    order, and each event appends at most one entry to it. *)
Theorem transcript_append_only (evs : list Event) (w w' : World) :
  run evs w = Some (Normal tt, w') ->
  forallb (fun ev => negb (is_mode_click ev)) evs = true ->
  exists added,
    messages (ui w') = messages (ui w) ++ added /\
    (length added <= length evs)%nat.
Proof.
  revert w. induction evs as [|ev rest IH]; intros w Hrun Hevs.
  - simpl in Hrun. injection Hrun as <-. exists []. rewrite app_nil_r. auto.
  - cbn [run] in Hrun. cbn [forallb] in Hevs.
    apply andb_true_iff in Hevs as [Hev Hrest].
    apply negb_true_iff in Hev.
    destruct (step ev w) as [[[[]|e] w1]|] eqn:Hs; try discriminate.
    destruct (step_appends ev w w1 Hs Hev) as (a1 & E1 & L1).
    destruct (IH w1 Hrun Hrest) as (a2 & E2 & L2).
    exists (a1 ++ a2). rewrite E2, E1, <- app_assoc. split; [reflexivity|].
    rewrite length_app. cbn [length]. lia.
Qed.

Lemma transcript_append_only_witness :
  let evs := [EvChange (lit "hello"); EvSubmit; EvLogout] in
  exists w' added,
    run evs sessionWorld = Some (Normal tt, w') /\
    messages (ui w') = messages (ui sessionWorld) ++ added /\
    (length added <= length evs)%nat.
Proof.
  intros evs.
  exists (world_of (run evs sessionWorld)).
  destruct (transcript_append_only evs sessionWorld
              (world_of (run evs sessionWorld)))
    as (added & Hm & Hl).
  - vm_compute. reflexivity.
  - reflexivity.
  - exists added. split; [vm_compute; reflexivity|]. split; assumption.
Defined.

(* ================================================================== *)
(** ** [checkAuth] *)

(** X5. When [authApi.getCurrentUser] settles, at whatever moment: a
    failure of any kind (the fetch rejects, the status is not ok, the body
    cannot be read) removes the stored token and leaves for the login page
    without requesting a session and without touching the chat state; a
    success stores the user and requests a session with the same token. *)
Theorem checkAuth_settles (n : nat) (f : FetchResult User) (w : World) :
  route w = ChatRoute ->
  nth_error (inflight w) n = Some AwaitGetCurrentUser ->
  exists w',
    step (EvSettle n (SettledUser f)) w = Some (Normal tt, w') /\
    match getCurrentUser_settle f with
    | Throw _ =>
        access_token w' = None /\ route w' = LoginRoute /\
        ui w' = ui w /\ sent w' = sent w
    | Normal userData =>
        access_token w' = access_token w /\ route w' = ChatRoute /\
        user (ui w') = Some userData /\
        sessionId (ui w') = sessionId (ui w) /\
        messages (ui w') = messages (ui w) /\
        sent w' = sent w ++
          [{| method := POST; endpoint := lit "/chat/session";
              authorization := bearer (access_token w);
              body_message := None |}] /\
        inflight w' = remove_nth n (inflight w) ++ [AwaitCreateSession]
    end /\
    (getCurrentUser_settle f = Throw (ErrorObj (lit "Failed to get user info"))
     <-> (exists eb, f = FetchNotOk eb) \/
         f = FetchRejects (ErrorObj (lit "Failed to get user info")) \/
         f = FetchOk (Throw (ErrorObj (lit "Failed to get user info")))).
Proof.
  intros Hr Hn.
  assert (Hiff : getCurrentUser_settle f
                 = Throw (ErrorObj (lit "Failed to get user info"))
                 <-> (exists eb, f = FetchNotOk eb) \/
                     f = FetchRejects (ErrorObj (lit "Failed to get user info"))
                     \/ f = FetchOk
                              (Throw (ErrorObj (lit "Failed to get user info")))).
  { split.
    - destruct f as [e|eb|[u|e]]; cbn; intros H; try discriminate.
      + injection H as ->. right. now left.
      + left. now exists eb.
      + injection H as ->. right. now right.
    - intros [[eb ->]|[->| ->]]; reflexivity. }
  unfold step. rewrite Hr. cbn [handler]. rewrite Hn. cbn [resume].
  unfold bind at 1. unfold forget at 1. unfold bearer.
  destruct (getCurrentUser_settle f) as [u|e];
    (eexists; split; [reflexivity|]); (split; [|exact Hiff]);
    cbn; rewrite ?Hr; repeat split.
Qed.

Lemma checkAuth_settles_witness :
  exists w',
    step (EvSettle 0 (SettledUser (FetchNotOk (Normal (mkErrorBody None)))))
      (boot sampleToken) = Some (Normal tt, w') /\
    access_token (boot sampleToken) = sampleToken /\
    access_token w' = None /\ route w' = LoginRoute /\
    ui w' = initialState /\ map endpoint (sent w') = [lit "/auth/me"].
Proof.
  destruct (checkAuth_settles 0 (FetchNotOk (Normal (mkErrorBody None)))
              (boot sampleToken))
    as (w' & E & (Ht & Hr & Hu & Hs) & _).
  - reflexivity.
  - reflexivity.
  - exists w'. split; [exact E|]. split; [reflexivity|].
    split; [exact Ht|]. split; [exact Hr|]. split; [rewrite Hu|rewrite Hs];
      reflexivity.
Defined.

(* ================================================================== *)
(** ** What is sent and what is shown *)

Lemma trimStart_head (s : jsstring) (c : N) (r : jsstring) :
  trimStart s = c :: r -> isWhiteSpace c = false.
Proof.
  induction s as [|d t IH]; simpl; [discriminate|].
  destruct (isWhiteSpace d) eqn:Ed; [exact IH|].
  intros H. now injection H as <- _.
Qed.

Lemma trimStart_split (s : jsstring) :
  exists pre, s = pre ++ trimStart s /\ forallb isWhiteSpace pre = true.
Proof.
  induction s as [|d t (pre & E & Hpre)]; simpl.
  - now exists [].
  - destruct (isWhiteSpace d) eqn:Ed.
    + exists (d :: pre). simpl. rewrite Ed, Hpre. split; [now f_equal|auto].
    + now exists [].
Qed.

Lemma forallb_rev {A} (p : A -> bool) (l : list A) :
  forallb p (rev l) = forallb p l.
Proof.
  induction l as [|x l IH]; [reflexivity|].
  simpl. rewrite forallb_app, IH. simpl. rewrite andb_true_r.
  apply andb_comm.
Qed.

Lemma trimEnd_split (s : jsstring) :
  exists suf, s = trimEnd s ++ suf /\ forallb isWhiteSpace suf = true.
Proof.
  destruct (trimStart_split (rev s)) as (pre & E & Hpre).
  exists (rev pre). split.
  - unfold trimEnd. rewrite <- rev_app_distr, <- E. now rewrite rev_involutive.
  - now rewrite forallb_rev.
Qed.

Lemma trimEnd_last (s : jsstring) :
  trimEnd s = [] \/
  exists body z, trimEnd s = body ++ [z] /\ isWhiteSpace z = false.
Proof.
  unfold trimEnd. destruct (trimStart (rev s)) as [|z r] eqn:E.
  - now left.
  - right. exists (rev r), z. split; [reflexivity|].
    eapply trimStart_head; eauto.
Qed.

(** [trim] removes white space at both ends and nothing else. *)
Lemma trim_split (s : jsstring) :
  exists pre suf,
    s = pre ++ trim s ++ suf /\
    forallb isWhiteSpace pre = true /\ forallb isWhiteSpace suf = true /\
    (trim s = [] \/
     exists c r body z,
       trim s = c :: r /\ isWhiteSpace c = false /\
       trim s = body ++ [z] /\ isWhiteSpace z = false).
Proof.
  destruct (trimStart_split s) as (pre & Es & Hpre).
  destruct (trimEnd_split (trimStart s)) as (suf & Ee & Hsuf).
  exists pre, suf. unfold trim.
  split; [now rewrite <- Ee|]. split; [exact Hpre|]. split; [exact Hsuf|].
  destruct (trimEnd_last (trimStart s)) as [E|(body & z & E & Hz)];
    [now left|right].
  destruct (trimEnd (trimStart s)) as [|c r] eqn:Et.
  - destruct body; discriminate.
  - exists c, r, body, z. split; [reflexivity|]. split; [|auto].
    rewrite Ee in Es. destruct (trimStart s) as [|c' r'] eqn:Ets.
    + discriminate.
    + injection Ee as -> _. eapply trimStart_head; eauto.
Qed.

(** X6. The message of an accepted submission, as it is sent and as it is
    shown, is the typed text without the white space at its two ends: it is
    not empty, neither its first nor its last code unit is white space, and
    what was cut off on either side is white space only. *)
Theorem submitted_message_is_trimmed (w : World) :
  route w = ChatRoute ->
  submit_refused (ui w) = false ->
  exists w1 rq m pre suf c r body z,
    run [EvSubmit] w = Some (Normal tt, w1) /\
    sent w1 = sent w ++ [rq] /\ body_message rq = Some m /\
    messages (ui w1) = messages (ui w) ++ [userEntry m] /\
    inputMessage (ui w) = pre ++ m ++ suf /\
    forallb isWhiteSpace pre = true /\ forallb isWhiteSpace suf = true /\
    m = c :: r /\ isWhiteSpace c = false /\
    m = body ++ [z] /\ isWhiteSpace z = false /\
    inputMessage (ui w1) = [].
Proof.
  intros Hr Href.
  destruct (trim_split (inputMessage (ui w)))
    as (pre & suf & E & Hpre & Hsuf & [Hnil|(c & r & body & z & H1 & H2 & H3 & H4)]).
  { unfold submit_refused in Href. rewrite Hnil in Href. discriminate. }
  eexists (submitted w), _, (trim (inputMessage (ui w))), pre, suf, c, r, body, z.
  split.
  { rewrite (run_last EvSubmit w handleSubmit_begin Hr eq_refl);
      rewrite (handleSubmit_begin_accepted w Href); reflexivity. }
  cbn [submitted sent ui messages body_message inputMessage].
  repeat split; assumption.
Qed.

Lemma submitted_message_is_trimmed_witness :
  let w := world_of (run [EvChange (lit "  2 + 2 ?  ")] sessionWorld) in
  trim (inputMessage (ui w)) = lit "2 + 2 ?" /\
  exists w1 rq m pre suf c r body z,
    run [EvSubmit] w = Some (Normal tt, w1) /\
    sent w1 = sent w ++ [rq] /\ body_message rq = Some m /\
    messages (ui w1) = messages (ui w) ++ [userEntry m] /\
    inputMessage (ui w) = pre ++ m ++ suf /\
    forallb isWhiteSpace pre = true /\ forallb isWhiteSpace suf = true /\
    m = c :: r /\ isWhiteSpace c = false /\
    m = body ++ [z] /\ isWhiteSpace z = false /\
    inputMessage (ui w1) = [].
Proof.
  intros w. split; [vm_compute; reflexivity|].
  apply (submitted_message_is_trimmed w); reflexivity.
Defined.

(** X7. What the transcript shows when the service refuses a message: the
    [detail] of the error body when it is a non-empty string, and the fixed
    text "Failed to send message" when [detail] is missing or empty; always
    behind the error prefix, as plain text, after the user's entry. *)
Theorem refused_message_shows_detail (userText : jsstring)
    (error : ErrorBody) (w : World) :
  route w = ChatRoute ->
  truthy (trim userText) = true ->
  isLoading (ui w) = false ->
  exists w' shown,
    submit userText (FetchNotOk (Normal error)) w = Some (Normal tt, w') /\
    messages (ui w') =
      messages (ui w) ++
      [userEntry (trim userText);
       {| role := assistant; content := errorPrefix ++ shown;
          isMarkdown := false |}] /\
    (forall d, detail error = Some d -> truthy d = true -> shown = d) /\
    (truthy_opt (detail error) = false ->
     shown = lit "Failed to send message") /\
    sessionId (ui w') = sessionId (ui w) /\
    isLoading (ui w') = false.
Proof.
  intros Hr Ht Hl.
  destruct (submit_spec userText (FetchNotOk (Normal error)) w Hr Ht Hl)
    as (w' & E & Hl' & Hm & Hs & _).
  exists w', (or_else (detail error) (lit "Failed to send message")).
  split; [exact E|]. split; [exact Hm|].
  split; [|split; [|split; assumption]].
  - intros d Hd Hty. unfold or_else. now rewrite Hd, Hty.
  - unfold or_else, truthy_opt. destruct (detail error) as [d|]; [|reflexivity].
    now intros ->.
Qed.

Lemma refused_message_shows_detail_witness :
  exists w' shown,
    submit (lit "hi")
      (FetchNotOk (Normal (mkErrorBody (Some (lit "Session expired")))))
      sessionWorld = Some (Normal tt, w') /\
    messages (ui w') =
      messages (ui sessionWorld) ++
      [userEntry (trim (lit "hi"));
       {| role := assistant; content := errorPrefix ++ shown;
          isMarkdown := false |}] /\
    (forall d, Some (lit "Session expired") = Some d ->
               truthy d = true -> shown = d) /\
    (truthy_opt (Some (lit "Session expired")) = false ->
     shown = lit "Failed to send message") /\
    sessionId (ui w') = sessionId (ui sessionWorld) /\
    isLoading (ui w') = false.
Proof.
  apply (refused_message_shows_detail (lit "hi")
           (mkErrorBody (Some (lit "Session expired"))) sessionWorld);
    reflexivity.
Defined.

(* ================================================================== *)
(** ** Mode buttons pressed again, and replies that come late *)

(** X8. Pressing the stateless button a second time changes nothing: the
    world after two presses is the world after one, with no request sent by
    either. *)
Theorem stateless_switch_idempotent (w w1 : World) :
  switchToStateless w = Some (Normal tt, w1) ->
  switchToStateless w1 = Some (Normal tt, w1) /\
  sent w1 = sent w /\ inflight w1 = inflight w.
Proof.
  unfold switchToStateless. cbn [run]. unfold step.
  destruct (route w) eqn:Hr; [|discriminate].
  cbn [handler]. intros H. injection H as <-.
  cbn. rewrite Hr. repeat split.
Qed.

Lemma stateless_switch_idempotent_witness :
  switchToStateless statelessWorld = Some (Normal tt, statelessWorld) /\
  sent statelessWorld = sent sessionWorld /\
  inflight statelessWorld = inflight sessionWorld.
Proof.
  apply (stateless_switch_idempotent sessionWorld statelessWorld).
  vm_compute. reflexivity.
Defined.

(** Settling a pending [chatApi.createSession], at whatever moment. *)
Lemma settle_session_spec (n : nat) (f : FetchResult SessionBody)
    (w : World) :
  route w = ChatRoute ->
  nth_error (inflight w) n = Some AwaitCreateSession ->
  exists w',
    step (EvSettle n (SettledSession f)) w = Some (Normal tt, w') /\
    match createSession_settle f with
    | Normal b =>
        sessionId (ui w') = Some (new_session_id b) /\
        messages (ui w') = messages (ui w) ++ [welcomeEntry]
    | Throw _ =>
        sessionId (ui w') = sessionId (ui w) /\
        messages (ui w') = messages (ui w) ++ [initErrorEntry]
    end /\
    currentMode (ui w') = currentMode (ui w) /\
    isLoading (ui w') = isLoading (ui w) /\
    route w' = ChatRoute /\ sent w' = sent w /\
    inflight w' = remove_nth n (inflight w).
Proof.
  intros Hr Hn. unfold step. rewrite Hr. cbn [handler]. rewrite Hn.
  cbn [resume]. unfold bind at 1. unfold forget at 1.
  destruct (initSession_resume_spec (createSession_settle f)
              {| ui := ui w; access_token := access_token w; route := route w;
                 sent := sent w; inflight := remove_nth n (inflight w) |})
    as (w' & E & Hout & Hc & Hl & Hr' & Hs & Hfl).
  rewrite E. exists w'. cbn [ui route inflight sent] in *.
  rewrite Hr'. repeat split; assumption.
Qed.

(** X9. The session button is not guarded against a second press: two
    presses send two session requests, and when both succeed the transcript
    holds the welcome entry twice and the handle stored is the one of the
    request that settled last, whether that is the first or the second one
    sent. *)
Theorem session_button_pressed_twice (a b : SessionBody)
    (secondFirst : bool) (w : World) :
  route w = ChatRoute ->
  exists w',
    run [EvModeClick session; EvModeClick session;
         EvSettle (length (inflight w) + (if secondFirst then 1 else 0))
           (SettledSession (FetchOk (Normal a)));
         EvSettle (length (inflight w))
           (SettledSession (FetchOk (Normal b)))] w
      = Some (Normal tt, w') /\
    messages (ui w') = [welcomeEntry; welcomeEntry] /\
    sessionId (ui w') = Some (new_session_id b) /\
    map endpoint (sent w')
      = map endpoint (sent w) ++ [lit "/chat/session"; lit "/chat/session"] /\
    inflight w' = inflight w.
Proof.
  intros Hr.
  destruct (handleModeChange_session_spec w)
    as (w1 & E1 & _ & _ & _ & _ & Hs1 & Hf1 & Hr1).
  destruct (handleModeChange_session_spec w1)
    as (w2 & E2 & _ & Hm2 & _ & _ & Hs2 & Hf2 & Hr2).
  rewrite Hr in Hr1. rewrite Hr1 in Hr2.
  rewrite Hf1 in Hf2. rewrite <- app_assoc in Hf2. cbn [app] in Hf2.
  assert (Hlen : (length (inflight w) + 1)%nat
                 = length (inflight w ++ [AwaitCreateSession])).
  { rewrite length_app. reflexivity. }
  assert (Hn3 : nth_error (inflight w2)
                  (length (inflight w) + (if secondFirst then 1 else 0))
                = Some AwaitCreateSession).
  { rewrite Hf2. destruct secondFirst.
    - change (inflight w ++ [AwaitCreateSession; AwaitCreateSession])
        with (inflight w ++ [AwaitCreateSession] ++ [AwaitCreateSession]).
      rewrite app_assoc, Hlen. apply nth_error_last.
    - rewrite Nat.add_0_r. apply nth_error_last. }
  destruct (settle_session_spec _ (FetchOk (Normal a)) w2 Hr2 Hn3)
    as (w3 & E3 & [_ Hm3] & _ & _ & Hr3 & Hs3 & Hf3).
  assert (Hf3' : inflight w3 = inflight w ++ [AwaitCreateSession]).
  { rewrite Hf3, Hf2. destruct secondFirst.
    - change (inflight w ++ [AwaitCreateSession; AwaitCreateSession])
        with (inflight w ++ [AwaitCreateSession] ++ [AwaitCreateSession]).
      rewrite app_assoc, Hlen, remove_nth_last. apply app_nil_r.
    - rewrite Nat.add_0_r. apply remove_nth_last. }
  assert (Hn4 : nth_error (inflight w3) (length (inflight w))
                = Some AwaitCreateSession).
  { rewrite Hf3'. apply nth_error_last. }
  destruct (settle_session_spec _ (FetchOk (Normal b)) w3 Hr3 Hn4)
    as (w4 & E4 & [Hsid4 Hm4] & _ & _ & _ & Hs4 & Hf4).
  exists w4. split.
  { rewrite (run_cons (EvModeClick session) _ w w1 _ Hr eq_refl E1).
    rewrite (run_cons (EvModeClick session) _ w1 w2 _ Hr1 eq_refl E2).
    cbn [run]. rewrite E3, E4. reflexivity. }
  split; [now rewrite Hm4, Hm3, Hm2|]. split; [exact Hsid4|].
  split.
  - rewrite Hs4, Hs3, Hs2, Hs1, !map_app. cbn. now rewrite <- app_assoc.
  - rewrite Hf4, Hf3'. rewrite remove_nth_last. apply app_nil_r.
Qed.

Lemma session_button_pressed_twice_witness :
  exists w',
    run [EvModeClick session; EvModeClick session;
         EvSettle (length (inflight statelessWorld) + 1)
           (SettledSession (FetchOk (Normal (mkSessionBody (lit "S3")))));
         EvSettle (length (inflight statelessWorld))
           (SettledSession (FetchOk (Normal (mkSessionBody (lit "S2")))))]
      statelessWorld = Some (Normal tt, w') /\
    messages (ui w') = [welcomeEntry; welcomeEntry] /\
    sessionId (ui w') = Some (lit "S2") /\
    map endpoint (sent w')
      = map endpoint (sent statelessWorld)
        ++ [lit "/chat/session"; lit "/chat/session"] /\
    inflight w' = inflight statelessWorld.
Proof.
  apply (session_button_pressed_twice (mkSessionBody (lit "S3"))
           (mkSessionBody (lit "S2")) true statelessWorld).
  vm_compute. reflexivity.
Defined.

(** X10. Whether a reply's session identifier is adopted is decided by the
    mode at the time of the submission, not by the mode at the time of the
    reply.  A message sent in session mode stores the identifier of its
    reply even if the user has switched to stateless mode meanwhile, which
    leaves a handle stored in stateless mode; a message sent in stateless
    mode never stores one, even if the view is in session mode when the
    reply arrives. *)
Theorem late_reply_uses_submission_mode (userText : jsstring)
    (f : FetchResult SendBody) (res : SendBody) (sid : jsstring)
    (newMode : Mode) (w : World) :
  route w = ChatRoute ->
  truthy (trim userText) = true ->
  isLoading (ui w) = false ->
  sendMessage_settle f = Normal res ->
  session_id res = Some sid ->
  truthy sid = true ->
  exists w',
    run [EvChange userText; EvSubmit; EvModeClick newMode;
         EvSettle (length (inflight w)) (SettledSend f)] w
      = Some (Normal tt, w') /\
    currentMode (ui w') = newMode /\
    sessionId (ui w') =
      match currentMode (ui w), newMode with
      | session, _ => Some sid
      | stateless, stateless => None
      | stateless, session => sessionId (ui w)
      end.
Proof.
  intros Hr Ht Hl Hok Hsid Hty.
  destruct (submit_unfold userText f w Hr Ht Hl)
    as (w1 & E1 & _ & Hs1 & _ & _ & _ & Hfl1 & Hr1 & _).
  assert (Hsw : exists w2,
             handleModeChange newMode w1 = (Normal tt, w2) /\
             currentMode (ui w2) = newMode /\
             sessionId (ui w2) = match newMode with
                                 | session => sessionId (ui w1)
                                 | stateless => None
                                 end /\
             route w2 = route w1 /\
             exists q, inflight w2 = inflight w1 ++ q).
  { destruct newMode.
    - destruct (handleModeChange_session_spec w1)
        as (w2 & E & Hc & _ & Hs & _ & _ & Hfl & Hr2).
      exists w2. repeat split; try assumption. now exists [AwaitCreateSession].
    - destruct (handleModeChange_stateless_spec w1)
        as (w2 & E & Hc & _ & Hs & _ & _ & Hfl & Hr2).
      exists w2. repeat split; try assumption.
      exists []. now rewrite app_nil_r. }
  destruct Hsw as (w2 & E2 & Hc2 & Hs2 & Hr2 & q & Hfl2).
  rewrite Hr1 in Hr2.
  assert (Hn : nth_error (inflight w2) (length (inflight w))
               = Some (AwaitSendMessage (currentMode (ui w)))).
  { rewrite Hfl2, Hfl1, <- app_assoc. apply nth_error_last. }
  destruct (settle_send_spec _ _ f w2 Hr2 Hn)
    as (w' & E3 & _ & _ & Hc3 & Hs3 & _).
  exists w'. split.
  { change [EvChange userText; EvSubmit; EvModeClick newMode;
            EvSettle (length (inflight w)) (SettledSend f)]
      with ([EvChange userText; EvSubmit] ++
            [EvModeClick newMode;
             EvSettle (length (inflight w)) (SettledSend f)]).
    rewrite (run_app _ _ w w1 E1).
    rewrite (run_cons (EvModeClick newMode) _ w1 w2 _ Hr1 eq_refl E2).
    cbn [run]. rewrite E3. reflexivity. }
  split; [congruence|].
  rewrite Hs3, Hok, Hsid. cbn [truthy_opt]. rewrite Hty, Hs2, Hs1.
  destruct (currentMode (ui w)), newMode; reflexivity.
Qed.

Lemma late_reply_uses_submission_mode_witness :
  exists w',
    run [EvChange (lit "hello"); EvSubmit; EvModeClick stateless;
         EvSettle (length (inflight sessionWorld))
           (SettledSend
              (FetchOk (Normal (mkSendBody (lit "Hi!") (Some (lit "S9"))))))]
      sessionWorld = Some (Normal tt, w') /\
    currentMode (ui w') = stateless /\
    sessionId (ui w') = Some (lit "S9").
Proof.
  apply (late_reply_uses_submission_mode (lit "hello")
           (FetchOk (Normal (mkSendBody (lit "Hi!") (Some (lit "S9")))))
           (mkSendBody (lit "Hi!") (Some (lit "S9"))) (lit "S9") stateless
           sessionWorld); reflexivity.
Defined.

(* ================================================================== *)
(** ** The password meter of the login page *)

Lemma incr_if_mono (b1 b2 : bool) (n m : nat) :
  (b1 = true -> b2 = true) -> (n <= m)%nat ->
  (Login.incr_if b1 n <= Login.incr_if b2 m)%nat.
Proof.
  intros Hb Hn.
  destruct b1, b2; cbn; try lia; specialize (Hb eq_refl); discriminate.
Qed.

Lemma test_mono (class : N -> bool) (a s b : jsstring) :
  Login.test class s = true -> Login.test class (a ++ s ++ b) = true.
Proof.
  unfold Login.test. intros H. rewrite !existsb_app, H.
  now rewrite orb_true_r.
Qed.

(** X11. The meter never goes down when characters are added at either end
    of the password. *)
Theorem strength_monotone (a s b : jsstring) :
  (Login.strengthOf s <= Login.strengthOf (a ++ s ++ b))%nat.
Proof.
  unfold Login.strengthOf.
  assert (Hlen : (length s <= length (a ++ s ++ b))%nat).
  { rewrite !length_app. lia. }
  apply incr_if_mono; [apply test_mono|].
  apply incr_if_mono; [apply test_mono|].
  apply incr_if_mono.
  { intros H. apply andb_true_iff in H as [H1 H2]. now rewrite !test_mono. }
  apply incr_if_mono.
  { intros H. apply Nat.leb_le in H. apply Nat.leb_le. lia. }
  apply incr_if_mono; [|lia].
  intros H. apply Nat.leb_le in H. apply Nat.leb_le. lia.
Qed.

(** X12. The meter counts at most five points, and it says "Strong
    password" exactly for a password of ten code units or more that has a
    lower-case letter, an upper-case letter, a digit and one other
    character; in particular never for a password the form would refuse as
    shorter than six. *)
Theorem strong_password_iff (password : jsstring) :
  (Login.strengthOf password <= 5)%nat /\
  (Login.getStrengthText (Login.strengthOf password) = lit "Strong password"
   <-> (10 <= length password)%nat /\
       Login.test Login.isLower password = true /\
       Login.test Login.isUpper password = true /\
       Login.test Login.isDigit password = true /\
       Login.test Login.isOther password = true) /\
  ((length password < 6)%nat ->
   (Login.strengthOf password <= 3)%nat).
Proof.
  unfold Login.strengthOf.
  destruct (Nat.leb_spec 6 (length password)) as [H6|H6];
    destruct (Nat.leb_spec 10 (length password)) as [H10|H10];
    destruct (Login.test Login.isLower password);
    destruct (Login.test Login.isUpper password);
    destruct (Login.test Login.isDigit password);
    destruct (Login.test Login.isOther password);
    cbn [andb Login.incr_if];
    (split; [lia|]);
    (split; [|intros; lia]);
    (split; [intros H; try (vm_compute in H; discriminate H);
             repeat split; try reflexivity; lia
            |intros (? & ? & ? & ? & ?); try discriminate; try lia;
             reflexivity]).
Qed.

(* ================================================================== *)
(** ** The login page *)

Lemma jseqb_eq (a b : jsstring) : jseqb a b = true <-> a = b.
Proof.
  revert b. induction a as [|x a IH]; intros [|y b]; simpl;
    try (split; [discriminate|discriminate]); [split; reflexivity|].
  rewrite andb_true_iff, N.eqb_eq, IH. split.
  - intros [-> ->]. reflexivity.
  - intros H. injection H as -> ->. auto.
Qed.

(** What [handleRegister] does when the form is submitted. *)
Lemma handleRegister_begin_spec (up : jsstring -> jsstring)
    (w : Login.World) :
  let s := Login.st w in
  let pw := Login.Reg.password (Login.registerData s) in
  exists w',
    Login.handleRegister_begin up w = (Normal tt, w') /\
    Login.success (Login.st w') = [] /\
    Login.storage w' = Login.storage w /\
    Login.location w' = Login.location w /\
    Login.registerData (Login.st w') = Login.registerData s /\
    Login.confirmPassword (Login.st w') = Login.confirmPassword s /\
    Login.passwordStrength (Login.st w') = Login.passwordStrength s /\
    if negb (jseqb pw (Login.confirmPassword s)) then
      Login.error (Login.st w') = lit "Passwords do not match" /\
      Login.loading (Login.st w') = Login.loading s /\
      Login.sent w' = Login.sent w /\ Login.pending w' = Login.pending w
    else if (length pw <? 6)%nat then
      Login.error (Login.st w') = lit "Password must be at least 6 characters" /\
      Login.loading (Login.st w') = Login.loading s /\
      Login.sent w' = Login.sent w /\ Login.pending w' = Login.pending w
    else
      Login.error (Login.st w') = [] /\
      Login.loading (Login.st w') = true /\
      Login.sent w' =
        Login.sent w ++ [Login.PostRegister (Login.dataToSend up s)] /\
      Login.pending w' = Login.pending w ++ [Login.AwaitRegister].
Proof.
  intros s pw. unfold Login.handleRegister_begin, Eff.bind, Login.rendered.
  cbn beta iota. fold s. fold pw.
  destruct (negb (jseqb pw (Login.confirmPassword s)));
    [|destruct (length pw <? 6)%nat];
    (eexists; split; [reflexivity|]); cbn; repeat split.
Qed.

(** What the continuations of the two handlers and the timer do. *)
Lemma handleLogin_resume_spec (r : Completion Login.AuthResponse)
    (w : Login.World) :
  exists w',
    Login.handleLogin_resume r w = (Normal tt, w') /\
    Login.loading (Login.st w') = false /\
    Login.success (Login.st w') = Login.success (Login.st w) /\
    Login.registerData (Login.st w') = Login.registerData (Login.st w) /\
    Login.passwordStrength (Login.st w')
      = Login.passwordStrength (Login.st w) /\
    Login.sent w' = Login.sent w /\ Login.pending w' = Login.pending w /\
    match r with
    | Normal response =>
        Login.storage w' = Some (Login.access_token response) /\
        Login.location w' = Login.AtHome /\
        Login.error (Login.st w') = Login.error (Login.st w)
    | Throw err =>
        Login.storage w' = Login.storage w /\
        Login.location w' = Login.location w /\
        Login.error (Login.st w') = message_or err (lit "Login failed")
    end.
Proof.
  destruct r; (eexists; split; [reflexivity|]); cbn; repeat split.
Qed.

Lemma handleRegister_resume_spec (r : Completion Login.AuthResponse)
    (w : Login.World) :
  exists w',
    Login.handleRegister_resume r w = (Normal tt, w') /\
    Login.loading (Login.st w') = false /\
    Login.registerData (Login.st w') = Login.registerData (Login.st w) /\
    Login.passwordStrength (Login.st w')
      = Login.passwordStrength (Login.st w) /\
    Login.sent w' = Login.sent w /\
    Login.location w' = Login.location w /\
    match r with
    | Normal response =>
        Login.storage w' = Some (Login.access_token response) /\
        Login.success (Login.st w')
          = lit "Registration successful! Redirecting..." /\
        Login.error (Login.st w') = Login.error (Login.st w) /\
        Login.pending w' = Login.pending w ++ [Login.NavigateTimer]
    | Throw err =>
        Login.storage w' = Login.storage w /\
        Login.success (Login.st w') = Login.success (Login.st w) /\
        Login.error (Login.st w')
          = message_or err (lit "Registration failed") /\
        Login.pending w' = Login.pending w
    end.
Proof.
  destruct r; (eexists; split; [reflexivity|]); cbn; repeat split.
Qed.

(** What one event of the login page keeps. *)
Lemma login_step_keeps (up : jsstring -> jsstring) (ev : Login.Event)
    (w w' : Login.World) (c : Completion unit) :
  Login.step up ev w = Some (c, w') ->
  c = Normal tt /\
  (Login.passwordStrength (Login.st w)
     = Login.strengthOf (Login.Reg.password (Login.registerData (Login.st w)))
   -> Login.passwordStrength (Login.st w')
     = Login.strengthOf
         (Login.Reg.password (Login.registerData (Login.st w')))) /\
  exists added,
    Login.sent w' = Login.sent w ++ added /\
    Forall (fun rq =>
              match rq with
              | Login.PostLogin c => c = Login.loginData (Login.st w)
              | Login.PostRegister d =>
                  Login.Reg.password d = Login.Reg.confirm_password d /\
                  (6 <= length (Login.Reg.password d))%nat /\
                  d = Login.dataToSend up (Login.st w)
              end) added.
Proof.
  intros Hstep. unfold Login.step in Hstep.
  destruct (Login.location w); [|discriminate].
  assert (Hnil : forall l : list Login.Request,
             exists added,
               l = l ++ added /\
               Forall (fun rq =>
                         match rq with
                         | Login.PostLogin c => c = Login.loginData (Login.st w)
                         | Login.PostRegister d =>
                             Login.Reg.password d = Login.Reg.confirm_password d /\
                             (6 <= length (Login.Reg.password d))%nat /\
                             d = Login.dataToSend up (Login.st w)
                         end) added).
  { intros l. exists []. rewrite app_nil_r. auto. }
  destruct ev as [tab|v|v|fld v|z|v|v| | |n f|n f|n];
    cbn [Login.handler] in Hstep.
  - injection Hstep as <- <-. split; [reflexivity|].
    split; [intros Hinv; exact Hinv|]. apply Hnil.
  - injection Hstep as <- <-. split; [reflexivity|].
    split; [intros Hinv; exact Hinv|]. apply Hnil.
  - injection Hstep as <- <-. split; [reflexivity|].
    split; [intros Hinv; exact Hinv|]. apply Hnil.
  - injection Hstep as <- <-. split; [reflexivity|].
    split; [intros Hinv; destruct fld; exact Hinv|]. apply Hnil.
  - injection Hstep as <- <-. split; [reflexivity|].
    split; [intros Hinv; exact Hinv|]. apply Hnil.
  - injection Hstep as <- <-. split; [reflexivity|].
    split; [intros _; reflexivity|]. apply Hnil.
  - injection Hstep as <- <-. split; [reflexivity|].
    split; [intros Hinv; exact Hinv|]. apply Hnil.
  - injection Hstep as <- <-. split; [reflexivity|].
    split; [intros Hinv; exact Hinv|].
    eexists [_]. split; [reflexivity|]. repeat constructor.
  - destruct (handleRegister_begin_spec up w)
      as (w1 & E & _ & _ & _ & Hd & _ & Hp & Hcase).
    rewrite E in Hstep. injection Hstep as <- <-. split; [reflexivity|].
    split; [now rewrite Hd, Hp|].
    cbn zeta in Hcase.
    destruct (negb (jseqb _ _)) eqn:Heq.
    { destruct Hcase as (_ & _ & -> & _). apply Hnil. }
    destruct (length _ <? 6)%nat eqn:Hlen.
    { destruct Hcase as (_ & _ & -> & _). apply Hnil. }
    destruct Hcase as (_ & _ & -> & _).
    eexists [_]. split; [reflexivity|]. constructor; [|constructor].
    apply negb_false_iff, jseqb_eq in Heq. apply Nat.ltb_ge in Hlen.
    cbn. auto.
  - destruct (nth_error (Login.pending w) n) as [[| |]|]; try discriminate.
    injection Hstep as Hstep. unfold Eff.bind at 1 in Hstep.
    unfold Login.forget at 1, Eff.modify in Hstep.
    destruct (handleLogin_resume_spec (Login.login_settle f)
                {| Login.st := Login.st w; Login.storage := Login.storage w;
                   Login.location := Login.location w;
                   Login.sent := Login.sent w;
                   Login.pending := remove_nth n (Login.pending w) |})
      as (w1 & E & _ & _ & Hd & Hp & Hs & _).
    rewrite E in Hstep. injection Hstep as <- <-. split; [reflexivity|].
    cbn in Hd, Hp, Hs. split; [now rewrite Hd, Hp|]. rewrite Hs. apply Hnil.
  - destruct (nth_error (Login.pending w) n) as [[| |]|]; try discriminate.
    injection Hstep as Hstep. unfold Eff.bind at 1 in Hstep.
    unfold Login.forget at 1, Eff.modify in Hstep.
    destruct (handleRegister_resume_spec (Login.register_settle f)
                {| Login.st := Login.st w; Login.storage := Login.storage w;
                   Login.location := Login.location w;
                   Login.sent := Login.sent w;
                   Login.pending := remove_nth n (Login.pending w) |})
      as (w1 & E & _ & Hd & Hp & Hs & _).
    rewrite E in Hstep. injection Hstep as <- <-. split; [reflexivity|].
    cbn in Hd, Hp, Hs. split; [now rewrite Hd, Hp|]. rewrite Hs. apply Hnil.
  - destruct (nth_error (Login.pending w) n) as [[| |]|]; try discriminate.
    injection Hstep as <- <-. split; [reflexivity|].
    split; [intros Hinv; exact Hinv|]. apply Hnil.
Qed.

(** X13. The meter shows the strength of the password that is in the form:
    in every state the login page reaches, [passwordStrength] is
    [checkPasswordStrength]'s count for the current [registerData.password],
    whatever else was typed, submitted or answered since the password was
    typed. *)
Theorem meter_tracks_password (up : jsstring -> jsstring)
    (token : option jsstring) (evs : list Login.Event) (w : Login.World) :
  Login.run up evs (Login.start token) = Some (Normal tt, w) ->
  Login.passwordStrength (Login.st w)
  = Login.strengthOf (Login.Reg.password (Login.registerData (Login.st w))).
Proof.
  assert (Hstart : Login.passwordStrength (Login.st (Login.start token))
                   = Login.strengthOf
                       (Login.Reg.password
                          (Login.registerData (Login.st (Login.start token)))))
    by reflexivity.
  revert Hstart. generalize (Login.start token).
  induction evs as [|ev rest IH]; intros w0 Hinv Hrun.
  - simpl in Hrun. now injection Hrun as <-.
  - cbn [Login.run] in Hrun.
    destruct (Login.step up ev w0) as [[[[]|e] w1]|] eqn:Hs;
      try discriminate.
    destruct (login_step_keeps up ev w0 w1 _ Hs) as (_ & Hkeep & _).
    apply (IH w1 (Hkeep Hinv) Hrun).
Qed.

Lemma meter_tracks_password_witness :
  let evs := [Login.EvTab Login.register;
              Login.EvRegisterPassword (lit "Abc123!xyz");
              Login.EvConfirmPassword (lit "Abc");
              Login.EvRegisterField Login.Gender (lit "female");
              Login.EvSubmitRegister] in
  let w := Login.world_of
             (Login.run Login.asciiToUpperCase evs (Login.start None)) in
  Login.passwordStrength (Login.st w) = 5%nat /\
  Login.passwordStrength (Login.st w)
  = Login.strengthOf (Login.Reg.password (Login.registerData (Login.st w))).
Proof.
  intros evs w. split; [vm_compute; reflexivity|].
  apply (meter_tracks_password Login.asciiToUpperCase None evs w).
  vm_compute. reflexivity.
Defined.

(** X14. The login page never sends a registration whose password is
    shorter than six code units or differs from its confirmation, and no
    handler of the page lets an exception escape. *)
Theorem register_requests_are_valid (up : jsstring -> jsstring)
    (token : option jsstring) (evs : list Login.Event) (w : Login.World)
    (c : Completion unit) :
  Login.run up evs (Login.start token) = Some (c, w) ->
  c = Normal tt /\
  Forall (fun rq =>
            match rq with
            | Login.PostLogin _ => True
            | Login.PostRegister d =>
                Login.Reg.password d = Login.Reg.confirm_password d /\
                (6 <= length (Login.Reg.password d))%nat
            end) (Login.sent w).
Proof.
  assert (Hstart : Forall (fun rq =>
            match rq with
            | Login.PostLogin _ => True
            | Login.PostRegister d =>
                Login.Reg.password d = Login.Reg.confirm_password d /\
                (6 <= length (Login.Reg.password d))%nat
            end) (Login.sent (Login.start token))) by constructor.
  revert Hstart. generalize (Login.start token).
  induction evs as [|ev rest IH]; intros w0 Hinv Hrun.
  - simpl in Hrun. injection Hrun as <- <-. auto.
  - cbn [Login.run] in Hrun.
    destruct (Login.step up ev w0) as [[c1 w1]|] eqn:Hs; [|discriminate].
    destruct (login_step_keeps up ev w0 w1 _ Hs)
      as (-> & _ & added & Hsent & Hall).
    apply (IH w1); [|exact Hrun].
    rewrite Hsent. apply Forall_app. split; [exact Hinv|].
    eapply Forall_impl; [|exact Hall].
    intros [cr|d]; [auto|]. intros (H1 & H2 & _). auto.
Qed.

Lemma register_requests_are_valid_witness :
  let evs := [Login.EvRegisterPassword (lit "abc");
              Login.EvConfirmPassword (lit "abc");
              Login.EvSubmitRegister;
              Login.EvRegisterPassword (lit "abcdef");
              Login.EvSubmitRegister;
              Login.EvConfirmPassword (lit "abcdef");
              Login.EvSubmitRegister] in
  let w := Login.world_of
             (Login.run Login.asciiToUpperCase evs (Login.start None)) in
  length (Login.sent w) = 1%nat /\
  Forall (fun rq =>
            match rq with
            | Login.PostLogin _ => True
            | Login.PostRegister d =>
                Login.Reg.password d = Login.Reg.confirm_password d /\
                (6 <= length (Login.Reg.password d))%nat
            end) (Login.sent w).
Proof.
  intros evs w. split; [vm_compute; reflexivity|].
  apply (register_requests_are_valid Login.asciiToUpperCase None evs w
           (Normal tt)).
  vm_compute. reflexivity.
Defined.

(** X15. A registration the form refuses leaves no trace but its message:
    nothing is sent, [loading], the stored token and the typed data are
    untouched, the success text is cleared.  The message is "Passwords do
    not match" whenever password and confirmation differ, also when the
    password is too short as well; the length message is shown only for two
    equal passwords. *)
Theorem register_refused (up : jsstring -> jsstring) (w : Login.World) :
  let s := Login.st w in
  let pw := Login.Reg.password (Login.registerData s) in
  Login.location w = Login.AtLogin ->
  pw <> Login.confirmPassword s \/ (length pw < 6)%nat ->
  exists w',
    Login.step up Login.EvSubmitRegister w = Some (Normal tt, w') /\
    Login.sent w' = Login.sent w /\ Login.pending w' = Login.pending w /\
    Login.loading (Login.st w') = Login.loading s /\
    Login.storage w' = Login.storage w /\
    Login.registerData (Login.st w') = Login.registerData s /\
    Login.success (Login.st w') = [] /\
    (pw <> Login.confirmPassword s ->
     Login.error (Login.st w') = lit "Passwords do not match") /\
    (pw = Login.confirmPassword s ->
     Login.error (Login.st w')
     = lit "Password must be at least 6 characters").
Proof.
  intros s pw Hloc Hbad. unfold Login.step. rewrite Hloc.
  cbn [Login.handler].
  destruct (handleRegister_begin_spec up w)
    as (w1 & E & Hsucc & Hst & _ & Hd & _ & _ & Hcase).
  rewrite E. exists w1. split; [reflexivity|].
  cbn zeta in Hcase. fold s in Hcase, Hd. fold pw in Hcase.
  destruct (negb (jseqb pw (Login.confirmPassword s))) eqn:Heq.
  - destruct Hcase as (He & Hl & Hs & Hp).
    apply negb_true_iff in Heq.
    assert (Hne : pw <> Login.confirmPassword s).
    { intros H. apply jseqb_eq in H. congruence. }
    repeat (split; [assumption|]).
    split; [intros _; exact He | intros H; contradiction].
  - apply negb_false_iff, jseqb_eq in Heq.
    destruct Hbad as [Hne|Hshort]; [contradiction|].
    apply Nat.ltb_lt in Hshort. rewrite Hshort in Hcase.
    destruct Hcase as (He & Hl & Hs & Hp).
    repeat (split; [assumption|]).
    split; [intros H; contradiction | intros _; exact He].
Qed.

Lemma register_refused_witness :
  let w := Login.world_of
             (Login.run Login.asciiToUpperCase
                [Login.EvRegisterPassword (lit "abc");
                 Login.EvConfirmPassword (lit "abd")]
                (Login.start None)) in
  exists w',
    Login.step Login.asciiToUpperCase Login.EvSubmitRegister w
      = Some (Normal tt, w') /\
    Login.sent w' = [] /\
    Login.error (Login.st w') = lit "Passwords do not match".
Proof.
  intros w.
  destruct (register_refused Login.asciiToUpperCase w)
    as (w' & E & Hs & _ & _ & _ & _ & _ & Hne & _).
  - reflexivity.
  - left. vm_compute. discriminate.
  - exists w'. split; [exact E|]. split; [exact Hs|].
    apply Hne. vm_compute. discriminate.
Defined.

Lemma login_run_cons (up : jsstring -> jsstring) (ev : Login.Event)
    (rest : list Login.Event) (w w' : Login.World) (m : Login.M unit) :
  Login.location w = Login.AtLogin ->
  Login.handler up ev w = Some m ->
  m w = (Normal tt, w') ->
  Login.run up (ev :: rest) w = Login.run up rest w'.
Proof.
  intros Hl Hh Hm. cbn [Login.run]. unfold Login.step.
  now rewrite Hl, Hh, Hm.
Qed.

Lemma login_settles_spec (up : jsstring -> jsstring) (n : nat)
    (f : Fetched ErrorBody Login.AuthResponse) (w : Login.World) :
  Login.location w = Login.AtLogin ->
  nth_error (Login.pending w) n = Some Login.AwaitLogin ->
  exists w',
    Login.step up (Login.EvLoginSettles n f) w = Some (Normal tt, w') /\
    Login.loading (Login.st w') = false /\
    Login.sent w' = Login.sent w /\
    Login.pending w' = remove_nth n (Login.pending w) /\
    match Login.login_settle f with
    | Normal response =>
        Login.storage w' = Some (Login.access_token response) /\
        Login.location w' = Login.AtHome /\
        Login.error (Login.st w') = Login.error (Login.st w)
    | Throw err =>
        Login.storage w' = Login.storage w /\
        Login.location w' = Login.AtLogin /\
        Login.error (Login.st w') = message_or err (lit "Login failed")
    end.
Proof.
  intros Hloc Hn. unfold Login.step. rewrite Hloc. cbn [Login.handler].
  rewrite Hn. unfold Eff.bind at 1. unfold Login.forget at 1, Eff.modify.
  destruct (handleLogin_resume_spec (Login.login_settle f)
              {| Login.st := Login.st w; Login.storage := Login.storage w;
                 Login.location := Login.location w;
                 Login.sent := Login.sent w;
                 Login.pending := remove_nth n (Login.pending w) |})
    as (w' & E & Hl & _ & _ & _ & Hs & Hp & Hout).
  rewrite E. exists w'. split; [reflexivity|].
  cbn [Login.st Login.storage Login.location Login.sent Login.pending] in *.
  repeat (split; [assumption|]).
  destruct (Login.login_settle f); [exact Hout|].
  destruct Hout as (H1 & H2 & H3). rewrite Hloc in H2. auto.
Qed.

Lemma register_settles_spec (up : jsstring -> jsstring) (n : nat)
    (f : Fetched Login.RegisterError Login.AuthResponse) (w : Login.World) :
  Login.location w = Login.AtLogin ->
  nth_error (Login.pending w) n = Some Login.AwaitRegister ->
  exists w',
    Login.step up (Login.EvRegisterSettles n f) w = Some (Normal tt, w') /\
    Login.loading (Login.st w') = false /\
    Login.sent w' = Login.sent w /\
    Login.location w' = Login.AtLogin /\
    match Login.register_settle f with
    | Normal response =>
        Login.storage w' = Some (Login.access_token response) /\
        Login.success (Login.st w')
          = lit "Registration successful! Redirecting..." /\
        Login.error (Login.st w') = Login.error (Login.st w) /\
        Login.pending w'
          = remove_nth n (Login.pending w) ++ [Login.NavigateTimer]
    | Throw err =>
        Login.storage w' = Login.storage w /\
        Login.success (Login.st w') = Login.success (Login.st w) /\
        Login.error (Login.st w')
          = message_or err (lit "Registration failed") /\
        Login.pending w' = remove_nth n (Login.pending w)
    end.
Proof.
  intros Hloc Hn. unfold Login.step. rewrite Hloc. cbn [Login.handler].
  rewrite Hn. unfold Eff.bind at 1. unfold Login.forget at 1, Eff.modify.
  destruct (handleRegister_resume_spec (Login.register_settle f)
              {| Login.st := Login.st w; Login.storage := Login.storage w;
                 Login.location := Login.location w;
                 Login.sent := Login.sent w;
                 Login.pending := remove_nth n (Login.pending w) |})
    as (w' & E & Hl & _ & _ & Hs & Hloc' & Hout).
  rewrite E. exists w'. split; [reflexivity|].
  cbn [Login.st Login.storage Login.location Login.sent Login.pending] in *.
  rewrite Hloc in Hloc'. repeat (split; [assumption|]). exact Hout.
Qed.

(** X16. A login attempt, from the submission to the answer.  The
    credentials sent are the ones in the form; [loading] is false again
    whatever the answer.  On success the token of the answer is stored and
    the router leaves for the home page.  On failure the token and the page
    are as before and the error shown is the message of the failure: the
    [detail] of a refusal when it is a non-empty string, "Login failed" when
    it is missing or empty or when what was thrown is not an [Error]. *)
Theorem login_attempt (up : jsstring -> jsstring)
    (f : Fetched ErrorBody Login.AuthResponse) (w : Login.World) :
  Login.location w = Login.AtLogin ->
  exists w',
    Login.run up
      [Login.EvSubmitLogin; Login.EvLoginSettles (length (Login.pending w)) f]
      w = Some (Normal tt, w') /\
    Login.sent w' = Login.sent w ++ [Login.PostLogin (Login.loginData (Login.st w))] /\
    Login.pending w' = Login.pending w /\
    Login.loading (Login.st w') = false /\
    match Login.login_settle f with
    | Normal response =>
        Login.storage w' = Some (Login.access_token response) /\
        Login.location w' = Login.AtHome /\
        Login.error (Login.st w') = []
    | Throw err =>
        Login.storage w' = Login.storage w /\
        Login.location w' = Login.AtLogin /\
        Login.error (Login.st w') = message_or err (lit "Login failed")
    end /\
    (forall error,
       f = NotOk (Normal error) ->
       (forall d, detail error = Some d -> truthy d = true ->
                  Login.error (Login.st w') = d) /\
       (truthy_opt (detail error) = false ->
        Login.error (Login.st w') = lit "Login failed")).
Proof.
  intros Hloc.
  set (w1 := snd (Login.handleLogin_begin w)).
  assert (E1 : Login.handleLogin_begin w = (Normal tt, w1)) by reflexivity.
  assert (Hn : nth_error (Login.pending w1) (length (Login.pending w))
               = Some Login.AwaitLogin) by apply nth_error_last.
  destruct (login_settles_spec up _ f w1 Hloc Hn)
    as (w' & E & Hl & Hs & Hp & Hout).
  exists w'. split.
  { rewrite (login_run_cons up Login.EvSubmitLogin _ w w1 _ Hloc eq_refl E1).
    cbn [Login.run]. rewrite E. reflexivity. }
  split; [rewrite Hs; reflexivity|].
  split.
  { rewrite Hp.
    change (Login.pending w1) with (Login.pending w ++ [Login.AwaitLogin]).
    rewrite remove_nth_last. apply app_nil_r. }
  split; [exact Hl|]. split.
  - destruct (Login.login_settle f); destruct Hout as (H1 & H2 & H3);
      rewrite H1, H2, H3; repeat split.
  - intros error ->. cbn [Login.login_settle] in Hout.
    destruct Hout as (_ & _ & ->). cbn [message_or]. unfold or_else.
    split.
    + intros d Hd Hty. now rewrite Hd, Hty.
    + unfold truthy_opt. destruct (detail error); [now intros ->|reflexivity].
Qed.

Lemma login_attempt_witness :
  let w := Login.world_of
             (Login.run Login.asciiToUpperCase
                [Login.EvLoginEmail (lit "a@b.lk");
                 Login.EvLoginPassword (lit "secret")]
                (Login.start None)) in
  exists w',
    Login.run Login.asciiToUpperCase
      [Login.EvSubmitLogin;
       Login.EvLoginSettles (length (Login.pending w))
         (Ok (Normal (Login.mkAuthResponse (lit "jwt"))))]
      w = Some (Normal tt, w') /\
    Login.sent w'
      = [Login.PostLogin (Login.Cred.mk (lit "a@b.lk") (lit "secret"))] /\
    Login.loading (Login.st w') = false /\
    Login.storage w' = Some (lit "jwt") /\
    Login.location w' = Login.AtHome.
Proof.
  intros w.
  destruct (login_attempt Login.asciiToUpperCase
              (Ok (Normal (Login.mkAuthResponse (lit "jwt")))) w)
    as (w' & E & Hs & _ & Hl & (Ht & Hloc & _) & _).
  - reflexivity.
  - exists w'. repeat split; assumption.
Defined.

(** X17. A registration the form accepts, from the submission to the
    answer.  What is sent is the typed data with the confirmation filled in
    and with gender and language capitalized; [loading] is false again
    whatever the answer.  On success the token is stored at once and the
    success text is shown, but the page is left only when the timer fires.
    On failure nothing is stored and the error shown is the [detail] of the
    refusal when it is a non-empty string, else the text of the whole error
    body. *)
Theorem register_attempt (up : jsstring -> jsstring)
    (f : Fetched Login.RegisterError Login.AuthResponse) (w : Login.World) :
  let s := Login.st w in
  let pw := Login.Reg.password (Login.registerData s) in
  Login.location w = Login.AtLogin ->
  pw = Login.confirmPassword s ->
  (6 <= length pw)%nat ->
  exists w',
    Login.run up
      [Login.EvSubmitRegister;
       Login.EvRegisterSettles (length (Login.pending w)) f]
      w = Some (Normal tt, w') /\
    Login.sent w' = Login.sent w ++ [Login.PostRegister (Login.dataToSend up s)] /\
    Login.Reg.confirm_password (Login.dataToSend up s) = pw /\
    Login.Reg.gender (Login.dataToSend up s)
      = up (firstn 1 (Login.Reg.gender (Login.registerData s)))
        ++ skipn 1 (Login.Reg.gender (Login.registerData s)) /\
    Login.loading (Login.st w') = false /\
    Login.location w' = Login.AtLogin /\
    match Login.register_settle f with
    | Normal response =>
        Login.storage w' = Some (Login.access_token response) /\
        Login.success (Login.st w')
          = lit "Registration successful! Redirecting..." /\
        Login.error (Login.st w') = [] /\
        Login.pending w' = Login.pending w ++ [Login.NavigateTimer] /\
        exists w'',
          Login.step up (Login.EvTimer (length (Login.pending w))) w'
            = Some (Normal tt, w'') /\
          Login.location w'' = Login.AtHome /\
          Login.storage w'' = Some (Login.access_token response)
    | Throw err =>
        Login.storage w' = Login.storage w /\
        Login.success (Login.st w') = [] /\
        Login.error (Login.st w')
          = message_or err (lit "Registration failed") /\
        Login.pending w' = Login.pending w
    end /\
    (forall error,
       f = NotOk (Normal error) ->
       (forall d, Login.reg_detail error = Some d -> truthy d = true ->
                  Login.error (Login.st w') = d) /\
       (truthy_opt (Login.reg_detail error) = false ->
        truthy (Login.stringified error) = true ->
        Login.error (Login.st w') = Login.stringified error) /\
       (truthy_opt (Login.reg_detail error) = false ->
        truthy (Login.stringified error) = false ->
        Login.error (Login.st w') = lit "Registration failed")).
Proof.
  intros s pw Hloc Heq Hlen.
  destruct (handleRegister_begin_spec up w)
    as (w1 & E1 & _ & Hst1 & Hloc1 & _ & _ & _ & Hcase).
  cbn zeta in Hcase. fold s in Hcase. fold pw in Hcase.
  assert (Hj : jseqb pw (Login.confirmPassword s) = true)
    by now apply jseqb_eq.
  rewrite Hj in Hcase. cbn [negb] in Hcase.
  assert (Hlt : (length pw <? 6)%nat = false) by now apply Nat.ltb_ge.
  rewrite Hlt in Hcase. destruct Hcase as (He1 & _ & Hs1 & Hp1).
  rewrite Hloc in Hloc1.
  assert (Hn : nth_error (Login.pending w1) (length (Login.pending w))
               = Some Login.AwaitRegister).
  { rewrite Hp1. apply nth_error_last. }
  destruct (register_settles_spec up _ f w1 Hloc1 Hn)
    as (w' & E & Hl & Hs & Hloc' & Hout).
  assert (Hrm : remove_nth (length (Login.pending w)) (Login.pending w1)
                = Login.pending w).
  { rewrite Hp1, remove_nth_last. apply app_nil_r. }
  exists w'. split.
  { rewrite (login_run_cons up Login.EvSubmitRegister _ w w1 _ Hloc eq_refl
               E1).
    cbn [Login.run]. rewrite E. reflexivity. }
  split; [now rewrite Hs, Hs1|].
  split; [cbn; now rewrite Heq|]. split; [reflexivity|].
  split; [exact Hl|]. split; [exact Hloc'|]. split.
  - destruct (Login.register_settle f) as [response|err];
      destruct Hout as (H1 & H2 & H3 & H4); rewrite Hrm in H4.
    + split; [exact H1|]. split; [exact H2|].
      split; [now rewrite H3|]. split; [exact H4|].
      eexists. unfold Login.step. rewrite Hloc'.
      cbn [Login.handler]. rewrite H4, nth_error_last.
      split; [reflexivity|]. cbn. split; [reflexivity|exact H1].
    + split; [now rewrite H1|]. split; [rewrite H2|]; auto.
      destruct (handleRegister_begin_spec up w) as (w1' & E1' & Hsucc & _).
      rewrite E1 in E1'. injection E1' as <-. exact Hsucc.
  - intros error ->. cbn [Login.register_settle] in Hout.
    destruct Hout as (_ & _ & -> & _). cbn [message_or]. unfold or_else.
    split; [|split].
    + intros d Hd Hty. now rewrite Hd, Hty.
    + unfold truthy_opt. intros Hd ->.
      destruct (Login.reg_detail error); [now rewrite Hd|reflexivity].
    + unfold truthy_opt. intros Hd ->.
      destruct (Login.reg_detail error); [now rewrite Hd|reflexivity].
Qed.

Lemma register_attempt_witness :
  let w := Login.world_of
             (Login.run Login.asciiToUpperCase
                [Login.EvRegisterPassword (lit "abcdef");
                 Login.EvConfirmPassword (lit "abcdef");
                 Login.EvRegisterField Login.Gender (lit "female")]
                (Login.start None)) in
  exists w',
    Login.run Login.asciiToUpperCase
      [Login.EvSubmitRegister;
       Login.EvRegisterSettles (length (Login.pending w))
         (NotOk (Normal (Login.mkRegisterError None
                           (lit "{'email':['taken']}"))))]
      w = Some (Normal tt, w') /\
    Login.Reg.gender (Login.dataToSend Login.asciiToUpperCase (Login.st w))
      = lit "Female" /\
    Login.Reg.language (Login.dataToSend Login.asciiToUpperCase (Login.st w))
      = lit "Sinhala" /\
    Login.loading (Login.st w') = false /\
    Login.storage w' = None /\
    Login.error (Login.st w') = lit "{'email':['taken']}".
Proof.
  intros w.
  destruct (register_attempt Login.asciiToUpperCase
              (NotOk (Normal (Login.mkRegisterError None
                                (lit "{'email':['taken']}")))) w)
    as (w' & E & _ & _ & _ & Hl & _ & (Ht & _ & He & _) & _).
  - reflexivity.
  - reflexivity.
  - vm_compute. lia.
  - exists w'. split; [exact E|].
    split; [vm_compute; reflexivity|]. split; [vm_compute; reflexivity|].
    split; [exact Hl|]. split; [exact Ht|]. exact He.
Defined.

(* ================================================================== *)
(** ** The profile page *)

(** What one event of the profile page keeps. *)
Lemma profile_step_keeps (ev : Profile.Event) (w w' : Profile.World)
    (c : Completion unit) :
  Profile.step ev w = Some (c, w') ->
  c = Normal tt /\
  (Profile.successMessage (Profile.st w) = [] \/
   Profile.errorMessage (Profile.st w) = [] ->
   Profile.successMessage (Profile.st w') = [] \/
   Profile.errorMessage (Profile.st w') = []) /\
  exists added,
    Profile.sent w' = Profile.sent w ++ added /\
    Forall valid_call added /\
    Forall (fun rq => Profile.authorization rq = bearer (Profile.storage w))
      added.
Proof.
  intros Hstep. unfold Profile.step in Hstep.
  destruct (Profile.location w); [|discriminate].
  assert (Hnil : forall l : list Profile.Request,
             exists added,
               l = l ++ added /\ Forall valid_call added /\
               Forall (fun rq => Profile.authorization rq
                                 = bearer (Profile.storage w)) added).
  { intros l. exists []. rewrite app_nil_r. auto. }
  assert (Hone : forall (l : list Profile.Request) (cl : Profile.Call),
             valid_call {| Profile.call := cl;
                           Profile.authorization :=
                             bearer (Profile.storage w) |} ->
             exists added,
               l ++ [{| Profile.call := cl;
                        Profile.authorization := bearer (Profile.storage w) |}]
               = l ++ added /\ Forall valid_call added /\
               Forall (fun rq => Profile.authorization rq
                                 = bearer (Profile.storage w)) added).
  { intros l cl Hv. eexists [_]. split; [reflexivity|]. auto. }
  destruct ev as [x|fld v|z|fld v| | |confirmed confirmation| |n s];
    cbn [Profile.handler] in Hstep.
  - injection Hstep as <- <-. split; [reflexivity|]. split; [auto|apply Hnil].
  - injection Hstep as <- <-. split; [reflexivity|]. split; [auto|apply Hnil].
  - injection Hstep as <- <-. split; [reflexivity|]. split; [auto|apply Hnil].
  - injection Hstep as <- <-. split; [reflexivity|]. split; [auto|apply Hnil].
  - injection Hstep as <- <-. split; [reflexivity|]. split; [auto|].
    apply Hone. exact I.
  - unfold Profile.handleChangePassword_begin, Eff.bind, Profile.rendered
      in Hstep. cbn beta iota zeta in Hstep.
    destruct (negb (jseqb _ _)) eqn:Heq.
    { injection Hstep as <- <-. split; [reflexivity|].
      split; [intros _; now left|apply Hnil]. }
    destruct (length _ <? 6)%nat eqn:Hlen.
    { injection Hstep as <- <-. split; [reflexivity|].
      split; [intros _; now left|apply Hnil]. }
    injection Hstep as <- <-. split; [reflexivity|]. split; [auto|].
    apply Hone. apply negb_false_iff, jseqb_eq in Heq.
    apply Nat.ltb_ge in Hlen. split; assumption.
  - unfold Profile.handleDeleteAccount_begin in Hstep.
    destruct confirmed; cbn [negb] in Hstep.
    + destruct confirmation as [typed|].
      * destruct (negb (jseqb typed (lit "DELETE"))).
        -- injection Hstep as <- <-. split; [reflexivity|].
           split; [auto|apply Hnil].
        -- injection Hstep as <- <-. split; [reflexivity|]. split; [auto|].
           apply Hone. exact I.
      * injection Hstep as <- <-. split; [reflexivity|].
        split; [auto|apply Hnil].
    + injection Hstep as <- <-. split; [reflexivity|].
      split; [auto|apply Hnil].
  - injection Hstep as <- <-. split; [reflexivity|]. split; [auto|apply Hnil].
  - destruct (nth_error (Profile.pending w) n) as [p|]; [|discriminate].
    destruct p, s; cbn [Profile.resume] in Hstep; try discriminate.
    + destruct f as [e|eb|[u|e]]; injection Hstep as <- <-;
        (split; [reflexivity|]);
        (split; [cbn; auto|apply Hnil]).
    + destruct f as [e|[eb|e]|[u|e]]; injection Hstep as <- <-;
        (split; [reflexivity|]);
        (split; [cbn; auto|apply Hnil]).
    + destruct f as [e|[eb|e]|[u|e]]; injection Hstep as <- <-;
        (split; [reflexivity|]);
        (split; [cbn; auto|apply Hnil]).
    + destruct f as [e|[eb|e]|[u|e]]; injection Hstep as <- <-;
        (split; [reflexivity|]);
        (split; [cbn; auto|apply Hnil]).
    + injection Hstep as <- <-. split; [reflexivity|].
      split; [intros _; now left|apply Hnil].
    + injection Hstep as <- <-. split; [reflexivity|].
      split; [intros _; now right|apply Hnil].
Qed.

(** X18. The profile page never shows a success message and an error
    message together: in every state it reaches one of the two is empty,
    whatever the order of submissions, answers and timers.  No handler lets
    an exception escape. *)
Theorem profile_messages_exclusive (token : option jsstring)
    (evs : list Profile.Event) (w : Profile.World) (c : Completion unit) :
  Profile.run evs (Profile.boot token) = Some (c, w) ->
  c = Normal tt /\
  (Profile.successMessage (Profile.st w) = [] \/
   Profile.errorMessage (Profile.st w) = []).
Proof.
  assert (Hboot : Profile.successMessage (Profile.st (Profile.boot token)) = []
                  \/ Profile.errorMessage (Profile.st (Profile.boot token))
                     = []).
  { left. destruct token as [[|x r]|]; reflexivity. }
  revert Hboot. generalize (Profile.boot token).
  induction evs as [|ev rest IH]; intros w0 Hinv Hrun.
  - simpl in Hrun. injection Hrun as <- <-. auto.
  - cbn [Profile.run] in Hrun.
    destruct (Profile.step ev w0) as [[c1 w1]|] eqn:Hs; [|discriminate].
    destruct (profile_step_keeps ev w0 w1 _ Hs) as (-> & Hkeep & _).
    apply (IH w1 (Hkeep Hinv) Hrun).
Qed.

Lemma profile_messages_exclusive_witness :
  let evs := [Profile.EvSettle 0
                (Profile.ProfileSettles (Ok (Normal Profile.sampleUser)));
              Profile.EvSubmitUpdate;
              Profile.EvSettle 0
                (Profile.UpdateSettles (Ok (Normal Profile.sampleUser)));
              Profile.EvSubmitPassword] in
  let w := Profile.world_of (Profile.run evs (Profile.boot sampleToken)) in
  Profile.errorMessage (Profile.st w)
    = lit "Password must be at least 6 characters" /\
  Profile.pending w = [Profile.ClearSuccessTimer; Profile.ClearErrorTimer] /\
  (Profile.successMessage (Profile.st w) = [] \/
   Profile.errorMessage (Profile.st w) = []).
Proof.
  intros evs w. split; [vm_compute; reflexivity|].
  split; [vm_compute; reflexivity|].
  apply (profile_messages_exclusive sampleToken evs w (Normal tt)).
  vm_compute. reflexivity.
Defined.

(** X19. Whatever the profile page sends, a change of password is sent only
    with a new password of six code units or more that equals its
    confirmation, and every request carries the token stored when the page
    was opened. *)
Theorem profile_requests_are_valid (token : option jsstring)
    (evs : list Profile.Event) (w : Profile.World) :
  Profile.run evs (Profile.boot token) = Some (Normal tt, w) ->
  Forall valid_call (Profile.sent w) /\
  Forall (fun rq => Profile.authorization rq = token) (Profile.sent w).
Proof.
  intros Hrun.
  assert (Hgen : forall evs w0,
             Profile.run evs w0 = Some (Normal tt, w) ->
             Forall valid_call (Profile.sent w0) ->
             Forall (fun rq => Profile.authorization rq = bearer token)
               (Profile.sent w0) ->
             (Profile.location w0 = Profile.AtProfile ->
              Profile.storage w0 = token) ->
             Forall valid_call (Profile.sent w) /\
             Forall (fun rq => Profile.authorization rq = bearer token)
               (Profile.sent w)).
  { clear evs Hrun. intros evs. induction evs as [|ev rest IH];
      intros w0 Hrun Hv Ha Htok.
    - simpl in Hrun. injection Hrun as <-. auto.
    - cbn [Profile.run] in Hrun.
      destruct (Profile.step ev w0) as [[[[]|e] w1]|] eqn:Hs;
        try discriminate.
      assert (Hl0 : Profile.location w0 = Profile.AtProfile).
      { unfold Profile.step in Hs.
        destruct (Profile.location w0); [reflexivity|discriminate]. }
      destruct (profile_step_keeps ev w0 w1 _ Hs)
        as (_ & _ & added & Hsent & Hvalid & Hauth).
      rewrite (Htok Hl0) in Hauth.
      apply (IH w1 Hrun).
      + rewrite Hsent. apply Forall_app. auto.
      + rewrite Hsent. apply Forall_app. auto.
      + intros Hl1. rewrite <- (Htok Hl0).
        clear - Hs Hl1. unfold Profile.step in Hs.
        destruct (Profile.location w0); [|discriminate].
        destruct ev as [x|fld v|z|fld v| | |confirmed confirmation| |n s];
          cbn [Profile.handler] in Hs.
        * now injection Hs as <-.
        * now injection Hs as <-.
        * now injection Hs as <-.
        * now injection Hs as <-.
        * now injection Hs as <-.
        * unfold Profile.handleChangePassword_begin, Eff.bind,
            Profile.rendered in Hs. cbn beta iota zeta in Hs.
          destruct (negb (jseqb _ _)); [now injection Hs as <-|].
          destruct (length _ <? 6)%nat; now injection Hs as <-.
        * unfold Profile.handleDeleteAccount_begin in Hs.
          destruct confirmed; cbn [negb] in Hs;
            [destruct confirmation as [typed|];
             [destruct (negb (jseqb typed (lit "DELETE")))|]|];
            now injection Hs as <-.
        * injection Hs as <-. discriminate.
        * destruct (nth_error (Profile.pending w0) n) as [p|];
            [|discriminate].
          destruct p, s; cbn [Profile.resume] in Hs; try discriminate;
            try (destruct f as [e|[eb|e]|[u|e]]); injection Hs as <-;
            try reflexivity; try discriminate. }
  destruct token as [[|x r]|].
  - cbv in Hrun. destruct evs; [|discriminate].
    injection Hrun as <-. split; constructor.
  - destruct (Hgen evs (Profile.boot (Some (x :: r))) Hrun) as [Hv Ha].
    + repeat constructor.
    + repeat constructor.
    + reflexivity.
    + split; assumption.
  - cbv in Hrun. destruct evs; [|discriminate].
    injection Hrun as <-. split; constructor.
Qed.

Lemma profile_requests_are_valid_witness :
  let evs := [Profile.EvSettle 0
                (Profile.ProfileSettles (Ok (Normal Profile.sampleUser)));
              Profile.EvPwdField Profile.NewPassword (lit "abcdefg");
              Profile.EvSubmitPassword;
              Profile.EvPwdField Profile.ConfirmPassword (lit "abcdefg");
              Profile.EvSubmitPassword] in
  let w := Profile.world_of (Profile.run evs (Profile.boot sampleToken)) in
  map Profile.call (Profile.sent w)
    = [Profile.GetProfile;
       Profile.PostChangePassword [] (lit "abcdefg") (lit "abcdefg")] /\
  Forall valid_call (Profile.sent w) /\
  Forall (fun rq => Profile.authorization rq = sampleToken) (Profile.sent w).
Proof.
  intros evs w. split; [vm_compute; reflexivity|].
  apply (profile_requests_are_valid sampleToken evs w).
  vm_compute. reflexivity.
Defined.

(** X20. Opening the profile page with a token never logs the user out:
    however [profileApi.getProfile] settles, the token stays stored, the
    page is not left and [loading] ends false.  A failure of any kind only
    shows "Failed to load profile"; a success stores the user and copies the
    seven editable fields into the form. *)
Theorem profile_load_keeps_token (t : jsstring)
    (f : Fetched ErrorBody Profile.Usr.t) :
  truthy t = true ->
  exists w',
    Profile.run [Profile.EvSettle 0 (Profile.ProfileSettles f)]
      (Profile.boot (Some t)) = Some (Normal tt, w') /\
    Profile.loading (Profile.st (Profile.boot (Some t))) = true /\
    Profile.storage w' = Some t /\
    Profile.location w' = Profile.AtProfile /\
    Profile.loading (Profile.st w') = false /\
    Profile.sent w'
      = [{| Profile.call := Profile.GetProfile;
            Profile.authorization := Some t |}] /\
    match Profile.getProfile_settle f with
    | Normal userData =>
        Profile.user (Profile.st w') = Some userData /\
        Profile.editData (Profile.st w')
          = {| Profile.Edit.first_name := Profile.Usr.first_name userData;
               Profile.Edit.last_name := Profile.Usr.last_name userData;
               Profile.Edit.phone_number := Profile.Usr.phone_number userData;
               Profile.Edit.grade_level := Profile.Usr.grade_level userData;
               Profile.Edit.language := Profile.Usr.language userData;
               Profile.Edit.birthday := Profile.Usr.birthday userData;
               Profile.Edit.gender := Profile.Usr.gender userData |} /\
        Profile.errorMessage (Profile.st w') = [] /\
        Profile.pending w' = []
    | Throw _ =>
        Profile.user (Profile.st w') = None /\
        Profile.editData (Profile.st w')
          = Profile.editData Profile.initialState /\
        Profile.errorMessage (Profile.st w') = lit "Failed to load profile" /\
        Profile.pending w' = [Profile.ClearErrorTimer]
    end.
Proof.
  intros Ht. destruct t as [|x r]; [discriminate|].
  destruct (Profile.getProfile_settle f) as [u|e] eqn:Hf;
    (eexists; split;
     [cbn [Profile.run]; unfold Profile.step; cbn; rewrite Hf; reflexivity|]);
    cbn; repeat split.
Qed.

Lemma profile_load_keeps_token_witness :
  exists w',
    Profile.run
      [Profile.EvSettle 0 (Profile.ProfileSettles (NotOk (Throw NonError)))]
      (Profile.boot sampleToken) = Some (Normal tt, w') /\
    Profile.storage w' = sampleToken /\
    Profile.location w' = Profile.AtProfile /\
    Profile.loading (Profile.st w') = false /\
    Profile.errorMessage (Profile.st w') = lit "Failed to load profile".
Proof.
  destruct (profile_load_keeps_token (lit "token") (NotOk (Throw NonError)))
    as (w' & E & _ & Hs & Hl & Hld & _ & (_ & _ & He & _)).
  - reflexivity.
  - exists w'. repeat split; assumption.
Defined.

(** X21. An account is deleted only after both confirmations: the delete
    request is sent exactly when [confirm] was accepted and the text typed
    into [prompt] is "DELETE" to the letter; in every other case the click
    changes nothing at all. *)
Theorem delete_needs_both_confirmations (confirmed : bool)
    (confirmation : option jsstring) (w : Profile.World) :
  Profile.location w = Profile.AtProfile ->
  exists w',
    Profile.step (Profile.EvDeleteClick confirmed confirmation) w
      = Some (Normal tt, w') /\
    ((confirmed = true /\ confirmation = Some (lit "DELETE") /\
      Profile.sent w'
        = Profile.sent w ++
          [{| Profile.call := Profile.DeleteAccount;
              Profile.authorization := bearer (Profile.storage w) |}] /\
      Profile.pending w' = Profile.pending w ++ [Profile.AwaitDeleteAccount] /\
      Profile.st w' = Profile.st w /\
      Profile.storage w' = Profile.storage w /\
      Profile.location w' = Profile.AtProfile)
     \/
     (~ (confirmed = true /\ confirmation = Some (lit "DELETE")) /\ w' = w)).
Proof.
  intros Hloc. unfold Profile.step. rewrite Hloc. cbn [Profile.handler].
  unfold Profile.handleDeleteAccount_begin.
  destruct confirmed; cbn [negb].
  - destruct confirmation as [typed|].
    + destruct (jseqb typed (lit "DELETE")) eqn:Heq; cbn [negb].
      * apply jseqb_eq in Heq. subst typed.
        eexists. split; [reflexivity|]. left. cbn. rewrite Hloc.
        repeat split.
      * exists w. split; [reflexivity|]. right. split; [|reflexivity].
        intros [_ H]. injection H as ->.
        assert (Ht : jseqb (lit "DELETE") (lit "DELETE") = true)
          by reflexivity.
        congruence.
    + exists w. split; [reflexivity|]. right. split; [|reflexivity].
      intros [_ H]. discriminate.
  - exists w. split; [reflexivity|]. right. split; [|reflexivity].
    intros [H _]. discriminate.
Qed.

Lemma delete_needs_both_confirmations_witness :
  let w := Profile.world_of
             (Profile.run
                [Profile.EvSettle 0
                   (Profile.ProfileSettles (Ok (Normal Profile.sampleUser)))]
                (Profile.boot sampleToken)) in
  Profile.step (Profile.EvDeleteClick true (Some (lit "delete"))) w
    = Some (Normal tt, w) /\
  Profile.step (Profile.EvDeleteClick true (Some (lit "DELETE "))) w
    = Some (Normal tt, w) /\
  exists w',
    Profile.step (Profile.EvDeleteClick true (Some (lit "DELETE"))) w
      = Some (Normal tt, w') /\
    map Profile.call (Profile.sent w')
      = [Profile.GetProfile; Profile.DeleteAccount].
Proof.
  intros w. split; [vm_compute; reflexivity|].
  split; [vm_compute; reflexivity|].
  destruct (delete_needs_both_confirmations true (Some (lit "DELETE")) w)
    as (w' & E & [(_ & _ & Hs & _)|(Hno & _)]).
  - reflexivity.
  - exists w'. split; [exact E|]. rewrite Hs. vm_compute. reflexivity.
  - exfalso. apply Hno. split; reflexivity.
Defined.

(** Settling a pending call of the profile page, at whatever moment. *)
Lemma profile_settle_spec (n : nat) (p : Profile.Pending)
    (s : Profile.Settled) (k : Profile.M unit) (w : Profile.World) :
  Profile.location w = Profile.AtProfile ->
  nth_error (Profile.pending w) n = Some p ->
  Profile.resume p s = Some k ->
  Profile.step (Profile.EvSettle n s) w
  = Some (k {| Profile.st := Profile.st w; Profile.storage := Profile.storage w;
               Profile.location := Profile.AtProfile;
               Profile.sent := Profile.sent w;
               Profile.pending := remove_nth n (Profile.pending w) |}).
Proof.
  intros Hloc Hn Hk. unfold Profile.step. cbn [Profile.handler].
  rewrite Hn, Hk. unfold Eff.bind, Profile.forget, Eff.modify.
  rewrite Hloc. reflexivity.
Qed.

(** X22. When the answer to a delete request arrives: only a success removes
    the token and leaves for the login page; after a failure the token is
    still stored, the page is still shown, and the error is the [detail] of
    the refusal or, without one, "Failed to delete account". *)
Theorem delete_outcome (n : nat) (f : Fetched ErrorBody jsstring)
    (w : Profile.World) :
  Profile.location w = Profile.AtProfile ->
  nth_error (Profile.pending w) n = Some Profile.AwaitDeleteAccount ->
  exists w',
    Profile.step (Profile.EvSettle n (Profile.DeleteSettles f)) w
      = Some (Normal tt, w') /\
    Profile.sent w' = Profile.sent w /\
    match Profile.deleteAccount_settle f with
    | Normal _ =>
        Profile.storage w' = None /\ Profile.location w' = Profile.AtLogin /\
        Profile.st w' = Profile.st w
    | Throw error =>
        Profile.storage w' = Profile.storage w /\
        Profile.location w' = Profile.AtProfile /\
        Profile.errorMessage (Profile.st w')
          = message_or error (lit "Failed to delete account") /\
        Profile.successMessage (Profile.st w') = [] /\
        Profile.user (Profile.st w') = Profile.user (Profile.st w)
    end /\
    (forall error,
       f = NotOk (Normal error) ->
       truthy_opt (detail error) = false ->
       Profile.errorMessage (Profile.st w') = lit "Failed to delete account").
Proof.
  intros Hloc Hn.
  rewrite (profile_settle_spec n _ (Profile.DeleteSettles f) _ w Hloc Hn
             eq_refl).
  destruct (Profile.deleteAccount_settle f) as [m|e] eqn:Hf;
    (eexists; split;
     [unfold Profile.handleDeleteAccount_resume, Eff.tryCatch, Eff.bind,
        Eff.settled; reflexivity|]);
    cbn; rewrite ?Hloc; (split; [reflexivity|]); (split; [repeat split|]).
  - intros error ->. cbn in Hf. discriminate.
  - intros [[d|]] -> Hd; cbn in Hf, Hd; injection Hf as <-; cbn;
      unfold or_else; rewrite ?Hd; reflexivity.
Qed.

Lemma delete_outcome_witness :
  let w := Profile.world_of
             (Profile.run
                [Profile.EvSettle 0
                   (Profile.ProfileSettles (Ok (Normal Profile.sampleUser)));
                 Profile.EvDeleteClick true (Some (lit "DELETE"))]
                (Profile.boot sampleToken)) in
  exists w',
    Profile.step
      (Profile.EvSettle 0
         (Profile.DeleteSettles (NotOk (Normal (mkErrorBody None))))) w
      = Some (Normal tt, w') /\
    Profile.storage w' = sampleToken /\
    Profile.location w' = Profile.AtProfile /\
    Profile.errorMessage (Profile.st w') = lit "Failed to delete account".
Proof.
  intros w.
  destruct (delete_outcome 0 (NotOk (Normal (mkErrorBody None))) w)
    as (w' & E & _ & (Hs & Hl & He & _) & _).
  - reflexivity.
  - reflexivity.
  - exists w'. repeat split; assumption.
Defined.

(** X23. When the answer to a change of password arrives: a success shows
    the success message and empties the three password fields; a failure
    shows its message and leaves the fields as typed, so the user can
    correct and resubmit.  The profile itself is untouched either way. *)
Theorem change_password_outcome (n : nat) (f : Fetched ErrorBody jsstring)
    (w : Profile.World) :
  Profile.location w = Profile.AtProfile ->
  nth_error (Profile.pending w) n = Some Profile.AwaitChangePassword ->
  exists w',
    Profile.step (Profile.EvSettle n (Profile.PasswordSettles f)) w
      = Some (Normal tt, w') /\
    Profile.storage w' = Profile.storage w /\
    Profile.location w' = Profile.AtProfile /\
    Profile.user (Profile.st w') = Profile.user (Profile.st w) /\
    Profile.editData (Profile.st w') = Profile.editData (Profile.st w) /\
    match Profile.changePassword_settle f with
    | Normal _ =>
        Profile.successMessage (Profile.st w')
          = lit "Password changed successfully!" /\
        Profile.errorMessage (Profile.st w') = [] /\
        Profile.passwordData (Profile.st w')
          = {| Profile.Pwd.current_password := [];
               Profile.Pwd.new_password := [];
               Profile.Pwd.confirm_password := [] |} /\
        Profile.pending w'
          = remove_nth n (Profile.pending w) ++ [Profile.ClearSuccessTimer]
    | Throw error =>
        Profile.errorMessage (Profile.st w')
          = message_or error (lit "Failed to change password") /\
        Profile.successMessage (Profile.st w') = [] /\
        Profile.passwordData (Profile.st w')
          = Profile.passwordData (Profile.st w) /\
        Profile.pending w'
          = remove_nth n (Profile.pending w) ++ [Profile.ClearErrorTimer]
    end.
Proof.
  intros Hloc Hn.
  rewrite (profile_settle_spec n _ (Profile.PasswordSettles f) _ w Hloc Hn
             eq_refl).
  destruct (Profile.changePassword_settle f) as [m|e];
    (eexists; split; [reflexivity|]); cbn; rewrite ?Hloc; repeat split.
Qed.

Lemma change_password_outcome_witness :
  let w := Profile.world_of
             (Profile.run
                [Profile.EvSettle 0
                   (Profile.ProfileSettles (Ok (Normal Profile.sampleUser)));
                 Profile.EvPwdField Profile.CurrentPassword (lit "old-one");
                 Profile.EvPwdField Profile.NewPassword (lit "abcdefg");
                 Profile.EvPwdField Profile.ConfirmPassword (lit "abcdefg");
                 Profile.EvSubmitPassword]
                (Profile.boot sampleToken)) in
  exists w',
    Profile.step
      (Profile.EvSettle 0
         (Profile.PasswordSettles (Ok (Normal (lit "ok"))))) w
      = Some (Normal tt, w') /\
    Profile.Pwd.new_password (Profile.passwordData (Profile.st w))
      = lit "abcdefg" /\
    Profile.Pwd.new_password (Profile.passwordData (Profile.st w')) = [] /\
    Profile.successMessage (Profile.st w')
      = lit "Password changed successfully!".
Proof.
  intros w.
  destruct (change_password_outcome 0 (Ok (Normal (lit "ok"))) w)
    as (w' & E & _ & _ & _ & _ & (Hs & _ & Hp & _)).
  - reflexivity.
  - reflexivity.
  - exists w'. split; [exact E|]. split; [vm_compute; reflexivity|].
    split; [now rewrite Hp|exact Hs].
Defined.

(* ================================================================== *)
(** ** The two chat pages *)

Lemma not_welcome_user (text : jsstring) :
  not_welcome {| role := user_role; content := text; isMarkdown := false |}
  = true.
Proof. unfold not_welcome. cbn. now rewrite andb_false_r. Qed.

Lemma not_welcome_markdown (text : jsstring) :
  not_welcome {| role := assistant; content := text; isMarkdown := true |}
  = true.
Proof. unfold not_welcome. cbn. now rewrite andb_false_r. Qed.

Lemma not_welcome_error (message : jsstring) :
  not_welcome (errorEntry message) = true.
Proof. reflexivity. Qed.

Lemma not_welcome_reply (r : Completion SendBody) :
  not_welcome (replyEntry r) = true.
Proof.
  destruct r; [apply not_welcome_markdown | apply not_welcome_error].
Qed.

Lemma not_welcome_welcome : not_welcome welcomeEntry = false.
Proof. vm_compute. reflexivity. Qed.

Lemma filter_snoc_keep (l : list Message) (m : Message) :
  not_welcome m = true ->
  filter not_welcome (l ++ [m]) = filter not_welcome l ++ [m].
Proof. intros H. rewrite filter_app. cbn. now rewrite H. Qed.

Lemma filter_snoc_welcome (l : list Message) :
  filter not_welcome (l ++ [welcomeEntry]) = filter not_welcome l.
Proof.
  rewrite filter_app. cbn [filter]. rewrite not_welcome_welcome.
  apply app_nil_r.
Qed.

(** Read the completion and the world off a step that has run. *)
Ltac step_pair H :=
  first [ injection H as <- <-
        | injection H as H; cbn in H; injection H as <- <- ].

(** One event of the session-only page is one event of the page with
    modes. *)
Lemma same_conversation_step (ev : Event) (ws ws' : SessionChat.World)
    (w : World) (c : Completion unit) :
  same_conversation ws w ->
  SessionChat.step ev ws = Some (c, ws') ->
  exists w', step ev w = Some (c, w') /\ same_conversation ws' w'.
Proof.
  intros (Hu & Hsid & Hmode & Hmsg & Hin & Hld & Htok & Hrt & Hsent & Hfl & Hall)
         Hstep.
  destruct ws as [[su ssid smsgs sinp sld] stok srt ssent sfl].
  destruct w as [[u sid md msgs inp ld] tok rt snt fl].
  cbn in Hu, Hsid, Hmode, Hmsg, Hin, Hld, Htok, Hrt, Hsent, Hfl, Hall.
  subst su ssid md smsgs sinp sld stok srt ssent sfl.
  unfold SessionChat.step in Hstep. unfold step. cbn [SessionChat.route route]
    in *.
  destruct rt; [|discriminate].
  destruct ev as [v| |m| |n s]; cbn [SessionChat.handler handler] in *;
    try discriminate.
  - step_pair Hstep. eexists. split; [reflexivity|].
    repeat split; assumption.
  - unfold SessionChat.handleSubmit_begin, Eff.bind, SessionChat.rendered
      in Hstep.
    unfold handleSubmit_begin, bind, rendered, submit_refused.
    cbn [SessionChat.ui SessionChat.inputMessage SessionChat.isLoading
         ui inputMessage isLoading] in *.
    destruct (negb (truthy (trim inp)) || ld).
    + step_pair Hstep. eexists. split; [reflexivity|].
      repeat split; assumption.
    + step_pair Hstep. eexists. split; [reflexivity|].
      cbn. repeat split.
      * symmetry. apply filter_snoc_keep, not_welcome_user.
      * apply Forall_app. split; [exact Hall|].
        constructor; [discriminate|constructor].
  - cbn [SessionChat.inflight inflight] in *.
    destruct (nth_error fl n) as [p|] eqn:Hn; [|discriminate].
    assert (Hrest : Forall (fun p => p <> AwaitSendMessage stateless)
                      (remove_nth n fl)) by now apply Forall_remove_nth.
    assert (Hp : p <> AwaitSendMessage stateless).
    { rewrite Forall_forall in Hall. apply Hall.
      eapply nth_error_In; eauto. }
    destruct p as [| |m], s as [f|f|f];
      cbn [SessionChat.resume resume] in *; try discriminate.
    + destruct f as [e|eb|[us|e]]; step_pair Hstep;
        (eexists; split; [reflexivity|]); cbn; repeat split;
        try assumption.
      apply Forall_app. split; [exact Hrest|].
      constructor; [discriminate|constructor].
    + destruct f as [e|eb|[b|e]]; step_pair Hstep;
        (eexists; split; [reflexivity|]); cbn; repeat split;
        try assumption;
        try (symmetry; apply filter_snoc_keep, not_welcome_error).
      symmetry. apply filter_snoc_welcome.
    + destruct m; [|congruence].
      destruct f as [e|[eb|e]|[res|e]];
        try (step_pair Hstep;
             (eexists; split; [reflexivity|]); cbn; repeat split;
             try assumption;
             symmetry; apply filter_snoc_keep, not_welcome_error).
      unfold SessionChat.handleSubmit_resume, SessionChat.forget,
        Eff.tryFinally, Eff.tryCatch, Eff.bind, Eff.settled, Eff.modify
        in Hstep.
      unfold handleSubmit_resume, forget, tryFinally, tryCatch, bind, settled.
      cbn [sendMessage_settle mode_eqb andb] in *.
      destruct (truthy_opt (session_id res));
        step_pair Hstep;
        (eexists; split; [reflexivity|]); cbn; repeat split;
        try assumption;
        symmetry; apply filter_snoc_keep, not_welcome_markdown.
Qed.

(** X24. Every conversation with the session-only chat page is a
    conversation with the older page left in session mode: for the same
    token, the same events and the same answers, the two pages send the same
    requests in the same order, hold the same session handle, input and
    loading flag, and show the same transcript, except that the older page
    also shows its welcome entries. *)
Theorem session_only_page_simulated (token : option jsstring)
    (evs : list Event) (ws : SessionChat.World) (c : Completion unit) :
  SessionChat.run evs (SessionChat.boot token) = Some (c, ws) ->
  exists w,
    run evs (boot token) = Some (c, w) /\
    SessionChat.sent ws = sent w /\
    SessionChat.sessionId (SessionChat.ui ws) = sessionId (ui w) /\
    SessionChat.isLoading (SessionChat.ui ws) = isLoading (ui w) /\
    SessionChat.inputMessage (SessionChat.ui ws) = inputMessage (ui w) /\
    SessionChat.messages (SessionChat.ui ws)
      = filter not_welcome (messages (ui w)) /\
    SessionChat.route ws = route w /\
    SessionChat.access_token ws = access_token w.
Proof.
  intros Hrun.
  assert (Hboot : same_conversation (SessionChat.boot token) (boot token)).
  { destruct token as [[|x r]|]; cbv;
      repeat split; repeat constructor; discriminate. }
  assert (Hgen : forall evs ws0 w0,
             same_conversation ws0 w0 ->
             SessionChat.run evs ws0 = Some (c, ws) ->
             exists w, run evs w0 = Some (c, w) /\ same_conversation ws w).
  { clear. intros evs. induction evs as [|ev rest IH]; intros ws0 w0 HR Hrun.
    - simpl in Hrun. injection Hrun as <- <-. exists w0. auto.
    - cbn [SessionChat.run] in Hrun.
      destruct (SessionChat.step ev ws0) as [[c1 ws1]|] eqn:Hs;
        [|discriminate].
      destruct (same_conversation_step ev ws0 ws1 w0 c1 HR Hs)
        as (w1 & Hs1 & HR1).
      cbn [run]. rewrite Hs1. destruct c1 as [[]|e].
      + apply (IH ws1 w1 HR1 Hrun).
      + injection Hrun as <- <-. exists w1. auto. }
  destruct (Hgen evs _ _ Hboot Hrun)
    as (w & E & Hu & Hsid & _ & Hmsg & Hin & Hld & Htok & Hrt & Hsent & _).
  exists w. repeat split; assumption.
Qed.

Lemma session_only_page_simulated_witness :
  let evs := [EvSettle 0 (SettledUser (FetchOk (Normal (mkUser (lit "Nimal")))));
              EvSettle 0 (SettledSession
                            (FetchOk (Normal (mkSessionBody (lit "S1")))));
              EvChange (nth 1 SessionChat.suggestedPrompts []);
              EvSubmit;
              EvSettle 0 (SettledSend
                            (FetchOk (Normal (mkSendBody (lit "Sure.") None))))]
  in
  exists ws w,
    SessionChat.run evs (SessionChat.boot sampleToken) = Some (Normal tt, ws) /\
    run evs (boot sampleToken) = Some (Normal tt, w) /\
    SessionChat.sent ws = sent w /\
    length (SessionChat.messages (SessionChat.ui ws)) = 2%nat /\
    length (messages (ui w)) = 3%nat /\
    SessionChat.messages (SessionChat.ui ws)
      = filter not_welcome (messages (ui w)).
Proof.
  intros evs.
  pose (ws := match SessionChat.run evs (SessionChat.boot sampleToken) with
              | Some (_, x) => x
              | None => SessionChat.boot None
              end).
  destruct (session_only_page_simulated sampleToken evs ws (Normal tt))
    as (w & E & Hs & _ & _ & _ & Hm & _).
  - vm_compute. reflexivity.
  - exists ws, w. split; [vm_compute; reflexivity|]. split; [exact E|].
    split; [exact Hs|]. split; [vm_compute; reflexivity|].
    split; [|exact Hm].
    assert (Hw : Some (Normal tt, w) = run evs (boot sampleToken))
      by (symmetry; exact E).
    vm_compute in Hw. injection Hw as ->. reflexivity.
Defined.
